(** * Backend Mega Project: controllers over a document store

    A shallow embedding of the request handlers of
    [05_Backend_Mega_Project/src/controllers] (comments, videos, tweets,
    subscriptions, likes, playlists, users) and of [utils/cloudinary.js],
    together with the properties of the query-and-pagination layer, the
    authorization gate and the toggle operations.

    Collections are finite maps from [_id] to document; a handler is a
    computation in a state-and-exception monad over the store, written in
    the order of the JavaScript source. *)

From Stdlib Require Import NArith ZArith Ascii String List Bool Lia.
From stdpp Require Import base option list gmap fin_maps fin_sets strings sorting.

Local Open Scope string_scope.
Local Open Scope N_scope.

(** ** JavaScript values used by the handlers *)

Module Js.

(** White space recognised by [String.prototype.trim] and by [parseInt],
    restricted to the ASCII range: TAB, LF, VT, FF, CR and SPACE. *)
Definition isSpace (c : ascii) : bool :=
  let n := N_of_ascii c in
  ((9 <=? n) && (n <=? 13)) || (n =? 32).

Fixpoint trimStart (s : string) : string :=
  match s with
  | String c r => if isSpace c then trimStart r else s
  | EmptyString => EmptyString
  end.

(** [s.trim() === ""]: nothing but white space. *)
Fixpoint isBlank (s : string) : bool :=
  match s with
  | String c r => isSpace c && isBlank r
  | EmptyString => true
  end.

(** Truthiness of an optional string: [undefined] and [""] are falsy. *)
Definition truthy (v : option string) : bool :=
  match v with
  | Some s => negb (String.eqb s "")
  | None => false
  end.

(** The test [!content || content.trim() === ""] of the handlers. *)
Definition emptyText (v : option string) : bool :=
  match v with
  | Some s => negb (truthy v) || isBlank s
  | None => true
  end.

Definition digit (c : ascii) : option Z :=
  let n := N_of_ascii c in
  if (48 <=? n) && (n <=? 57) then Some (Z.of_N (n - 48)) else None.

(** The longest prefix of decimal digits, read as a number; the boolean
    records whether at least one digit was read. *)
Fixpoint digits (s : string) (seen : bool) (acc : Z) : bool * Z :=
  match s with
  | String c r =>
      match digit c with
      | Some d => digits r true (10 * acc + d)%Z
      | None => (seen, acc)
      end
  | EmptyString => (seen, acc)
  end.

(** A JavaScript number that is an integer or [NaN] ([None]).  Integers
  are exact here; JavaScript rounds them beyond 2^53. *)
Definition num := option Z.

(** [parseInt(s, 10)]: leading white space is skipped, one sign is
    accepted, the decimal digits that follow are read and the rest of the
    string is ignored; without a digit the result is [NaN]. *)
Definition parseInt (s : string) : num :=
  let t := trimStart s in
  let '(neg, body) :=
    match t with
    | String "-" r => (true, r)
    | String "+" r => (false, r)
    | _ => (false, t)
    end in
  match digits body false 0%Z with
  | (true, v) => Some (if neg then (- v)%Z else v)
  | (false, _) => None
  end.

(** [x > k] on numbers: every comparison with [NaN] is false. *)
Definition gt (x : num) (k : Z) : bool :=
  match x with
  | Some v => (k <? v)%Z
  | None => false
  end.

(** [String.prototype.toLowerCase] on ASCII letters. *)
Definition lowerAscii (c : ascii) : ascii :=
  let n := N_of_ascii c in
  if (65 <=? n) && (n <=? 90) then ascii_of_N (n + 32) else c.

Fixpoint toLowerCase (s : string) : string :=
  match s with
  | String c r => String (lowerAscii c) (toLowerCase r)
  | EmptyString => EmptyString
  end.

End Js.

(** ** Object identifiers *)

(** An [ObjectId] is a 96-bit value.  [toString] prints it as 24 lower-case
    hexadecimal digits; [mongoose.Types.ObjectId.isValid] accepts a string
    of 24 hexadecimal digits in either case, and casting such a string
    reads its value.  (The 12-byte strings that some versions of the
    driver accept as well are not modelled: here they are invalid.) *)
Module ObjectId.

Abbreviation t := N.

Definition hexValue (c : ascii) : option N :=
  let n := N_of_ascii c in
  if (48 <=? n) && (n <=? 57) then Some (n - 48)
  else if (97 <=? n) && (n <=? 102) then Some (n - 87)
  else if (65 <=? n) && (n <=? 70) then Some (n - 55)
  else None.

Fixpoint fromHex (s : string) (acc : N) : option N :=
  match s with
  | String c r =>
      match hexValue c with
      | Some d => fromHex r (16 * acc + d)
      | None => None
      end
  | EmptyString => Some acc
  end.

(** Casting a string to an identifier, as Mongoose does for the
    arguments of [findById] and for the values of a filter. *)
Definition cast (s : string) : option t :=
  if Nat.eqb (String.length s) 24 then fromHex s 0 else None.

Definition isValid (s : string) : bool :=
  match cast s with Some _ => true | None => false end.

Definition hexDigit (d : N) : ascii :=
  if d <? 10 then ascii_of_N (48 + d) else ascii_of_N (87 + d).

Fixpoint toHex (k : nat) (n : N) (acc : string) : string :=
  match k with
  | O => acc
  | S k' => toHex k' (n / 16) (String (hexDigit (n mod 16)) acc)
  end.

Definition toString (o : t) : string := toHex 24 o "".

End ObjectId.

Abbreviation ObjectId := N.

(** ** Documents

    Modelled from the spec: the schemas ([models/*.model.js]), which are
    not among the sources.  The fields are the ones the controllers read
    and write; following the data model of the specification, an owner, a
    liker, a subscriber and a channel are mandatory references, and a Like
    names its target in one of three optional fields. *)

Module User.
Record t := mk {
  username : string;
  email : string;
  fullName : string;
  avatar : string;
  coverImage : string }.
End User.

Module Video.
Record t := mk {
  videoFile : string;
  thumbnail : string;
  title : string;
  description : string;
  duration : N;
  views : N;
  isPublished : bool;
  owner : ObjectId;
  createdAt : N;
  updatedAt : N }.
End Video.

Module Comment.
Record t := mk {
  content : string;
  video : ObjectId;
  owner : ObjectId;
  createdAt : N }.
End Comment.

Module Tweet.
Record t := mk {
  content : string;
  owner : ObjectId;
  createdAt : N }.
End Tweet.

Module Like.
Record t := mk {
  video : option ObjectId;
  comment : option ObjectId;
  tweet : option ObjectId;
  likedBy : ObjectId }.
End Like.

Module Subscription.
Record t := mk {
  subscriber : ObjectId;
  channel : ObjectId }.
End Subscription.

Module Playlist.
Record t := mk {
  name : string;
  description : string;
  owner : ObjectId;
  videos : list ObjectId;
  createdAt : N;
  updatedAt : N }.
End Playlist.

(** What [cloudinary.uploader.upload] resolves to. *)
Record Resource := mkResource {
  url : string;
  mediaDuration : N }.

(** Effects on the outside world, in the order they happen. *)
Inductive Event :=
| Uploaded (path : string)
| UploadFailed (path : string)
| Unlinked (path : string).

(** ** The world a request runs in

    The seven collections, a clock for the timestamps, the local files of
    the upload directory, the behaviour of the remote media host (the
    resource an upload of a path yields, or [None] when it is rejected) and
    the log of outside effects. *)
Record World := mkWorld {
  users : gmap ObjectId User.t;
  videos : gmap ObjectId Video.t;
  comments : gmap ObjectId Comment.t;
  tweets : gmap ObjectId Tweet.t;
  likes : gmap ObjectId Like.t;
  subscriptions : gmap ObjectId Subscription.t;
  playlists : gmap ObjectId Playlist.t;
  clock : N;
  files : gset string;
  remote : string -> option Resource;
  log : list Event }.

Definition setVideos (f : gmap ObjectId Video.t -> gmap ObjectId Video.t) (w : World) : World :=
  mkWorld (users w) (f (videos w)) (comments w) (tweets w) (likes w)
          (subscriptions w) (playlists w) (clock w) (files w) (remote w) (log w).

Definition setComments (f : gmap ObjectId Comment.t -> gmap ObjectId Comment.t) (w : World) : World :=
  mkWorld (users w) (videos w) (f (comments w)) (tweets w) (likes w)
          (subscriptions w) (playlists w) (clock w) (files w) (remote w) (log w).

Definition setTweets (f : gmap ObjectId Tweet.t -> gmap ObjectId Tweet.t) (w : World) : World :=
  mkWorld (users w) (videos w) (comments w) (f (tweets w)) (likes w)
          (subscriptions w) (playlists w) (clock w) (files w) (remote w) (log w).

Definition setLikes (f : gmap ObjectId Like.t -> gmap ObjectId Like.t) (w : World) : World :=
  mkWorld (users w) (videos w) (comments w) (tweets w) (f (likes w))
          (subscriptions w) (playlists w) (clock w) (files w) (remote w) (log w).

Definition setSubscriptions
    (f : gmap ObjectId Subscription.t -> gmap ObjectId Subscription.t) (w : World) : World :=
  mkWorld (users w) (videos w) (comments w) (tweets w) (likes w)
          (f (subscriptions w)) (playlists w) (clock w) (files w) (remote w) (log w).

Definition setPlaylists (f : gmap ObjectId Playlist.t -> gmap ObjectId Playlist.t) (w : World) : World :=
  mkWorld (users w) (videos w) (comments w) (tweets w) (likes w)
          (subscriptions w) (f (playlists w)) (clock w) (files w) (remote w) (log w).

Definition tick (w : World) : World :=
  mkWorld (users w) (videos w) (comments w) (tweets w) (likes w)
          (subscriptions w) (playlists w) (clock w + 1) (files w) (remote w) (log w).

Definition setFiles (f : gset string -> gset string) (w : World) : World :=
  mkWorld (users w) (videos w) (comments w) (tweets w) (likes w)
          (subscriptions w) (playlists w) (clock w) (f (files w)) (remote w) (log w).

Definition emit (e : Event) (w : World) : World :=
  mkWorld (users w) (videos w) (comments w) (tweets w) (likes w)
          (subscriptions w) (playlists w) (clock w) (files w) (remote w) (log w ++ [e]).

(** ** Exceptions and the handler monad *)

(** What a handler can throw: an [ApiError] carrying its status code, or
    any other exception (a [TypeError], a cast or validation error of the
    object mapper). *)
Inductive Thrown :=
| ApiError (statusCode : N) (message : string)
| OtherError (name : string).

(** A computation reads and writes the world and either returns a value or
    throws; what it wrote before throwing stays written. *)
Definition M (A : Type) : Type := World -> World * (Thrown + A).

Definition ret {A} (a : A) : M A := fun w => (w, inr a).

Definition throw {A} (e : Thrown) : M A := fun w => (w, inl e).

Definition bind {A B} (c : M A) (k : A -> M B) : M B :=
  fun w =>
    match c w with
    | (w', inr a) => k a w'
    | (w', inl e) => (w', inl e)
    end.

Notation "'let*' x ':=' c 'in' k" := (bind c (fun x => k))
  (at level 10, x name, c at level 100, k at level 200, only parsing).

Notation "c ';;' k" := (bind c (fun _ => k))
  (at level 100, k at level 200, right associativity, only parsing).

Definition gets {A} (f : World -> A) : M A := fun w => (w, inr (f w)).

Definition modify (f : World -> World) : M unit := fun w => (f w, inr tt).

(** [if (b) throw e;] *)
Definition throwIf (b : bool) (e : Thrown) : M unit :=
  if b then throw e else ret tt.

(** ** Responses *)

(** Modelled from the spec: [new ApiResponse(statusCode, data, message)],
    a class that is not among the sources; its envelope is the one of the
    specification, [{ statusCode, data, message, success }]. *)
Record ApiResponse (D : Type) := mkApiResponse {
  statusCode : N;
  data : D;
  message : string;
  success : bool }.

Arguments mkApiResponse {D}.
Arguments statusCode {D}.
Arguments data {D}.
Arguments message {D}.
Arguments success {D}.

Definition apiResponse {D} (code : N) (d : D) (msg : string) : ApiResponse D :=
  mkApiResponse code d msg (code <? 400).

(** [res.status(s).json(body)] *)
Record Response (D : Type) := mkResponse {
  status : N;
  body : ApiResponse D }.

Arguments mkResponse {D}.
Arguments status {D}.
Arguments body {D}.

Definition respond {D} (s : N) (d : D) (msg : string) : M (Response D) :=
  ret (mkResponse s (apiResponse s d msg)).

(** What the client receives: the handler's response, or the answer of
    the error middleware of [app.js], which sends an [ApiError] with its
    own status code and anything else as a 500. *)
Inductive Reply (D : Type) :=
| Sent (r : Response D)
| Failed (code : N) (msg : string).

Arguments Sent {D}.
Arguments Failed {D}.

Definition errorMiddleware {D} (e : Thrown) : Reply D :=
  match e with
  | ApiError code msg => Failed code msg
  | OtherError _ => Failed 500 "Internal Server Error"
  end.

(** A route: the handler wrapped by [asyncHandler] (not among the sources:
    it hands what the handler throws to the error middleware), followed by
    the error middleware. *)
Definition serve {D} (h : M (Response D)) (w : World) : World * Reply D :=
  match h w with
  | (w', inr r) => (w', Sent r)
  | (w', inl e) => (w', errorMiddleware e)
  end.

Definition replyStatus {D} (r : Reply D) : N :=
  match r with
  | Sent r => status r
  | Failed code _ => code
  end.

Definition replyData {D} (r : Reply D) : option D :=
  match r with
  | Sent r => Some (data (body r))
  | Failed _ _ => None
  end.

(** ** Collections *)

(** Casting a request parameter where the object mapper expects an
    identifier; a string that is no identifier raises a cast error. *)
Definition castId (s : string) : M ObjectId :=
  match ObjectId.cast s with
  | Some o => ret o
  | None => throw (OtherError "CastError")
  end.

Section Collection.
Context {A : Type}.

(** [Model.findOne(filter)]: a document that matches, with its [_id]. *)
Definition findOne (p : A -> bool) (c : gmap ObjectId A) : option (ObjectId * A) :=
  List.find (fun kv => p kv.2) (map_to_list c).

(** [Model.countDocuments(filter)] *)
Definition countDocuments (p : A -> bool) (c : gmap ObjectId A) : nat :=
  length (List.filter (fun kv => p kv.2) (map_to_list c)).

(** The identifier given to a new document: one not in the collection. *)
Definition newId (c : gmap ObjectId A) : ObjectId := fresh (dom c).

End Collection.

(** [Model.findById(id)] on a request parameter. *)
Definition findById {A} (coll : World -> gmap ObjectId A) (id : string) : M (option A) :=
  let* o := castId id in
  gets (fun w => coll w !! o).

(** [if (!x) throw e;] after a lookup. *)
Definition orThrow {A} (x : option A) (e : Thrown) : M A :=
  match x with
  | Some a => ret a
  | None => throw e
  end.

(** A filter value [field: req.user?._id]: without a user it is
    [undefined], which no stored reference equals. *)
Definition refIs (ref : ObjectId) (v : option ObjectId) : bool :=
  bool_decide (Some ref = v).

(** ** like.controllers.js *)

(** [{ videoId | commentId | tweetId, liked, likeCount }] *)
Record LikeToggled := mkLikeToggled {
  targetId : string;
  liked : bool;
  likeCount : nat }.

Definition videoIs (vid : ObjectId) (l : Like.t) : bool :=
  bool_decide (Like.video l = Some vid).

Definition commentIs (cid : ObjectId) (l : Like.t) : bool :=
  bool_decide (Like.comment l = Some cid).

Definition tweetIs (tid : ObjectId) (l : Like.t) : bool :=
  bool_decide (Like.tweet l = Some tid).

(** [Like.create({ ..., likedBy })]; the liker is a mandatory reference. *)
Definition Like_create (video comment tweet likedBy : option ObjectId) : M unit :=
  match likedBy with
  | Some u =>
      modify (fun w => setLikes (insert (newId (likes w)) (Like.mk video comment tweet u)) w)
  | None => throw (OtherError "ValidationError")
  end.

Definition Like_findByIdAndDelete (id : ObjectId) : M unit :=
  modify (setLikes (delete id)).

Definition toggleVideoLike (user : option ObjectId) (videoId : string)
  : M (Response LikeToggled) :=
  let userId := user in
  throwIf (negb (ObjectId.isValid videoId)) (ApiError 400 "Invalid video ID format") ;;
  let* video := findById videos videoId in
  let* video := orThrow video (ApiError 404 "Video not found") in
  throwIf (negb (Video.isPublished video)) (ApiError 403 "Cannot like an unpublished video") ;;
  let* vid := castId videoId in
  let* existingLike :=
    gets (fun w => findOne (fun l => videoIs vid l && refIs (Like.likedBy l) userId) (likes w)) in
  let* outcome :=
    match existingLike with
    | Some existing =>
        Like_findByIdAndDelete existing.1 ;;
        ret (false, "Video unliked successfully")
    | None =>
        Like_create (Some vid) None None userId ;;
        ret (true, "Video liked successfully")
    end in
  let* likeCount := gets (fun w => countDocuments (videoIs vid) (likes w)) in
  respond 200 (mkLikeToggled videoId outcome.1 likeCount) outcome.2.

Definition toggleCommentLike (user : option ObjectId) (commentId : string)
  : M (Response LikeToggled) :=
  let userId := user in
  throwIf (negb (ObjectId.isValid commentId)) (ApiError 400 "Invalid comment ID format") ;;
  let* comment := findById comments commentId in
  let* comment := orThrow comment (ApiError 404 "Comment not found") in
  let* cid := castId commentId in
  let* existingLike :=
    gets (fun w => findOne (fun l => commentIs cid l && refIs (Like.likedBy l) userId) (likes w)) in
  let* outcome :=
    match existingLike with
    | Some existing =>
        Like_findByIdAndDelete existing.1 ;;
        ret (false, "Comment unliked successfully")
    | None =>
        Like_create None (Some cid) None userId ;;
        ret (true, "Comment liked successfully")
    end in
  let* likeCount := gets (fun w => countDocuments (commentIs cid) (likes w)) in
  respond 200 (mkLikeToggled commentId outcome.1 likeCount) outcome.2.

Definition toggleTweetLike (user : option ObjectId) (tweetId : string)
  : M (Response LikeToggled) :=
  let userId := user in
  throwIf (negb (ObjectId.isValid tweetId)) (ApiError 400 "Invalid tweet ID format") ;;
  let* tweet := findById tweets tweetId in
  let* tweet := orThrow tweet (ApiError 404 "Tweet not found") in
  let* tid := castId tweetId in
  let* existingLike :=
    gets (fun w => findOne (fun l => tweetIs tid l && refIs (Like.likedBy l) userId) (likes w)) in
  let* outcome :=
    match existingLike with
    | Some existing =>
        Like_findByIdAndDelete existing.1 ;;
        ret (false, "Tweet unliked successfully")
    | None =>
        Like_create None None (Some tid) userId ;;
        ret (true, "Tweet liked successfully")
    end in
  let* likeCount := gets (fun w => countDocuments (tweetIs tid) (likes w)) in
  respond 200 (mkLikeToggled tweetId outcome.1 likeCount) outcome.2.

(** ** subscription.controllers.js *)

(** [{ channelId, subscribed, subscriberCount }] *)
Record SubscriptionToggled := mkSubscriptionToggled {
  channelId : string;
  subscribed : bool;
  subscriberCount : nat }.

Definition channelIs (c : ObjectId) (s : Subscription.t) : bool :=
  bool_decide (Subscription.channel s = c).

Definition Subscription_create (subscriber : option ObjectId) (channel : ObjectId) : M unit :=
  match subscriber with
  | Some u =>
      modify (fun w =>
        setSubscriptions (insert (newId (subscriptions w)) (Subscription.mk u channel)) w)
  | None => throw (OtherError "ValidationError")
  end.

Definition Subscription_findByIdAndDelete (id : ObjectId) : M unit :=
  modify (setSubscriptions (delete id)).

(** [subscriberId.toString()]: a [TypeError] when there is no user. *)
Definition toStringOf (v : option ObjectId) : M string :=
  match v with
  | Some o => ret (ObjectId.toString o)
  | None => throw (OtherError "TypeError")
  end.

Definition toggleSubscription (user : option ObjectId) (channelId : string)
  : M (Response SubscriptionToggled) :=
  let subscriberId := user in
  throwIf (negb (ObjectId.isValid channelId)) (ApiError 400 "Invalid channel ID format") ;;
  let* subscriberText := toStringOf subscriberId in
  throwIf (String.eqb channelId subscriberText)
          (ApiError 400 "Users cannot subscribe to their own channel") ;;
  let* channel := findById users channelId in
  let* channel := orThrow channel (ApiError 404 "Channel (user) not found") in
  let* cid := castId channelId in
  let* existingSubscription :=
    gets (fun w =>
      findOne (fun s => refIs (Subscription.subscriber s) subscriberId && channelIs cid s)
              (subscriptions w)) in
  let* outcome :=
    match existingSubscription with
    | Some existing =>
        Subscription_findByIdAndDelete existing.1 ;;
        ret (false, "Unsubscribed successfully")
    | None =>
        Subscription_create subscriberId cid ;;
        ret (true, "Subscribed successfully")
    end in
  let* subscriberCount := gets (fun w => countDocuments (channelIs cid) (subscriptions w)) in
  respond 200 (mkSubscriptionToggled channelId outcome.1 subscriberCount) outcome.2.

(** ** Pagination *)

(** [options] as the controllers build it:
    [{ page: parseInt(page, 10), limit: parseInt(limit, 10), customLabels }]. *)
Record PaginateOptions := mkOptions {
  page : Js.num;
  limit : Js.num;
  totalDocsLabel : string;
  docsLabel : string }.

(** The result of the paginator, with the field names of the
    specification; [itemsLabel] and [totalLabel] are the names under which
    a resource publishes [items] and [totalItems]. *)
Record Page (A : Type) := mkPage {
  items : list A;
  totalItems : nat;
  currentPage : Z;
  pageSize : Z;
  totalPages : Z;
  hasNextPage : bool;
  hasPrevPage : bool;
  itemsLabel : string;
  totalLabel : string }.

Arguments mkPage {A}.
Arguments items {A}.
Arguments totalItems {A}.
Arguments currentPage {A}.
Arguments pageSize {A}.
Arguments totalPages {A}.
Arguments hasNextPage {A}.
Arguments hasPrevPage {A}.
Arguments itemsLabel {A}.
Arguments totalLabel {A}.

(** A page or a limit that is not a positive integer is replaced by the
    default. *)
Definition positiveOr (d : Z) (x : Js.num) : Z :=
  match x with
  | Some v => if (0 <? v)%Z then v else d
  | None => d
  end.

(** Modelled from the spec: [Model.aggregatePaginate], the pagination
    plugin of the object mapper, which is not among the sources.  The
    specification gives its contract: [page] and [limit] are coerced to
    positive integers, invalid or missing values default to page 1 and
    limit 10; the window of the page is cut out of the ordered sequence;
    the total counts the whole sequence; a page beyond the last one is
    empty and has no next page. *)
Definition aggregatePaginate {A} (aggregate : list A) (options : PaginateOptions) : Page A :=
  let p := positiveOr 1 (page options) in
  let l := positiveOr 10 (limit options) in
  let total := length aggregate in
  mkPage (take (Z.to_nat l) (drop (Z.to_nat ((p - 1) * l)) aggregate))
         total p l
         ((Z.of_nat total + l - 1) / l)%Z
         (p * l <? Z.of_nat total)%Z
         (1 <? p)%Z
         (docsLabel options) (totalDocsLabel options).

(** The [page] and [limit] of [req.query]; a missing parameter is
    [undefined]. *)
Record PageQuery := mkPageQuery {
  queryPage : option string;
  queryLimit : option string }.

(** [const { page = 1, limit = 10 } = req.query]: the default replaces a
    missing parameter only ([parseInt] reads the number 1 as ["1"]). *)
Definition pageText (q : PageQuery) : string := default "1" (queryPage q).

Definition limitText (q : PageQuery) : string := default "10" (queryLimit q).

Definition paginateOptions (q : PageQuery) (totalDocsLabel docsLabel : string)
  : PaginateOptions :=
  mkOptions (Js.parseInt (pageText q)) (Js.parseInt (limitText q)) totalDocsLabel docsLabel.

(** The three shapes of [data] a listing answers with. *)
Inductive Listing (A : Type) :=
| NoMore (docsLabel : string)    (* [{ <docs>: [], nextPage: null }] *)
| Nothing                        (* [[]] *)
| Listed (result : Page A).      (* the paginator's result *)

Arguments NoMore {A}.
Arguments Nothing {A}.
Arguments Listed {A}.

(** The items of a listing, whatever its shape. *)
Definition listedItems {A} (d : Listing A) : list A :=
  match d with
  | NoMore _ => []
  | Nothing => []
  | Listed r => items r
  end.



(** The end of every listing controller: build the options, paginate the
    aggregate, and answer in one of three ways.  The controllers repeat
    this text with their own labels and messages. *)
Definition paginated {A} (aggregate : list A) (q : PageQuery)
    (totalDocsLabel docsLabel : string) (noMore none found : string)
  : M (Response (Listing A)) :=
  let options := paginateOptions q totalDocsLabel docsLabel in
  let result := aggregatePaginate aggregate options in
  if Nat.eqb (length (items result)) 0 && Js.gt (Js.parseInt (pageText q)) 1
  then respond 200 (NoMore docsLabel) noMore
  else if Nat.eqb (length (items result)) 0
  then respond 200 Nothing none
  else respond 200 (Listed result) found.

(** ** Stages of the aggregation pipelines *)

(** A value of an expression: [null] or an identifier. *)
Inductive Bson :=
| BNull
| BObjectId (o : ObjectId).

Global Instance Bson_eq_dec : EqDecision Bson.
Proof. solve_decision. Defined.

(** [req.user?._id] inside an array of a pipeline: [undefined] is sent
    as [null]. *)
Definition userValue (user : option ObjectId) : Bson :=
  match user with
  | Some o => BObjectId o
  | None => BNull
  end.

(** [{ $in: [v, array] }] *)
Definition inArray (v : Bson) (array : list Bson) : bool := bool_decide (v ∈ array).

(** [$lookup]: the documents of [from] that the join condition selects. *)
Definition lookup {B} (from : gmap ObjectId B) (on : ObjectId -> B -> bool)
  : list (ObjectId * B) :=
  List.filter (fun kv => on kv.1 kv.2) (map_to_list from).

(** The sub-pipeline [{ $project: { username: 1, avatar: 1, fullName: 1 } }]
    of the joins with [users]. *)
Record Profile := mkProfile {
  profileId : ObjectId;
  profileUsername : string;
  profileAvatar : string;
  profileFullName : string }.

Definition projectProfile (kv : ObjectId * User.t) : Profile :=
  mkProfile kv.1 (User.username kv.2) (User.avatar kv.2) (User.fullName kv.2).

Definition ownerDetails (w : World) (owner : ObjectId) : list Profile :=
  projectProfile <$> lookup (users w) (fun id _ => bool_decide (id = owner)).

(** [{ $sort: { <key>: -1 } }] *)
Definition descending {A} (key : A -> N) (a b : A) : Prop := key b <= key a.

Global Instance descending_dec {A} (key : A -> N) : RelDecision (descending key).
Proof. intros a b. unfold descending. apply _. Defined.

Definition sortDescending {A} (key : A -> N) (l : list A) : list A :=
  merge_sort (descending key) l.

(** [{ $sort: { <key>: 1 } }] on a text field. *)
Definition ascendingText {A} (key : A -> string) (a b : A) : Prop :=
  String.leb (key a) (key b) = true.

Global Instance ascendingText_dec {A} (key : A -> string) : RelDecision (ascendingText key).
Proof. intros a b. unfold ascendingText. apply _. Defined.

Definition sortAscendingText {A} (key : A -> string) (l : list A) : list A :=
  merge_sort (ascendingText key) l.

(** [{ $match: ... }]: the documents of the collection the filter keeps. *)
Definition matching {B} (coll : gmap ObjectId B) (p : ObjectId -> B -> bool)
  : list (ObjectId * B) :=
  List.filter (fun kv => p kv.1 kv.2) (map_to_list coll).

(** [a.toString() !== req.user?._id.toString()]: without a user the right
    side is [undefined], which differs from every text. *)
Definition differs (a : ObjectId) (user : option ObjectId) : bool :=
  match user with
  | Some u => negb (String.eqb (ObjectId.toString a) (ObjectId.toString u))
  | None => true
  end.

(** [Model.findByIdAndDelete(id)]: the removed document, if there was one. *)
Definition findByIdAndDelete {A} (coll : World -> gmap ObjectId A)
    (set : (gmap ObjectId A -> gmap ObjectId A) -> World -> World) (id : string)
  : M (option A) :=
  let* o := castId id in
  let* found := gets (fun w => coll w !! o) in
  modify (set (delete o)) ;;
  ret found.

(** ** utils/cloudinary.js *)

Definition upload (path : string) : M Resource :=
  fun w =>
    match remote w path with
    | Some r => (emit (Uploaded path) w, inr r)
    | None => (emit (UploadFailed path) w, inl (OtherError "UploadError"))
    end.

(** [fs.unlinkSync]: removing a file that is not there throws. *)
Definition unlinkSync (path : string) : M unit :=
  fun w =>
    if decide (path ∈ files w)
    then (emit (Unlinked path) (setFiles (fun f => f ∖ {[path]}) w), inr tt)
    else (w, inl (OtherError "ENOENT")).

Definition existsSync (path : string) : M bool :=
  gets (fun w => bool_decide (path ∈ files w)).

(** [try { c } catch (error) { h error }] *)
Definition tryCatch {A} (c : M A) (h : Thrown -> M A) : M A :=
  fun w =>
    match c w with
    | (w', inl e) => h e w'
    | (w', inr a) => (w', inr a)
    end.

Definition uploadOnCloudinary (localFilePath : option string) : M (option Resource) :=
  tryCatch
    (if negb (Js.truthy localFilePath) then ret None
     else
       let path := default "" localFilePath in
       let* resources := upload path in
       unlinkSync path ;;
       ret (Some resources))
    (fun error =>
       let path := default "" localFilePath in
       let* there := (if Js.truthy localFilePath then existsSync path else ret false) in
       (if there then unlinkSync path else ret tt) ;;
       ret None).

(** ** comment.controllers.js *)

(** A comment of the listing, after [$addFields] and [$project]. *)
Record CommentView := mkCommentView {
  commentViewId : ObjectId;
  commentViewContent : string;
  commentViewCreatedAt : N;
  commentViewOwner : option Profile;
  commentViewLikeCount : nat;
  commentViewIsLiked : bool }.

(** The [likedBy] fields of joined likes: the array ["$likes.likedBy"]. *)
Definition likedByOf (joined : list (ObjectId * Like.t)) : list Bson :=
  (fun kv => BObjectId (Like.likedBy kv.2)) <$> joined.

Definition commentView (user : option ObjectId) (w : World) (kv : ObjectId * Comment.t)
  : CommentView :=
  let owners := ownerDetails w (Comment.owner kv.2) in
  let joined := lookup (likes w) (fun _ l => commentIs kv.1 l) in
  mkCommentView kv.1 (Comment.content kv.2) (Comment.createdAt kv.2)
    (head owners)
    (length joined)
    (if inArray (userValue user) (likedByOf joined) then true else false).

Definition commentAggregate (user : option ObjectId) (vid : ObjectId) (w : World)
  : list CommentView :=
  sortDescending commentViewCreatedAt
    (commentView user w <$> matching (comments w) (fun _ c => bool_decide (Comment.video c = vid))).

Definition getVideoComments (user : option ObjectId) (videoId : string) (q : PageQuery)
  : M (Response (Listing CommentView)) :=
  throwIf (negb (ObjectId.isValid videoId)) (ApiError 400 "Invalid video ID format") ;;
  let* vid := castId videoId in
  let* aggregate := gets (commentAggregate user vid) in
  paginated aggregate q "totalComments" "comments"
    "No more comments found for this video"
    "No comments found for this video"
    "Comments fetched successfully".

(** A comment with its owner populated
    ([.populate("owner", "username avatar fullName")]). *)
Record PopulatedComment := mkPopulatedComment {
  populatedId : ObjectId;
  populatedContent : string;
  populatedVideo : ObjectId;
  populatedOwner : option Profile;
  populatedCreatedAt : N }.

Definition populateComment (w : World) (id : ObjectId) : option PopulatedComment :=
  (fun c =>
     mkPopulatedComment id (Comment.content c) (Comment.video c)
       ((fun u => projectProfile (Comment.owner c, u)) <$> users w !! Comment.owner c)
       (Comment.createdAt c))
  <$> comments w !! id.

(** [Comment.create({ content, video, owner })]: the new [_id].  A creation
    resolves to the document or throws; the test [if (!comment)] that
    follows it in the source never fires, here and in the other
    controllers. *)
Definition Comment_create (content : string) (video : ObjectId) (owner : option ObjectId)
  : M ObjectId :=
  match owner with
  | Some u =>
      let* id := gets (fun w => newId (comments w)) in
      modify (fun w => tick (setComments (insert id (Comment.mk content video u (clock w))) w)) ;;
      ret id
  | None => throw (OtherError "ValidationError")
  end.

Definition addComment (user : option ObjectId) (videoId : string) (content : option string)
  : M (Response (option PopulatedComment)) :=
  throwIf (negb (ObjectId.isValid videoId)) (ApiError 400 "Invalid video ID format") ;;
  throwIf (Js.emptyText content) (ApiError 400 "Comment content cannot be empty") ;;
  let* video := findById videos videoId in
  let* video := orThrow video (ApiError 404 "Video not found, cannot add comment") in
  throwIf (negb (Video.isPublished video))
          (ApiError 403 "Cannot comment on an unpublished video") ;;
  let* vid := castId videoId in
  let* comment := Comment_create (default "" content) vid user in
  let* createdComment := gets (fun w => populateComment w comment) in
  respond 201 createdComment "Comment added successfully".

Definition updateComment (user : option ObjectId) (commentId : string) (content : option string)
  : M (Response (option PopulatedComment)) :=
  throwIf (negb (ObjectId.isValid commentId)) (ApiError 400 "Invalid comment ID format") ;;
  throwIf (Js.emptyText content) (ApiError 400 "Comment content cannot be empty") ;;
  let* comment := findById comments commentId in
  let* comment := orThrow comment (ApiError 404 "Comment not found") in
  throwIf (differs (Comment.owner comment) user)
          (ApiError 403 "You are not authorized to update this comment") ;;
  let* cid := castId commentId in
  modify (setComments (insert cid
    (Comment.mk (default "" content) (Comment.video comment) (Comment.owner comment)
                (Comment.createdAt comment)))) ;;
  let* populatedComment := gets (fun w => populateComment w cid) in
  respond 200 populatedComment "Comment updated successfully".

Definition deleteComment (user : option ObjectId) (commentId : string)
  : M (Response string) :=
  throwIf (negb (ObjectId.isValid commentId)) (ApiError 400 "Invalid comment ID format") ;;
  let* comment := findById comments commentId in
  let* comment := orThrow comment (ApiError 404 "Comment not found") in
  (if differs (Comment.owner comment) user
   then
     let* videoOfComment := gets (fun w => videos w !! Comment.video comment) in
     throwIf (match videoOfComment with
              | Some v => differs (Video.owner v) user
              | None => true
              end)
             (ApiError 403 "You are not authorized to delete this comment")
   else ret tt) ;;
  let* deletionResult := findByIdAndDelete comments setComments commentId in
  orThrow deletionResult (ApiError 500 "Something went wrong while deleting the comment") ;;
  respond 200 commentId "Comment deleted successfully".

(** ** video.controllers.js *)

(** A video of the listing, after [$addFields] and [$project]. *)
Record VideoView := mkVideoView {
  videoViewId : ObjectId;
  videoViewFile : string;
  videoViewThumbnail : string;
  videoViewTitle : string;
  videoViewDescription : string;
  videoViewDuration : N;
  videoViewViews : N;
  videoViewIsPublished : bool;
  videoViewOwner : option Profile;
  videoViewCreatedAt : N;
  videoViewUpdatedAt : N;
  videoViewLikeCount : nat }.

Definition videoView (w : World) (kv : ObjectId * Video.t) : VideoView :=
  let owners := ownerDetails w (Video.owner kv.2) in
  let joined := lookup (likes w) (fun _ l => videoIs kv.1 l) in
  mkVideoView kv.1 (Video.videoFile kv.2) (Video.thumbnail kv.2) (Video.title kv.2)
    (Video.description kv.2) (Video.duration kv.2) (Video.views kv.2)
    (Video.isPublished kv.2) (head owners) (Video.createdAt kv.2) (Video.updatedAt kv.2)
    (length joined).

Section VideoListing.

(** The database's part in [getAllVideos]: whether a text matches a
    pattern ([$regex] with option [i]), and the order [$sort] gives for a
    field chosen by the request (ascending when the flag is set). *)
Variable regex : string -> string -> bool.
Variable sortOn : string -> bool -> list VideoView -> list VideoView.

Definition videoAggregate (query : option string) (owner : option ObjectId)
    (sortBy sortType : string) (w : World) : list VideoView :=
  let published := matching (videos w) (fun _ v => Video.isPublished v) in
  let searched :=
    if Js.truthy query
    then List.filter (fun kv => regex (default "" query) (Video.title kv.2)
                                || regex (default "" query) (Video.description kv.2))
                     published
    else published in
  let owned :=
    match owner with
    | Some o => List.filter (fun kv => bool_decide (Video.owner kv.2 = o)) searched
    | None => searched
    end in
  let projected := videoView w <$> owned in
  if Js.truthy (Some sortBy) && Js.truthy (Some sortType)
  then sortOn sortBy (String.eqb sortType "asc") projected
  else sortDescending videoViewCreatedAt projected.

Definition getAllVideos (q : PageQuery) (query sortBy sortType userId : option string)
  : M (Response (Listing VideoView)) :=
  let sortBy := default "createdAt" sortBy in
  let sortType := default "desc" sortType in
  let* owner :=
    (if Js.truthy userId
     then
       throwIf (negb (ObjectId.isValid (default "" userId)))
               (ApiError 400 "Invalid userId format") ;;
       let* o := castId (default "" userId) in
       ret (Some o)
     else ret None) in
  let* aggregate := gets (videoAggregate query owner sortBy sortType) in
  paginated aggregate q "totalVideos" "videos"
    "No more videos found"
    "No videos found matching your criteria"
    "Videos fetched successfully".

End VideoListing.

(** [Video.create({ ..., owner, isPublished: true })] *)
Definition Video_create (title description videoFile thumbnail : string) (duration : N)
    (owner : option ObjectId) : M (ObjectId * Video.t) :=
  match owner with
  | Some u =>
      let* id := gets (fun w => newId (videos w)) in
      let* now := gets clock in
      let video := Video.mk videoFile thumbnail title description duration 0 true u now now in
      modify (fun w => tick (setVideos (insert id video) w)) ;;
      ret (id, video)
  | None => throw (OtherError "ValidationError")
  end.

(** [!r || !r.url] for the result of an upload. *)
Definition noUrl (r : option Resource) : bool :=
  match r with
  | Some r => negb (Js.truthy (Some (url r)))
  | None => true
  end.

Definition publishAVideo (user : option ObjectId) (title description : option string)
    (videoFileLocalPath thumbnailLocalPath : option string)
  : M (Response (ObjectId * Video.t)) :=
  throwIf (Js.emptyText title) (ApiError 400 "Title is required") ;;
  throwIf (Js.emptyText description) (ApiError 400 "Description is required") ;;
  throwIf (negb (Js.truthy videoFileLocalPath)) (ApiError 400 "Video file is required") ;;
  throwIf (negb (Js.truthy thumbnailLocalPath)) (ApiError 400 "Thumbnail file is required") ;;
  let* videoFile := uploadOnCloudinary videoFileLocalPath in
  let* thumbnail := uploadOnCloudinary thumbnailLocalPath in
  throwIf (noUrl videoFile) (ApiError 500 "Error uploading video file to Cloudinary") ;;
  throwIf (noUrl thumbnail) (ApiError 500 "Error uploading thumbnail to Cloudinary") ;;
  let* video :=
    Video_create (default "" title) (default "" description)
      (default "" (url <$> videoFile)) (default "" (url <$> thumbnail))
      (default 0 (mediaDuration <$> videoFile)) user in
  respond 201 video "Video published successfully".

(** The video of [getVideoById], after [$addFields] and [$project]. *)
Record VideoDetails := mkVideoDetails {
  detailsView : VideoView;
  detailsIsLiked : bool }.

Definition videoDetailsOf (user : option ObjectId) (w : World) (kv : ObjectId * Video.t)
  : VideoDetails :=
  let joined := lookup (likes w) (fun _ l => videoIs kv.1 l) in
  mkVideoDetails (videoView w kv)
    (if inArray (userValue user) (likedByOf joined) then true else false).

Definition videoDetailsAggregate (user : option ObjectId) (vid : ObjectId) (w : World)
  : list VideoDetails :=
  videoDetailsOf user w <$> matching (videos w) (fun id _ => bool_decide (id = vid)).

Definition getVideoById (user : option ObjectId) (videoId : string)
  : M (Response VideoDetails) :=
  throwIf (negb (ObjectId.isValid videoId)) (ApiError 400 "Invalid video ID format") ;;
  let* video := findById videos videoId in
  let* video := orThrow video (ApiError 404 "Video not found") in
  let* vid := castId videoId in
  (if Video.isPublished video
   then modify (setVideos (insert vid
          (Video.mk (Video.videoFile video) (Video.thumbnail video) (Video.title video)
             (Video.description video) (Video.duration video) (Video.views video + 1)
             (Video.isPublished video) (Video.owner video) (Video.createdAt video)
             (Video.updatedAt video))))
   else ret tt) ;;
  let* videoDetails := gets (videoDetailsAggregate user vid) in
  let* first := orThrow (head videoDetails) (ApiError 404 "Video not found after aggregation") in
  respond 200 first "Video fetched successfully".

(** [{ $set: updateFields }] of [updateVideo]: a field that was not set
    keeps its value. *)
Definition setVideoFields (title description thumbnail : option string) (now : N)
    (v : Video.t) : Video.t :=
  Video.mk (Video.videoFile v) (default (Video.thumbnail v) thumbnail)
    (default (Video.title v) title) (default (Video.description v) description)
    (Video.duration v) (Video.views v) (Video.isPublished v) (Video.owner v)
    (Video.createdAt v) now.

(** [title && title.trim() !== ""]: the text to set, if any. *)
Definition textToSet (v : option string) : option string :=
  if Js.emptyText v then None else v.

(** [.select("-owner")]: the stored video without its owner. *)
Record VideoSansOwner := mkVideoSansOwner {
  sansOwnerId : ObjectId;
  sansOwnerFile : string;
  sansOwnerThumbnail : string;
  sansOwnerTitle : string;
  sansOwnerDescription : string;
  sansOwnerDuration : N;
  sansOwnerViews : N;
  sansOwnerIsPublished : bool;
  sansOwnerCreatedAt : N;
  sansOwnerUpdatedAt : N }.

Definition selectSansOwner (id : ObjectId) (v : Video.t) : VideoSansOwner :=
  mkVideoSansOwner id (Video.videoFile v) (Video.thumbnail v) (Video.title v)
    (Video.description v) (Video.duration v) (Video.views v) (Video.isPublished v)
    (Video.createdAt v) (Video.updatedAt v).

Definition updateVideo (user : option ObjectId) (videoId : string)
    (title description thumbnailLocalPath : option string)
  : M (Response (option VideoSansOwner)) :=
  throwIf (negb (ObjectId.isValid videoId)) (ApiError 400 "Invalid video ID format") ;;
  throwIf (negb (Js.truthy title) && negb (Js.truthy description)
           && negb (Js.truthy thumbnailLocalPath))
    (ApiError 400 "At least one field (title, description, or thumbnail) must be provided for update.") ;;
  let* video := findById videos videoId in
  let* video := orThrow video (ApiError 404 "Video not found") in
  throwIf (differs (Video.owner video) user)
          (ApiError 403 "You are not authorized to update this video") ;;
  let* newThumbnail :=
    (if Js.truthy thumbnailLocalPath
     then
       let* thumbnailUploadResult := uploadOnCloudinary thumbnailLocalPath in
       throwIf (noUrl thumbnailUploadResult)
               (ApiError 500 "Error uploading new thumbnail to Cloudinary") ;;
       ret (url <$> thumbnailUploadResult)
     else ret None) in
  let* vid := castId videoId in
  let* now := gets clock in
  modify (fun w => tick (setVideos
    (alter (setVideoFields (textToSet title) (textToSet description) newThumbnail now) vid) w)) ;;
  let* updatedVideo := gets (fun w => selectSansOwner vid <$> videos w !! vid) in
  orThrow updatedVideo (ApiError 500 "Something went wrong while updating the video details") ;;
  respond 200 updatedVideo "Video details updated successfully".

Definition deleteVideo (user : option ObjectId) (videoId : string) : M (Response string) :=
  throwIf (negb (ObjectId.isValid videoId)) (ApiError 400 "Invalid video ID format") ;;
  let* video := findById videos videoId in
  let* video := orThrow video (ApiError 404 "Video not found") in
  throwIf (differs (Video.owner video) user)
          (ApiError 403 "You are not authorized to delete this video") ;;
  let* deletionResult := findByIdAndDelete videos setVideos videoId in
  orThrow deletionResult (ApiError 500 "Something went wrong while deleting the video") ;;
  respond 200 videoId "Video deleted successfully".

Definition togglePublishStatus (user : option ObjectId) (videoId : string)
  : M (Response (ObjectId * bool)) :=
  throwIf (negb (ObjectId.isValid videoId)) (ApiError 400 "Invalid video ID format") ;;
  let* video := findById videos videoId in
  let* video := orThrow video (ApiError 404 "Video not found") in
  throwIf (differs (Video.owner video) user)
          (ApiError 403 "You are not authorized to change the publish status of this video") ;;
  let* vid := castId videoId in
  modify (setVideos (insert vid
    (Video.mk (Video.videoFile video) (Video.thumbnail video) (Video.title video)
       (Video.description video) (Video.duration video) (Video.views video)
       (negb (Video.isPublished video)) (Video.owner video) (Video.createdAt video)
       (Video.updatedAt video)))) ;;
  respond 200 (vid, negb (Video.isPublished video)) "Video publish status toggled successfully".

(** ** tweet.controllers.js *)

Definition Tweet_create (content : string) (owner : option ObjectId)
  : M (ObjectId * Tweet.t) :=
  match owner with
  | Some u =>
      let* id := gets (fun w => newId (tweets w)) in
      let* now := gets clock in
      let tweet := Tweet.mk content u now in
      modify (fun w => tick (setTweets (insert id tweet) w)) ;;
      ret (id, tweet)
  | None => throw (OtherError "ValidationError")
  end.

Definition createTweet (user : option ObjectId) (content : option string)
  : M (Response (ObjectId * Tweet.t)) :=
  throwIf (Js.emptyText content) (ApiError 400 "Tweet content cannot be empty") ;;
  let* tweet := Tweet_create (default "" content) user in
  respond 201 tweet "Tweet created successfully".

(** A tweet of the listing, after [$addFields] and [$project]. *)
Record TweetView := mkTweetView {
  tweetViewId : ObjectId;
  tweetViewContent : string;
  tweetViewOwner : option Profile;
  tweetViewCreatedAt : N;
  tweetViewLikeCount : nat;
  tweetViewIsLiked : bool }.

Definition tweetView (user : option ObjectId) (w : World) (kv : ObjectId * Tweet.t)
  : TweetView :=
  let owners := ownerDetails w (Tweet.owner kv.2) in
  let joined := lookup (likes w) (fun _ l => tweetIs kv.1 l) in
  mkTweetView kv.1 (Tweet.content kv.2) (head owners) (Tweet.createdAt kv.2)
    (length joined)
    (if inArray (userValue user) (likedByOf joined) then true else false).

Definition tweetAggregate (user : option ObjectId) (uid : ObjectId) (w : World)
  : list TweetView :=
  sortDescending tweetViewCreatedAt
    (tweetView user w <$> matching (tweets w) (fun _ t => bool_decide (Tweet.owner t = uid))).

Definition getUserTweets (user : option ObjectId) (userId : string) (q : PageQuery)
  : M (Response (Listing TweetView)) :=
  throwIf (negb (ObjectId.isValid userId)) (ApiError 400 "Invalid user ID format") ;;
  let* owner := findById users userId in
  orThrow owner (ApiError 404 "User not found") ;;
  let* uid := castId userId in
  let* aggregate := gets (tweetAggregate user uid) in
  paginated aggregate q "totalTweets" "tweets"
    "No more tweets found for this user"
    "User has not tweeted yet"
    "User tweets fetched successfully".

Definition updateTweet (user : option ObjectId) (tweetId : string) (content : option string)
  : M (Response (ObjectId * Tweet.t)) :=
  throwIf (negb (ObjectId.isValid tweetId)) (ApiError 400 "Invalid tweet ID format") ;;
  throwIf (Js.emptyText content) (ApiError 400 "Tweet content cannot be empty") ;;
  let* tweet := findById tweets tweetId in
  let* tweet := orThrow tweet (ApiError 404 "Tweet not found") in
  throwIf (differs (Tweet.owner tweet) user)
          (ApiError 403 "You are not authorized to update this tweet") ;;
  let* tid := castId tweetId in
  let updatedTweet := Tweet.mk (default "" content) (Tweet.owner tweet) (Tweet.createdAt tweet) in
  modify (setTweets (insert tid updatedTweet)) ;;
  respond 200 (tid, updatedTweet) "Tweet updated successfully".

Definition deleteTweet (user : option ObjectId) (tweetId : string) : M (Response string) :=
  throwIf (negb (ObjectId.isValid tweetId)) (ApiError 400 "Invalid tweet ID format") ;;
  let* tweet := findById tweets tweetId in
  let* tweet := orThrow tweet (ApiError 404 "Tweet not found") in
  throwIf (differs (Tweet.owner tweet) user)
          (ApiError 403 "You are not authorized to delete this tweet") ;;
  let* deletionResult := findByIdAndDelete tweets setTweets tweetId in
  orThrow deletionResult (ApiError 500 "Something went wrong while deleting the tweet") ;;
  respond 200 tweetId "Tweet deleted successfully".

(** ** subscription.controllers.js: the two listings *)

(** [$lookup] of one user, [$unwind] and [$replaceRoot]: a subscription
    whose user is gone yields nothing. *)
Definition unwoundProfiles (w : World) (refs : list ObjectId) : list Profile :=
  refs ≫= ownerDetails w.

(** The last stage sorts by [createdAt], a field the projection of the
    join has dropped: every document compares alike and the order stays. *)
Definition subscribersAggregate (cid : ObjectId) (w : World) : list Profile :=
  unwoundProfiles w
    ((fun kv => Subscription.subscriber kv.2) <$> matching (subscriptions w) (fun _ s => channelIs cid s)).

Definition getUserChannelSubscribers (channelId : string) (q : PageQuery)
  : M (Response (Listing Profile)) :=
  throwIf (negb (ObjectId.isValid channelId)) (ApiError 400 "Invalid channel ID format") ;;
  let* channel := findById users channelId in
  orThrow channel (ApiError 404 "Channel not found") ;;
  let* cid := castId channelId in
  let* aggregate := gets (subscribersAggregate cid) in
  paginated aggregate q "totalSubscribers" "subscribers"
    "No more subscribers found for this channel"
    "Channel has no subscribers yet"
    "Subscribers fetched successfully".

Definition subscribedChannelsAggregate (sid : ObjectId) (w : World) : list Profile :=
  sortAscendingText profileUsername
    (unwoundProfiles w
       ((fun kv => Subscription.channel kv.2)
        <$> matching (subscriptions w) (fun _ s => bool_decide (Subscription.subscriber s = sid)))).

Definition getSubscribedChannels (subscriberId : string) (q : PageQuery)
  : M (Response (Listing Profile)) :=
  throwIf (negb (ObjectId.isValid subscriberId)) (ApiError 400 "Invalid subscriber ID format") ;;
  let* subscriberUser := findById users subscriberId in
  orThrow subscriberUser (ApiError 404 "Subscriber (user) not found") ;;
  let* sid := castId subscriberId in
  let* aggregate := gets (subscribedChannelsAggregate sid) in
  paginated aggregate q "totalSubscribedChannels" "subscribedChannels"
    "No more subscribed channels found"
    "User has not subscribed to any channels yet"
    "Subscribed channels fetched successfully".

(** ** like.controllers.js: the liked videos *)

(** A liked video, after the inner [$project] and [$replaceRoot]. *)
Record LikedVideo := mkLikedVideo {
  likedVideoId : ObjectId;
  likedVideoFile : string;
  likedVideoThumbnail : string;
  likedVideoTitle : string;
  likedVideoDescription : string;
  likedVideoDuration : N;
  likedVideoViews : N;
  likedVideoIsPublished : bool;
  likedVideoOwner : option Profile;
  likedVideoCreatedAt : N;
  likedVideoUpdatedAt : N }.

Definition likedVideo (w : World) (kv : ObjectId * Video.t) : LikedVideo :=
  mkLikedVideo kv.1 (Video.videoFile kv.2) (Video.thumbnail kv.2) (Video.title kv.2)
    (Video.description kv.2) (Video.duration kv.2) (Video.views kv.2)
    (Video.isPublished kv.2) (head (ownerDetails w (Video.owner kv.2)))
    (Video.createdAt kv.2) (Video.updatedAt kv.2).

(** Without a user, [new ObjectId(undefined)] is a new identifier, which
    no like refers to. *)
Definition likedVideosAggregate (user : option ObjectId) (w : World) : list LikedVideo :=
  sortDescending likedVideoCreatedAt
    (matching (likes w) (fun _ l => refIs (Like.likedBy l) user && bool_decide (is_Some (Like.video l)))
     ≫= fun like =>
          likedVideo w <$> lookup (videos w) (fun id _ => bool_decide (Like.video like.2 = Some id))).

Definition getLikedVideos (user : option ObjectId) (q : PageQuery)
  : M (Response (Listing LikedVideo)) :=
  let* aggregate := gets (likedVideosAggregate user) in
  paginated aggregate q "totalLikedVideos" "likedVideos"
    "No more liked videos found"
    "No liked videos found"
    "Liked videos fetched successfully".

(** ** playlist.controllers.js *)

Definition Playlist_create (name description : string) (owner : option ObjectId)
  : M (ObjectId * Playlist.t) :=
  match owner with
  | Some u =>
      let* id := gets (fun w => newId (playlists w)) in
      let* now := gets clock in
      let playlist := Playlist.mk name description u [] now now in
      modify (fun w => tick (setPlaylists (insert id playlist) w)) ;;
      ret (id, playlist)
  | None => throw (OtherError "ValidationError")
  end.

Definition createPlaylist (user : option ObjectId) (name description : option string)
  : M (Response (ObjectId * Playlist.t)) :=
  let userId := user in
  throwIf (Js.emptyText name) (ApiError 400 "Playlist name is required") ;;
  let* playlist :=
    Playlist_create (default "" name)
      (if Js.truthy description then default "" description else "") userId in
  respond 201 playlist "Playlist created successfully".

(** A playlist of the listing, after [$addFields] and [$project]. *)
Record PlaylistView := mkPlaylistView {
  playlistViewId : ObjectId;
  playlistViewName : string;
  playlistViewDescription : string;
  playlistViewCreatedAt : N;
  playlistViewUpdatedAt : N;
  playlistViewOwner : ObjectId;
  playlistViewTotalVideos : nat;
  playlistViewPreviewThumbnails : list string }.

Definition playlistView (w : World) (kv : ObjectId * Playlist.t) : PlaylistView :=
  let playlistVideosDetails :=
    lookup (videos w) (fun id _ => bool_decide (id ∈ Playlist.videos kv.2)) in
  mkPlaylistView kv.1 (Playlist.name kv.2) (Playlist.description kv.2)
    (Playlist.createdAt kv.2) (Playlist.updatedAt kv.2) (Playlist.owner kv.2)
    (length (Playlist.videos kv.2))
    (take 3 ((fun v => Video.thumbnail v.2) <$> playlistVideosDetails)).

Definition playlistAggregate (uid : ObjectId) (w : World) : list PlaylistView :=
  sortDescending playlistViewUpdatedAt
    (playlistView w <$> matching (playlists w) (fun _ p => bool_decide (Playlist.owner p = uid))).

Definition getUserPlaylists (userId : string) (q : PageQuery)
  : M (Response (Listing PlaylistView)) :=
  throwIf (negb (ObjectId.isValid userId)) (ApiError 400 "Invalid user ID format") ;;
  let* owner := findById users userId in
  orThrow owner (ApiError 404 "User not found") ;;
  let* uid := castId userId in
  let* aggregate := gets (playlistAggregate uid) in
  paginated aggregate q "totalPlaylists" "playlists"
    "No more playlists found for this user"
    "User has no playlists yet"
    "User playlists fetched successfully".

(** [playlist.owner.toString() !== userId.toString()]: here the user's
    identifier is read without guard, a [TypeError] when there is none. *)
Definition differsFrom (a : ObjectId) (user : option ObjectId) : M bool :=
  let* text := toStringOf user in
  ret (negb (String.eqb (ObjectId.toString a) text)).

(** [array.includes(id)] and [array.indexOf(id) !== -1] on an array of
    identifiers, asked with the text of a request parameter: the text is
    compared with the text of each element. *)
Definition includesText (id : string) (array : list ObjectId) : bool :=
  existsb (fun o => String.eqb id (ObjectId.toString o)) array.

Definition withVideos (videos : list ObjectId) (now : N) (p : Playlist.t) : Playlist.t :=
  Playlist.mk (Playlist.name p) (Playlist.description p) (Playlist.owner p) videos
    (Playlist.createdAt p) now.

Definition addVideoToPlaylist (user : option ObjectId) (playlistId videoId : string)
  : M (Response (ObjectId * Playlist.t)) :=
  let userId := user in
  throwIf (negb (ObjectId.isValid playlistId) || negb (ObjectId.isValid videoId))
          (ApiError 400 "Invalid Playlist or Video ID format") ;;
  let* playlist := findById playlists playlistId in
  let* playlist := orThrow playlist (ApiError 404 "Playlist not found") in
  let* foreign := differsFrom (Playlist.owner playlist) userId in
  throwIf foreign (ApiError 403 "You are not authorized to add videos to this playlist") ;;
  let* video := findById videos videoId in
  let* video := orThrow video (ApiError 404 "Video not found") in
  throwIf (negb (Video.isPublished video))
          (ApiError 400 "Cannot add an unpublished video to playlist") ;;
  throwIf (includesText videoId (Playlist.videos playlist))
          (ApiError 400 "Video already exists in this playlist") ;;
  let* vid := castId videoId in
  let* pid := castId playlistId in
  let* now := gets clock in
  let updatedPlaylist := withVideos (Playlist.videos playlist ++ [vid]) now playlist in
  modify (fun w => tick (setPlaylists (insert pid updatedPlaylist) w)) ;;
  respond 200 (pid, updatedPlaylist) "Video added to playlist successfully".

Definition removeVideoFromPlaylist (user : option ObjectId) (playlistId videoId : string)
  : M (Response (ObjectId * Playlist.t)) :=
  let userId := user in
  throwIf (negb (ObjectId.isValid playlistId) || negb (ObjectId.isValid videoId))
          (ApiError 400 "Invalid Playlist or Video ID format") ;;
  let* playlist := findById playlists playlistId in
  let* playlist := orThrow playlist (ApiError 404 "Playlist not found") in
  let* foreign := differsFrom (Playlist.owner playlist) userId in
  throwIf foreign (ApiError 403 "You are not authorized to remove videos from this playlist") ;;
  throwIf (negb (includesText videoId (Playlist.videos playlist)))
          (ApiError 404 "Video not found in this playlist") ;;
  let* vid := castId videoId in
  let* pid := castId playlistId in
  let* now := gets clock in
  let updatedPlaylist :=
    withVideos (List.filter (fun v => negb (bool_decide (v = vid))) (Playlist.videos playlist))
               now playlist in
  modify (fun w => tick (setPlaylists (insert pid updatedPlaylist) w)) ;;
  respond 200 (pid, updatedPlaylist) "Video removed from playlist successfully".

Definition deletePlaylist (user : option ObjectId) (playlistId : string)
  : M (Response string) :=
  let userId := user in
  throwIf (negb (ObjectId.isValid playlistId)) (ApiError 400 "Invalid playlist ID format") ;;
  let* playlist := findById playlists playlistId in
  let* playlist := orThrow playlist (ApiError 404 "Playlist not found") in
  let* foreign := differsFrom (Playlist.owner playlist) userId in
  throwIf foreign (ApiError 403 "You are not authorized to delete this playlist") ;;
  let* deletionResult := findByIdAndDelete playlists setPlaylists playlistId in
  orThrow deletionResult (ApiError 500 "Something went wrong while deleting the playlist") ;;
  respond 200 playlistId "Playlist deleted successfully".

(** [{ $set: updateFields }] of [updatePlaylist]. *)
Definition setPlaylistFields (name description : option string) (now : N) (p : Playlist.t)
  : Playlist.t :=
  Playlist.mk (default (Playlist.name p) name) (default (Playlist.description p) description)
    (Playlist.owner p) (Playlist.videos p) (Playlist.createdAt p) now.

Definition updatePlaylist (user : option ObjectId) (playlistId : string)
    (name description : option string)
  : M (Response (option (ObjectId * Playlist.t))) :=
  let userId := user in
  throwIf (negb (ObjectId.isValid playlistId)) (ApiError 400 "Invalid playlist ID format") ;;
  throwIf (Js.emptyText name && Js.emptyText description)
          (ApiError 400 "Either name or description must be provided to update the playlist") ;;
  let* playlist := findById playlists playlistId in
  let* playlist := orThrow playlist (ApiError 404 "Playlist not found") in
  let* foreign := differsFrom (Playlist.owner playlist) userId in
  throwIf foreign (ApiError 403 "You are not authorized to update this playlist") ;;
  let* pid := castId playlistId in
  let* now := gets clock in
  modify (fun w => tick (setPlaylists
    (alter (setPlaylistFields (textToSet name) description now) pid) w)) ;;
  let* updatedPlaylist := gets (fun w => (fun p => (pid, p)) <$> playlists w !! pid) in
  orThrow updatedPlaylist (ApiError 500 "Something went wrong while updating the playlist") ;;
  respond 200 updatedPlaylist "Playlist updated successfully".

(** ** user.controllers.js: the channel profile *)

Record ChannelProfile := mkChannelProfile {
  channelProfileId : ObjectId;
  channelFullName : string;
  channelEmail : string;
  channelUsername : string;
  channelAvatar : string;
  channelCoverImage : string;
  channelSubscriberCount : nat;
  channelsSubscribedToCount : nat;
  channelIsSubscribed : bool }.

(** The [subscriber] fields of joined subscriptions: the array
    ["$subscribers.subscriber"]. *)
Definition subscriberOf (joined : list (ObjectId * Subscription.t)) : list Bson :=
  (fun kv => BObjectId (Subscription.subscriber kv.2)) <$> joined.

Definition channelProfile (user : option ObjectId) (w : World) (kv : ObjectId * User.t)
  : ChannelProfile :=
  let subscribers := lookup (subscriptions w) (fun _ s => channelIs kv.1 s) in
  let subscribedTo :=
    lookup (subscriptions w) (fun _ s => bool_decide (Subscription.subscriber s = kv.1)) in
  mkChannelProfile kv.1 (User.fullName kv.2) (User.email kv.2) (User.username kv.2)
    (User.avatar kv.2) (User.coverImage kv.2)
    (length subscribers) (length subscribedTo)
    (if inArray (userValue user) (subscriberOf subscribers) then true else false).

Definition channelAggregate (user : option ObjectId) (username : string) (w : World)
  : list ChannelProfile :=
  channelProfile user w
  <$> matching (users w) (fun _ u => String.eqb (User.username u) (Js.toLowerCase username)).

Definition getUserChannelProfile (user : option ObjectId) (username : option string)
  : M (Response ChannelProfile) :=
  throwIf (Js.emptyText username) (ApiError 400 "Username is required") ;;
  let* channel := gets (channelAggregate user (default "" username)) in
  let* first := orThrow (head channel) (ApiError 404 "Channel not found") in
  respond 200 first "Channel profile fetched successfully".


(** ** playlist.controllers.js: one playlist *)

(** A video of the playlist, after the inner [$addFields] and [$project]. *)
Record PlaylistVideo := mkPlaylistVideo {
  playlistVideoId : ObjectId;
  playlistVideoTitle : string;
  playlistVideoThumbnail : string;
  playlistVideoDuration : N;
  playlistVideoViews : N;
  playlistVideoCreatedAt : N;
  playlistVideoOwner : option Profile }.

(** The playlist of [getPlaylistById], after [$addFields] and [$project]. *)
Record PlaylistDetails := mkPlaylistDetails {
  playlistDetailsId : ObjectId;
  playlistDetailsName : string;
  playlistDetailsDescription : string;
  playlistDetailsCreatedAt : N;
  playlistDetailsUpdatedAt : N;
  playlistDetailsOwner : option Profile;
  playlistDetailsVideos : list PlaylistVideo;
  playlistDetailsTotalVideos : nat }.

Definition playlistVideo (w : World) (kv : ObjectId * Video.t) : PlaylistVideo :=
  mkPlaylistVideo kv.1 (Video.title kv.2) (Video.thumbnail kv.2) (Video.duration kv.2)
    (Video.views kv.2) (Video.createdAt kv.2) (head (ownerDetails w (Video.owner kv.2))).

Definition playlistDetails (w : World) (kv : ObjectId * Playlist.t) : PlaylistDetails :=
  let videosDetails :=
    playlistVideo w <$> lookup (videos w) (fun id _ => bool_decide (id ∈ Playlist.videos kv.2)) in
  let playlistOwnerDetails := ownerDetails w (Playlist.owner kv.2) in
  mkPlaylistDetails kv.1 (Playlist.name kv.2) (Playlist.description kv.2)
    (Playlist.createdAt kv.2) (Playlist.updatedAt kv.2)
    (head playlistOwnerDetails) videosDetails (length videosDetails).

Definition playlistDetailsAggregate (pid : ObjectId) (w : World) : list PlaylistDetails :=
  playlistDetails w <$> matching (playlists w) (fun id _ => bool_decide (id = pid)).

Definition getPlaylistById (playlistId : string) : M (Response PlaylistDetails) :=
  throwIf (negb (ObjectId.isValid playlistId)) (ApiError 400 "Invalid playlist ID format") ;;
  let* pid := castId playlistId in
  let* playlist := gets (playlistDetailsAggregate pid) in
  let* first := orThrow (head playlist) (ApiError 404 "Playlist not found") in
  respond 200 first "Playlist fetched successfully".

(** ** user.controllers.js: the account *)

(** [User.findByIdAndUpdate(req.user?._id, { $set: ... }, { new: true })]:
    the updated user, or null when there is no user of that id (or no id). *)
Definition User_findByIdAndUpdate (user : option ObjectId) (f : User.t -> User.t)
  : M (option User.t) :=
  match user with
  | Some u =>
      modify (fun w =>
        mkWorld (alter f u (users w)) (videos w) (comments w) (tweets w) (likes w)
                (subscriptions w) (playlists w) (clock w) (files w) (remote w) (log w)) ;;
      gets (fun w => users w !! u)
  | None => ret None
  end.

Definition withAccountDetails (fullName email : string) (u : User.t) : User.t :=
  User.mk (User.username u) email fullName (User.avatar u) (User.coverImage u).

Definition withAvatar (avatar : string) (u : User.t) : User.t :=
  User.mk (User.username u) (User.email u) (User.fullName u) avatar (User.coverImage u).

Definition withCoverImage (coverImage : string) (u : User.t) : User.t :=
  User.mk (User.username u) (User.email u) (User.fullName u) (User.avatar u) coverImage.

Definition getCurrentUser (user : option (ObjectId * User.t))
  : M (Response (option (ObjectId * User.t))) :=
  respond 200 user "Current user fetched successfully".

Definition updateAccountDetails (user : option ObjectId) (fullName email : option string)
  : M (Response (option User.t)) :=
  throwIf (negb (Js.truthy fullName) || negb (Js.truthy email))
          (ApiError 400 "Full name and email are required") ;;
  let* updated :=
    User_findByIdAndUpdate user (withAccountDetails (default "" fullName) (default "" email)) in
  respond 200 updated "Account details updated successfully".

(** [avatar.url] where [avatar] may be null: reading a property of null
    is a [TypeError]. *)
Definition urlOf (r : option Resource) : M string :=
  match r with
  | Some r => ret (url r)
  | None => throw (OtherError "TypeError")
  end.

Definition updateUserAvatar (user : option ObjectId) (avatarLocalPath : option string)
  : M (Response (option User.t)) :=
  throwIf (negb (Js.truthy avatarLocalPath)) (ApiError 400 "Avatar file is missing") ;;
  let* avatar := uploadOnCloudinary avatarLocalPath in
  let* avatarUrl := urlOf avatar in
  throwIf (negb (Js.truthy (Some avatarUrl))) (ApiError 400 "Error while uploading on avatar") ;;
  let* updated := User_findByIdAndUpdate user (withAvatar avatarUrl) in
  respond 200 updated "Avatar updated successfully".

Definition updateUserCoverImage (user : option ObjectId) (coverImageLocalPath : option string)
  : M (Response (option User.t)) :=
  throwIf (negb (Js.truthy coverImageLocalPath)) (ApiError 400 "Cover image file is missing") ;;
  let* coverImage := uploadOnCloudinary coverImageLocalPath in
  let* coverImageUrl := urlOf coverImage in
  throwIf (negb (Js.truthy (Some coverImageUrl)))
          (ApiError 400 "Error while uploading cover image") ;;
  let* updated := User_findByIdAndUpdate user (withCoverImage coverImageUrl) in
  respond 200 updated "Cover image updated successfully".

(** ** user.controllers.js: renewing the access token *)

(** What [jwt.verify] decodes from a token: the [_id] it carries, if any. *)
Record DecodedToken := mkDecodedToken {
  decodedId : option ObjectId }.

(** [User.findById(id)] that is not awaited: the query itself, which is
    not run and is no user document. *)
Inductive Query :=
| FindById (id : option ObjectId).

(** [query?.refreshToken] and [query._id]: a query has no such property,
    the value is [undefined]. *)
Definition queryRefreshToken (q : Query) : option string := None.

Definition queryId (q : Query) : option ObjectId := None.

(** [{ accessToken, refreshToken }] *)
Record Tokens := mkTokens {
  accessToken : option string;
  refreshToken : option string }.

(** [catch (error) { throw new ApiError(401, error?.message || "Invalid
    refresh token") }]: whatever was thrown becomes a 401. *)
Definition errorMessage (e : Thrown) : string :=
  match e with
  | ApiError _ msg => msg
  | OtherError name => name
  end.

Section RefreshAccessToken.

(** [jwt.verify(token, secret)], which throws on a token it rejects, and
    [generateAccessAndRefreshTokens(id)], which belong to the token library
    and to the user model. *)
Variable verify : string -> option DecodedToken.
Variable generateAccessAndRefreshTokens : option ObjectId -> M Tokens.

Definition refreshAccessToken (cookieToken bodyToken : option string)
  : M (Response Tokens) :=
  let incomingRefreshToken := if Js.truthy cookieToken then cookieToken else bodyToken in
  throwIf (negb (Js.truthy incomingRefreshToken)) (ApiError 401 "Unauthorized request") ;;
  tryCatch
    (let* decodedToken :=
       orThrow (verify (default "" incomingRefreshToken)) (OtherError "JsonWebTokenError") in
     let user := FindById (decodedId decodedToken) in
     (* [if (!user)]: a query is an object, hence truthy *)
     throwIf (negb true) (ApiError 401 "Invalid refresh token") ;;
     throwIf (negb (bool_decide (incomingRefreshToken = queryRefreshToken user)))
             (ApiError 401 "Refresh token expired or used") ;;
     let* tokens := generateAccessAndRefreshTokens (queryId user) in
     respond 200 (mkTokens (accessToken tokens) None)
             "Access token refreshed successfully")
    (fun error =>
       throw (ApiError 401
                (if Js.truthy (Some (errorMessage error))
                 then errorMessage error else "Invalid refresh token"))).

End RefreshAccessToken.
(** * Vocabulary of the properties *)

(** ** Collections *)

Section CollectionProperties.
Context {A : Type}.
Implicit Types (P : A -> Prop) (p : A -> bool) (c : gmap ObjectId A).

(** Some document of the collection has the property. *)
Definition present P c : Prop :=
  exists id d, c !! id = Some d /\ P d.

(** At most one document of the collection has the property. *)
Definition atMostOne P c : Prop :=
  forall id1 d1 id2 d2,
    c !! id1 = Some d1 -> P d1 -> c !! id2 = Some d2 -> P d2 -> id1 = id2.

(** The filter [p] decides the property [P]. *)
Definition decides p P : Prop := forall d, p d = true <-> P d.

(** What the body of a toggle does to the collection: the document found
    is removed, or a new one is added when none is found. *)
Definition toggled p (d : A) c : bool * gmap ObjectId A :=
  match findOne p c with
  | Some existing => (false, delete existing.1 c)
  | None => (true, <[newId c := d]> c)
  end.

End CollectionProperties.

(** ** Running a route *)

(** The world after a request, and the reply to it. *)
Definition after {D} (h : M (Response D)) (w : World) : World := (serve h w).1.

Definition replyTo {D} (h : M (Response D)) (w : World) : Reply D := (serve h w).2.

(** The flag ([liked], [subscribed]) a reply reports, if it has one. *)
Definition reported {D} (flag : D -> bool) (h : M (Response D)) (w : World) : option bool :=
  flag <$> replyData (replyTo h w).

(** ** Toggles *)

(** One toggle flips the relation [P] between an actor and a target: it
    answers 200; when [P] held it reports [false] and [P] no longer holds;
    when [P] did not hold it reports [true] and [P] holds. *)
Definition Flips {D} (h : M (Response D)) (flag : D -> bool) (P : World -> Prop) (w : World)
  : Prop :=
  replyStatus (replyTo h w) = 200 /\
  (P w -> reported flag h w = Some false /\ ~ P (after h w)) /\
  (~ P w -> reported flag h w = Some true /\ P (after h w)).

(** One toggle flips; two toggles in a row restore the relation; the third
    toggle reports what the first reported. *)
Definition ToggleLaw {D} (h : M (Response D)) (flag : D -> bool) (P : World -> Prop) (w : World)
  : Prop :=
  Flips h flag P w /\
  (P (after h (after h w)) <-> P w) /\
  reported flag h (after h (after h w)) = reported flag h w.

Definition likesVideo (u vid : ObjectId) (w : World) : Prop :=
  present (fun l => Like.video l = Some vid /\ Like.likedBy l = u) (likes w).

Definition likesComment (u cid : ObjectId) (w : World) : Prop :=
  present (fun l => Like.comment l = Some cid /\ Like.likedBy l = u) (likes w).

Definition likesTweet (u tid : ObjectId) (w : World) : Prop :=
  present (fun l => Like.tweet l = Some tid /\ Like.likedBy l = u) (likes w).

Definition subscribedTo (u channel : ObjectId) (w : World) : Prop :=
  present (fun s => Subscription.subscriber s = u /\ Subscription.channel s = channel)
          (subscriptions w).

(** The uniqueness invariants of the data model: an actor has at most one
    Like per target, and at most one Subscription per channel. *)
Definition oneLikePerVideo (u vid : ObjectId) (w : World) : Prop :=
  atMostOne (fun l => Like.video l = Some vid /\ Like.likedBy l = u) (likes w).

Definition oneLikePerComment (u cid : ObjectId) (w : World) : Prop :=
  atMostOne (fun l => Like.comment l = Some cid /\ Like.likedBy l = u) (likes w).

Definition oneLikePerTweet (u tid : ObjectId) (w : World) : Prop :=
  atMostOne (fun l => Like.tweet l = Some tid /\ Like.likedBy l = u) (likes w).

Definition oneSubscriptionPerChannel (u channel : ObjectId) (w : World) : Prop :=
  atMostOne (fun s => Subscription.subscriber s = u /\ Subscription.channel s = channel)
            (subscriptions w).

(** What lets a toggle reach its body: a well-formed identifier, an
    existing target (a published one for a video, another user's channel
    for a subscription), and the uniqueness invariant of the pair. *)
Definition canToggleVideoLike (u : ObjectId) (videoId : string) (vid : ObjectId) (w : World)
  : Prop :=
  ObjectId.cast videoId = Some vid /\
  (exists v, videos w !! vid = Some v /\ Video.isPublished v = true) /\
  oneLikePerVideo u vid w.

Definition canToggleCommentLike (u : ObjectId) (commentId : string) (cid : ObjectId) (w : World)
  : Prop :=
  ObjectId.cast commentId = Some cid /\
  (exists c, comments w !! cid = Some c) /\
  oneLikePerComment u cid w.

Definition canToggleTweetLike (u : ObjectId) (tweetId : string) (tid : ObjectId) (w : World)
  : Prop :=
  ObjectId.cast tweetId = Some tid /\
  (exists t, tweets w !! tid = Some t) /\
  oneLikePerTweet u tid w.

Definition canToggleSubscription (u : ObjectId) (channelId : string) (cid : ObjectId) (w : World)
  : Prop :=
  ObjectId.cast channelId = Some cid /\
  channelId <> ObjectId.toString u /\
  (exists c, users w !! cid = Some c) /\
  oneSubscriptionPerChannel u cid w.

(** ** Identifiers *)

(** An identifier is a 96-bit value. *)
Definition wellFormed (o : ObjectId) : Prop := o < 16 ^ 24.

(** ** A small world for the examples

    Alice (1), Bob (2) and Carol (2748, [abc] in hexadecimal); Alice's
    published video 10 and unpublished video 11; Bob's comment 20 on video
    10; Alice's tweet 30 and playlist 40; two temporary files, of which
    the media host accepts the first only. *)
Definition alice : User.t := User.mk "alice" "alice@example.org" "Alice" "alice.png" "".
Definition bob : User.t := User.mk "bob" "bob@example.org" "Bob" "bob.png" "".
Definition carol : User.t := User.mk "carol" "carol@example.org" "Carol" "carol.png" "".

Definition demo : World :=
  mkWorld
    {[ 1 := alice; 2 := bob; 2748 := carol ]}
    {[ 10 := Video.mk "v10.mp4" "t10.png" "First" "A first video" 60 0 true 1 1 1;
       11 := Video.mk "v11.mp4" "t11.png" "Draft" "Not yet out" 30 0 false 1 2 2 ]}
    {[ 20 := Comment.mk "nice" 10 2 3 ]}
    {[ 30 := Tweet.mk "hello" 1 4 ]}
    ∅
    ∅
    {[ 40 := Playlist.mk "favourites" "" 1 [] 5 5 ]}
    6
    {[ "public/temp/clip.mp4"; "public/temp/broken.mp4" ]}
    (fun path => if String.eqb path "public/temp/clip.mp4"
                 then Some (mkResource "https://media.example.org/clip.mp4" 12)
                 else None)
    [].

Definition id1 : string := "000000000000000000000001".
Definition id2 : string := "000000000000000000000002".
Definition id10 : string := "00000000000000000000000a".
Definition id11 : string := "00000000000000000000000b".
Definition id20 : string := "000000000000000000000014".
Definition id30 : string := "00000000000000000000001e".
Definition id40 : string := "000000000000000000000028".
(** An identifier that names nothing in [demo]. *)
Definition id99 : string := "000000000000000000000063".

(** ** The authorization gate of comments *)

(** A comment with a new text. *)
Definition withContent (content : string) (c : Comment.t) : Comment.t :=
  Comment.mk content (Comment.video c) (Comment.owner c) (Comment.createdAt c).

(** The two tests of [deleteComment] taken together. *)
Definition mayDelete (user : option ObjectId) (c : Comment.t) (w : World) : bool :=
  negb (differs (Comment.owner c) user)
  || match videos w !! Comment.video c with
     | Some v => negb (differs (Video.owner v) user)
     | None => false
     end.

(** ** Pagination *)

(** The page and the limit of the specification's paginator: the request
    parameter coerced to a positive integer, page 1 and limit 10 when the
    parameter is missing or invalid. *)
Definition requestedPage (q : PageQuery) : Z :=
  match queryPage q with
  | Some s =>
      match Js.parseInt s with
      | Some n => if (0 <? n)%Z then n else 1%Z
      | None => 1%Z
      end
  | None => 1%Z
  end.

Definition requestedLimit (q : PageQuery) : Z :=
  match queryLimit q with
  | Some s =>
      match Js.parseInt s with
      | Some n => if (0 <? n)%Z then n else 10%Z
      | None => 10%Z
      end
  | None => 10%Z
  end.

(** The window of page [p] with [l] items a page. *)
Definition window {A} (p l : Z) (xs : list A) : list A :=
  take (Z.to_nat l) (drop (Z.to_nat ((p - 1) * l)) xs).

(** A listing answers 200 with the window of its aggregate and changes
    nothing. *)
Definition Windowed {A} (h : M (Response (Listing A))) (aggregate : list A) (q : PageQuery)
    (w : World) : Prop :=
  after h w = w /\
  replyStatus (replyTo h w) = 200 /\
  listedItems <$> replyData (replyTo h w)
    = Some (window (requestedPage q) (requestedLimit q) aggregate).



(** The owner filter of [getAllVideos]: none without [userId], the
    identifier it casts to otherwise. *)
Definition ownerFilter (userId : option string) : option (option ObjectId) :=
  if Js.truthy userId
  then Some <$> ObjectId.cast (default "" userId)
  else Some None.



(** ** The upload wrapper *)

(** The world after a call of [uploadOnCloudinary], and what it returns
    ([None] when it throws). *)
Definition afterUpload (localFilePath : option string) (w : World) : World :=
  (uploadOnCloudinary localFilePath w).1.

Definition uploadResult (localFilePath : option string) (w : World)
  : option (option Resource) :=
  match (uploadOnCloudinary localFilePath w).2 with
  | inr r => Some r
  | inl _ => None
  end.

(** ** The invariant of subscriptions *)

(** At most one Subscription for every pair of a subscriber and a channel. *)
Definition subscriptionsUnique (w : World) : Prop :=
  forall u channel, oneSubscriptionPerChannel u channel w.

(** No Subscription of a user to their own channel. *)
Definition noSelfSubscription (w : World) : Prop :=
  forall id s, subscriptions w !! id = Some s ->
               Subscription.subscriber s <> Subscription.channel s.

(** The parameter is the lower-case text of the identifier it casts to. *)
Definition canonical (id : string) : Prop :=
  forall o, ObjectId.cast id = Some o -> id = ObjectId.toString o.

(** ** Refusals *)

(** A request is refused with the given status and changes nothing. *)
Definition Refuses {D} (code : N) (h : M (Response D)) (w : World) : Prop :=
  replyStatus (replyTo h w) = code /\ after h w = w.

(** The requesting actor is not the given owner: there is no actor, or it
    is another one. *)
Definition foreignTo (owner : ObjectId) (user : option ObjectId) : Prop :=
  user <> Some owner /\ wellFormed owner /\ forall u, user = Some u -> wellFormed u.

(** ** Videos *)

Definition withPublished (b : bool) (v : Video.t) : Video.t :=
  Video.mk (Video.videoFile v) (Video.thumbnail v) (Video.title v) (Video.description v)
    (Video.duration v) (Video.views v) b (Video.owner v) (Video.createdAt v)
    (Video.updatedAt v).

Definition withViews (n : N) (v : Video.t) : Video.t :=
  Video.mk (Video.videoFile v) (Video.thumbnail v) (Video.title v) (Video.description v)
    (Video.duration v) n (Video.isPublished v) (Video.owner v) (Video.createdAt v)
    (Video.updatedAt v).

(** The status and the message of a reply of the error middleware. *)
Definition failure {D} (r : Reply D) : option (N * string) :=
  match r with
  | Failed code msg => Some (code, msg)
  | Sent _ => None
  end.

(** Two worlds with the same documents: they differ in the temporary
    files and the log of the media service at most. *)
Definition sameDocuments (w w' : World) : Prop :=
  users w' = users w /\ videos w' = videos w /\ comments w' = comments w /\
  tweets w' = tweets w /\ likes w' = likes w /\ subscriptions w' = subscriptions w /\
  playlists w' = playlists w /\ clock w' = clock w /\ remote w' = remote w.

(** A world where the media service also accepts [path], and one with a
    further temporary file. *)
Definition withRemote (path : string) (r : Resource) (w : World) : World :=
  mkWorld (users w) (videos w) (comments w) (tweets w) (likes w)
          (subscriptions w) (playlists w) (clock w) (files w)
          (fun p => if String.eqb p path then Some r else remote w p) (log w).

Definition withFile (path : string) (w : World) : World :=
  setFiles (fun f => f ∪ {[path]}) w.

(** [demo] with a remote file that has no local copy, and [demo] with a
    thumbnail to upload. *)
Definition demoLost : World :=
  withRemote "public/temp/gone.mp4" (mkResource "https://media.example.org/gone.mp4" 3) demo.

Definition demoThumbnail : World :=
  withFile "public/temp/thumb.png"
    (withRemote "public/temp/thumb.png" (mkResource "https://media.example.org/thumb.png" 0)
       demo).

(** Two states of a video that agree on everything but the view count,
    the publish flag and the time of the last change. *)
Definition sameContent (v v' : Video.t) : Prop :=
  Video.videoFile v' = Video.videoFile v /\ Video.thumbnail v' = Video.thumbnail v /\
  Video.title v' = Video.title v /\ Video.description v' = Video.description v /\
  Video.duration v' = Video.duration v /\ Video.owner v' = Video.owner v /\
  Video.createdAt v' = Video.createdAt v.

(** [demo] where Alice's playlist 40 lists her video 10, and [demo] where
    it lists a video 99 that is not there. *)
Definition demoListed : World :=
  setPlaylists (insert 40 (Playlist.mk "favourites" "" 1 [10] 5 5)) demo.

Definition demoStale : World :=
  setPlaylists (insert 40 (Playlist.mk "favourites" "" 1 [99] 5 5)) demo.
(** * Properties *)

(** ** The values of JavaScript and the identifiers, on examples *)

Example parseInt_reads_a_prefix : Js.parseInt "  -7px" = Some (-7)%Z.
Proof. reflexivity. Qed.

Example parseInt_without_digit : Js.parseInt "abc" = None.
Proof. reflexivity. Qed.

Example emptyText_of_blanks : Js.emptyText (Some "   ") = true.
Proof. reflexivity. Qed.

Example toString_of_2748 : ObjectId.toString 2748 = "000000000000000000000abc".
Proof. reflexivity. Qed.

Example cast_ignores_case : ObjectId.cast "000000000000000000000ABC" = Some 2748.
Proof. reflexivity. Qed.

Example cast_wants_24_digits : ObjectId.cast "abc" = None.
Proof. reflexivity. Qed.

(** ** Collections: finding, removing and adding a document *)

Section CollectionFacts.
Context {A : Type}.
Implicit Types (P : A -> Prop) (p : A -> bool) (c : gmap ObjectId A).

Lemma findOne_Some p c id d :
  findOne p c = Some (id, d) -> c !! id = Some d /\ p d = true.
Proof.
  unfold findOne. intros H. apply find_some in H as [Hin Hp].
  apply list_elem_of_In, elem_of_map_to_list in Hin. auto.
Qed.

Lemma findOne_None p P c :
  decides p P -> findOne p c = None -> ~ present P c.
Proof.
  unfold findOne. intros Hd H (id & d & Hl & Hp).
  assert (Hin : In (id, d) (map_to_list c))
    by (apply list_elem_of_In, elem_of_map_to_list; exact Hl).
  pose proof (find_none _ _ H (id, d) Hin) as Hf. simpl in Hf.
  apply Hd in Hp. congruence.
Qed.

Lemma findOne_present p P c id d :
  decides p P -> findOne p c = Some (id, d) -> present P c.
Proof.
  intros Hd H. apply findOne_Some in H as [Hl Hp].
  exists id, d. split; [exact Hl | apply Hd, Hp].
Qed.

Lemma newId_fresh c : c !! newId c = None.
Proof.
  unfold newId. apply not_elem_of_dom. apply is_fresh.
Qed.

(** Removing the document that was found leaves none, when there was at
    most one. *)
Lemma delete_found P c id d :
  atMostOne P c -> c !! id = Some d -> P d ->
  ~ present P (delete id c) /\ atMostOne P (delete id c).
Proof.
  intros Hone Hl Hp. split.
  - intros (id' & d' & Hl' & Hp').
    apply lookup_delete_Some in Hl' as [Hne Hl'].
    apply Hne. eapply Hone; eauto.
  - intros id1 d1 id2 d2 H1 P1 H2 P2.
    apply lookup_delete_Some in H1 as [_ H1].
    apply lookup_delete_Some in H2 as [_ H2].
    eapply Hone; eauto.
Qed.

(** Adding a document with the property under a new identifier makes
    one, and the only one, when there was none. *)
Lemma insert_new P c d :
  ~ present P c -> P d ->
  present P (<[newId c := d]> c) /\ atMostOne P (<[newId c := d]> c).
Proof.
  intros Hno Hp. split.
  - exists (newId c), d. split; [apply lookup_insert_eq | exact Hp].
  - intros id1 d1 id2 d2 H1 P1 H2 P2.
    apply lookup_insert_Some in H1 as [[E1 _]|[_ H1]];
      apply lookup_insert_Some in H2 as [[E2 _]|[_ H2]].
    + congruence.
    + exfalso. apply Hno. exists id2, d2. auto.
    + exfalso. apply Hno. exists id1, d1. auto.
    + exfalso. apply Hno. exists id1, d1. auto.
Qed.

Lemma toggled_flips p P d c :
  decides p P -> P d -> atMostOne P c ->
  (present P c -> (toggled p d c).1 = false /\ ~ present P (toggled p d c).2) /\
  (~ present P c -> (toggled p d c).1 = true /\ present P (toggled p d c).2) /\
  atMostOne P (toggled p d c).2.
Proof.
  intros Hd Hp Hone. unfold toggled.
  destruct (findOne p c) as [[id x]|] eqn:E; simpl.
  - pose proof (findOne_present _ _ _ _ _ Hd E) as Hpre.
    apply findOne_Some in E as [Hl Hx]. apply Hd in Hx.
    destruct (delete_found P c id x Hone Hl Hx) as [Hno Hone'].
    split; [intros _; split; [reflexivity | exact Hno] |].
    split; [intros Hn; contradiction | exact Hone'].
  - pose proof (findOne_None _ _ _ Hd E) as Hno.
    destruct (insert_new P c d Hno Hp) as [Hpre Hone'].
    split; [intros Hy; contradiction |]. split; auto.
Qed.

Lemma present_or_not p P c : decides p P -> present P c \/ ~ present P c.
Proof.
  intros Hd. destruct (findOne p c) as [[id d]|] eqn:E.
  - left. eapply findOne_present; eauto.
  - right. eapply findOne_None; eauto.
Qed.

End CollectionFacts.

(** ** The toggles of likes and subscriptions *)

Lemma flips_thrice {D} (h : M (Response D)) flag (P ready : World -> Prop) :
  (forall w, P w \/ ~ P w) ->
  (forall w, ready w -> Flips h flag P w /\ ready (after h w)) ->
  forall w, ready w -> ToggleLaw h flag P w.
Proof.
  intros Hdec Hstep w Hr.
  destruct (Hstep w Hr) as [(S0 & Y0 & N0) Hr1].
  destruct (Hstep _ Hr1) as [(S1 & Y1 & N1) Hr2].
  destruct (Hstep _ Hr2) as [(S2 & Y2 & N2) _].
  split; [exact (conj S0 (conj Y0 N0)) |].
  destruct (Hdec w) as [Hp | Hn].
  - destruct (Y0 Hp) as [R0 Q0]. destruct (N1 Q0) as [R1 Q1].
    destruct (Y2 Q1) as [R2 _]. split; [tauto | congruence].
  - destruct (N0 Hn) as [R0 Q0]. destruct (Y1 Q0) as [R1 Q1].
    destruct (N2 Q1) as [R2 _]. split; [tauto | congruence].
Qed.

Lemma videoFilter_decides u vid :
  decides (fun l => videoIs vid l && refIs (Like.likedBy l) (Some u))
          (fun l => Like.video l = Some vid /\ Like.likedBy l = u).
Proof.
  intros l. unfold videoIs, refIs. rewrite andb_true_iff, !bool_decide_eq_true.
  split; intros [H1 H2]; split; congruence.
Qed.

Lemma commentFilter_decides u cid :
  decides (fun l => commentIs cid l && refIs (Like.likedBy l) (Some u))
          (fun l => Like.comment l = Some cid /\ Like.likedBy l = u).
Proof.
  intros l. unfold commentIs, refIs. rewrite andb_true_iff, !bool_decide_eq_true.
  split; intros [H1 H2]; split; congruence.
Qed.

Lemma tweetFilter_decides u tid :
  decides (fun l => tweetIs tid l && refIs (Like.likedBy l) (Some u))
          (fun l => Like.tweet l = Some tid /\ Like.likedBy l = u).
Proof.
  intros l. unfold tweetIs, refIs. rewrite andb_true_iff, !bool_decide_eq_true.
  split; intros [H1 H2]; split; congruence.
Qed.

Lemma subscriptionFilter_decides u channel :
  decides (fun s => refIs (Subscription.subscriber s) (Some u) && channelIs channel s)
          (fun s => Subscription.subscriber s = u /\ Subscription.channel s = channel).
Proof.
  intros s. unfold channelIs, refIs. rewrite andb_true_iff, !bool_decide_eq_true.
  split; intros [H1 H2]; split; congruence.
Qed.

(** Running a handler on a world: the combinators of the monad are
    unfolded and reduced, the lookups and tests of the handler stay. *)
Ltac run_handler :=
  cbv beta iota zeta delta
    [replyTo after serve errorMiddleware replyStatus replyData
     bind throwIf findById findByIdAndDelete castId ObjectId.isValid
     orThrow gets modify respond ret throw toStringOf differsFrom negb andb orb
     fst snd status body data].

Ltac run_with H := rewrite H; run_handler.

Lemma toggleVideoLike_run u videoId vid v w :
  ObjectId.cast videoId = Some vid ->
  videos w !! vid = Some v -> Video.isPublished v = true ->
  serve (toggleVideoLike (Some u) videoId) w =
  let t := toggled (fun l => videoIs vid l && refIs (Like.likedBy l) (Some u))
                   (Like.mk (Some vid) None None u) (likes w) in
  (setLikes (fun _ => t.2) w,
   Sent (mkResponse 200 (apiResponse 200
     (mkLikeToggled videoId t.1 (countDocuments (videoIs vid) t.2))
     (if t.1 then "Video liked successfully" else "Video unliked successfully")))).
Proof.
  intros Hc Hv Hp. unfold toggleVideoLike, toggled. run_handler.
  run_with Hc. run_with Hv. run_with Hp.
  destruct (findOne _ _) as [[id l]|]; reflexivity.
Qed.

Lemma toggleCommentLike_run u commentId cid c w :
  ObjectId.cast commentId = Some cid ->
  comments w !! cid = Some c ->
  serve (toggleCommentLike (Some u) commentId) w =
  let t := toggled (fun l => commentIs cid l && refIs (Like.likedBy l) (Some u))
                   (Like.mk None (Some cid) None u) (likes w) in
  (setLikes (fun _ => t.2) w,
   Sent (mkResponse 200 (apiResponse 200
     (mkLikeToggled commentId t.1 (countDocuments (commentIs cid) t.2))
     (if t.1 then "Comment liked successfully" else "Comment unliked successfully")))).
Proof.
  intros Hc Hv. unfold toggleCommentLike, toggled. run_handler.
  run_with Hc. run_with Hv.
  destruct (findOne _ _) as [[id l]|]; reflexivity.
Qed.

Lemma toggleTweetLike_run u tweetId tid t w :
  ObjectId.cast tweetId = Some tid ->
  tweets w !! tid = Some t ->
  serve (toggleTweetLike (Some u) tweetId) w =
  let t := toggled (fun l => tweetIs tid l && refIs (Like.likedBy l) (Some u))
                   (Like.mk None None (Some tid) u) (likes w) in
  (setLikes (fun _ => t.2) w,
   Sent (mkResponse 200 (apiResponse 200
     (mkLikeToggled tweetId t.1 (countDocuments (tweetIs tid) t.2))
     (if t.1 then "Tweet liked successfully" else "Tweet unliked successfully")))).
Proof.
  intros Hc Hv. unfold toggleTweetLike, toggled. run_handler.
  run_with Hc. run_with Hv.
  destruct (findOne _ _) as [[id l]|]; reflexivity.
Qed.

Lemma toggleSubscription_run u channelId cid c w :
  ObjectId.cast channelId = Some cid ->
  String.eqb channelId (ObjectId.toString u) = false ->
  users w !! cid = Some c ->
  serve (toggleSubscription (Some u) channelId) w =
  let t := toggled (fun s => refIs (Subscription.subscriber s) (Some u) && channelIs cid s)
                   (Subscription.mk u cid) (subscriptions w) in
  (setSubscriptions (fun _ => t.2) w,
   Sent (mkResponse 200 (apiResponse 200
     (mkSubscriptionToggled channelId t.1 (countDocuments (channelIs cid) t.2))
     (if t.1 then "Subscribed successfully" else "Unsubscribed successfully")))).
Proof.
  intros Hc Hne Hv. unfold toggleSubscription, toggled. run_handler.
  run_with Hc. run_with Hne. run_with Hv.
  destruct (findOne _ _) as [[id l]|]; reflexivity.
Qed.

Lemma toggleVideoLike_step u videoId vid w :
  canToggleVideoLike u videoId vid w ->
  Flips (toggleVideoLike (Some u) videoId) liked (likesVideo u vid) w /\
  canToggleVideoLike u videoId vid (after (toggleVideoLike (Some u) videoId) w).
Proof.
  intros (Hc & (v & Hv & Hp) & Hone).
  unfold Flips, reported, replyTo, after, canToggleVideoLike.
  rewrite (toggleVideoLike_run u videoId vid v w Hc Hv Hp). cbv zeta. simpl.
  destruct (toggled_flips _ _ (Like.mk (Some vid) None None u) (likes w)
              (videoFilter_decides u vid) (conj eq_refl eq_refl) Hone) as (Y & N & O).
  unfold likesVideo, oneLikePerVideo. simpl.
  split; [split; [reflexivity | split] |].
  - intros H. destruct (Y H) as [-> Hn]. auto.
  - intros H. destruct (N H) as [-> Hn]. auto.
  - split; [exact Hc | split; [exists v; auto | exact O]].
Qed.

Lemma toggleCommentLike_step u commentId cid w :
  canToggleCommentLike u commentId cid w ->
  Flips (toggleCommentLike (Some u) commentId) liked (likesComment u cid) w /\
  canToggleCommentLike u commentId cid (after (toggleCommentLike (Some u) commentId) w).
Proof.
  intros (Hc & (c & Hv) & Hone).
  unfold Flips, reported, replyTo, after, canToggleCommentLike.
  rewrite (toggleCommentLike_run u commentId cid c w Hc Hv). cbv zeta. simpl.
  destruct (toggled_flips _ _ (Like.mk None (Some cid) None u) (likes w)
              (commentFilter_decides u cid) (conj eq_refl eq_refl) Hone) as (Y & N & O).
  unfold likesComment, oneLikePerComment. simpl.
  split; [split; [reflexivity | split] |].
  - intros H. destruct (Y H) as [-> Hn]. auto.
  - intros H. destruct (N H) as [-> Hn]. auto.
  - split; [exact Hc | split; [exists c; auto | exact O]].
Qed.

Lemma toggleTweetLike_step u tweetId tid w :
  canToggleTweetLike u tweetId tid w ->
  Flips (toggleTweetLike (Some u) tweetId) liked (likesTweet u tid) w /\
  canToggleTweetLike u tweetId tid (after (toggleTweetLike (Some u) tweetId) w).
Proof.
  intros (Hc & (t & Hv) & Hone).
  unfold Flips, reported, replyTo, after, canToggleTweetLike.
  rewrite (toggleTweetLike_run u tweetId tid t w Hc Hv). cbv zeta. simpl.
  destruct (toggled_flips _ _ (Like.mk None None (Some tid) u) (likes w)
              (tweetFilter_decides u tid) (conj eq_refl eq_refl) Hone) as (Y & N & O).
  unfold likesTweet, oneLikePerTweet. simpl.
  split; [split; [reflexivity | split] |].
  - intros H. destruct (Y H) as [-> Hn]. auto.
  - intros H. destruct (N H) as [-> Hn]. auto.
  - split; [exact Hc | split; [exists t; auto | exact O]].
Qed.

Lemma toggleSubscription_step u channelId cid w :
  canToggleSubscription u channelId cid w ->
  Flips (toggleSubscription (Some u) channelId) subscribed (subscribedTo u cid) w /\
  canToggleSubscription u channelId cid (after (toggleSubscription (Some u) channelId) w).
Proof.
  intros (Hc & Hne & (c & Hv) & Hone).
  unfold Flips, reported, replyTo, after, canToggleSubscription.
  apply String.eqb_neq in Hne as Hneb.
  rewrite (toggleSubscription_run u channelId cid c w Hc Hneb Hv). cbv zeta. simpl.
  destruct (toggled_flips _ _ (Subscription.mk u cid) (subscriptions w)
              (subscriptionFilter_decides u cid) (conj eq_refl eq_refl) Hone) as (Y & N & O).
  unfold subscribedTo, oneSubscriptionPerChannel. simpl.
  split; [split; [reflexivity | split] |].
  - intros H. destruct (Y H) as [-> Hn]. auto.
  - intros H. destruct (N H) as [-> Hn]. auto.
  - split; [exact Hc | split; [exact Hne | split; [exists c; auto | exact O]]].
Qed.

(** C1 (amended): for every actor and target, each of the four toggles
    ([toggleVideoLike], [toggleCommentLike], [toggleTweetLike],
    [toggleSubscription]), on a request that reaches its body and a
    collection with at most one record for the pair, flips the presence of
    the record: a record that exists is deleted and [false] is reported,
    and when none exists one is created and [true] is reported; two
    toggles in a row restore the presence the pair started with; and a
    third toggle reports what the first one reported. *)
Theorem toggle_flips_returns_and_repeats (u : ObjectId) (w : World) :
  (forall videoId vid,
     canToggleVideoLike u videoId vid w ->
     ToggleLaw (toggleVideoLike (Some u) videoId) liked (likesVideo u vid) w) /\
  (forall commentId cid,
     canToggleCommentLike u commentId cid w ->
     ToggleLaw (toggleCommentLike (Some u) commentId) liked (likesComment u cid) w) /\
  (forall tweetId tid,
     canToggleTweetLike u tweetId tid w ->
     ToggleLaw (toggleTweetLike (Some u) tweetId) liked (likesTweet u tid) w) /\
  (forall channelId cid,
     canToggleSubscription u channelId cid w ->
     ToggleLaw (toggleSubscription (Some u) channelId) subscribed (subscribedTo u cid) w).
Proof.
  split; [| split; [| split]].
  - intros videoId vid. revert w.
    apply (flips_thrice _ _ _ (canToggleVideoLike u videoId vid)).
    + intros w. apply (present_or_not _ _ _ (videoFilter_decides u vid)).
    + intros w. apply toggleVideoLike_step.
  - intros commentId cid. revert w.
    apply (flips_thrice _ _ _ (canToggleCommentLike u commentId cid)).
    + intros w. apply (present_or_not _ _ _ (commentFilter_decides u cid)).
    + intros w. apply toggleCommentLike_step.
  - intros tweetId tid. revert w.
    apply (flips_thrice _ _ _ (canToggleTweetLike u tweetId tid)).
    + intros w. apply (present_or_not _ _ _ (tweetFilter_decides u tid)).
    + intros w. apply toggleTweetLike_step.
  - intros channelId cid. revert w.
    apply (flips_thrice _ _ _ (canToggleSubscription u channelId cid)).
    + intros w. apply (present_or_not _ _ _ (subscriptionFilter_decides u cid)).
    + intros w. apply toggleSubscription_step.
Qed.

(** The law at work in [demo]: Bob likes Alice's video, Alice likes Bob's
    comment, Bob likes Alice's tweet and subscribes to her channel. *)
Lemma toggle_law_in_demo :
  ToggleLaw (toggleVideoLike (Some 2) id10) liked (likesVideo 2 10) demo /\
  ToggleLaw (toggleCommentLike (Some 1) id20) liked (likesComment 1 20) demo /\
  ToggleLaw (toggleTweetLike (Some 2) id30) liked (likesTweet 2 30) demo /\
  ToggleLaw (toggleSubscription (Some 2) id1) subscribed (subscribedTo 2 1) demo.
Proof.
  split; [| split; [| split]].
  - apply (proj1 (toggle_flips_returns_and_repeats 2 demo) id10 10).
    split; [reflexivity |]. split; [eexists; split; reflexivity |].
    intros a x b y H. unfold demo in H. cbn [likes] in H.
    rewrite lookup_empty in H. discriminate.
  - apply (proj1 (proj2 (toggle_flips_returns_and_repeats 1 demo)) id20 20).
    split; [reflexivity |]. split; [eexists; reflexivity |].
    intros a x b y H. unfold demo in H. cbn [likes] in H.
    rewrite lookup_empty in H. discriminate.
  - apply (proj1 (proj2 (proj2 (toggle_flips_returns_and_repeats 2 demo))) id30 30).
    split; [reflexivity |]. split; [eexists; reflexivity |].
    intros a x b y H. unfold demo in H. cbn [likes] in H.
    rewrite lookup_empty in H. discriminate.
  - apply (proj2 (proj2 (proj2 (toggle_flips_returns_and_repeats 2 demo))) id1 1).
    split; [reflexivity |]. split; [discriminate |]. split; [eexists; reflexivity |].
    intros a x b y H. unfold demo in H. cbn [subscriptions] in H.
    rewrite lookup_empty in H. discriminate.
Defined.

(** C1 as stated fails on its last clause: Bob toggles his like on video
    10 three times; the second toggle reports [false], the third reports
    [true], as the first did. *)
Lemma third_toggle_differs_from_second :
  let h := toggleVideoLike (Some 2) id10 in
  reported liked h demo = Some true /\
  reported liked h (after h demo) = Some false /\
  reported liked h (after h (after h demo)) = Some true.
Proof. vm_compute. auto. Qed.

(** ** Identifiers print injectively *)

Lemma hexValue_hexDigit d : d < 16 -> ObjectId.hexValue (ObjectId.hexDigit d) = Some d.
Proof.
  intros H.
  assert (E : d = 0 \/ d = 1 \/ d = 2 \/ d = 3 \/ d = 4 \/ d = 5 \/ d = 6 \/ d = 7 \/
              d = 8 \/ d = 9 \/ d = 10 \/ d = 11 \/ d = 12 \/ d = 13 \/ d = 14 \/ d = 15) by lia.
  repeat (destruct E as [-> | E]; [reflexivity |]). subst. reflexivity.
Qed.

Lemma fromHex_toHex k : forall n acc a,
  ObjectId.fromHex (ObjectId.toHex k n acc) a =
  ObjectId.fromHex acc (a * 16 ^ N.of_nat k + n mod 16 ^ N.of_nat k).
Proof.
  induction k as [|k IH]; intros n acc a.
  - simpl. rewrite N.mod_1_r. f_equal. lia.
  - cbn [ObjectId.toHex]. rewrite IH. cbn [ObjectId.fromHex].
    rewrite hexValue_hexDigit by (apply N.mod_lt; lia).
    f_equal. rewrite Nat2N.inj_succ, N.pow_succ_r'.
    rewrite (N.Div0.mod_mul_r n 16 (16 ^ N.of_nat k)). lia.
Qed.

Lemma toString_inj a b :
  wellFormed a -> wellFormed b -> ObjectId.toString a = ObjectId.toString b -> a = b.
Proof.
  unfold wellFormed. intros Ha Hb E.
  assert (F : ObjectId.fromHex (ObjectId.toString a) 0 = ObjectId.fromHex (ObjectId.toString b) 0)
    by (rewrite E; reflexivity).
  unfold ObjectId.toString in F. rewrite !fromHex_toHex in F. cbn [ObjectId.fromHex] in F.
  change (N.of_nat 24) with 24 in F.
  rewrite !N.mod_small in F by assumption. injection F. lia.
Qed.

(** ** The authorization gate of comments *)

Lemma differs_false a u :
  wellFormed a -> wellFormed u -> differs a (Some u) = false <-> u = a.
Proof.
  intros Ha Hu. unfold differs. rewrite negb_false_iff, String.eqb_eq. split.
  - intros E. symmetry. apply toString_inj; assumption.
  - intros ->. reflexivity.
Qed.

Lemma differs_true a u :
  wellFormed a -> wellFormed u -> differs a (Some u) = true <-> u <> a.
Proof.
  intros Ha Hu. rewrite <- (differs_false a u Ha Hu).
  destruct (differs a (Some u)); split; congruence.
Qed.

Lemma updateComment_run user commentId cid c content w :
  ObjectId.cast commentId = Some cid -> comments w !! cid = Some c ->
  Js.emptyText content = false ->
  serve (updateComment user commentId content) w =
  if differs (Comment.owner c) user
  then (w, Failed 403 "You are not authorized to update this comment")
  else
    let w' := setComments (insert cid (withContent (default "" content) c)) w in
    (w', Sent (mkResponse 200 (apiResponse 200 (populateComment w' cid)
                                 "Comment updated successfully"))).
Proof.
  intros Hc Hl He. unfold updateComment. run_handler.
  run_with Hc. run_with He. run_with Hl.
  destruct (differs _ _); reflexivity.
Qed.

Lemma deleteComment_run user commentId cid c w :
  ObjectId.cast commentId = Some cid -> comments w !! cid = Some c ->
  serve (deleteComment user commentId) w =
  if mayDelete user c w
  then (setComments (delete cid) w,
        Sent (mkResponse 200 (apiResponse 200 commentId "Comment deleted successfully")))
  else (w, Failed 403 "You are not authorized to delete this comment").
Proof.
  intros Hc Hl. unfold deleteComment, mayDelete. run_handler.
  run_with Hc. run_with Hl.
  destruct (differs (Comment.owner c) user); run_handler.
  - destruct (videos w !! Comment.video c) as [v|]; run_handler; [| reflexivity].
    destruct (differs (Video.owner v) user); run_handler; [reflexivity |].
    rewrite Hl. reflexivity.
  - rewrite Hl. reflexivity.
Qed.

(** C3 (amended): for every comment and every authenticated actor,
    [deleteComment] is permitted exactly when the actor is the comment's
    owner or the owner of the comment's parent video, and [updateComment]
    (with a non-empty text) exactly when the actor is the comment's owner;
    any other actor receives a 403 and nothing is changed. *)
Theorem comment_mutations_gated (u cid : ObjectId) (commentId : string) (c : Comment.t)
    (w : World) :
  ObjectId.cast commentId = Some cid ->
  comments w !! cid = Some c ->
  wellFormed u ->
  wellFormed (Comment.owner c) ->
  (forall v, videos w !! Comment.video c = Some v -> wellFormed (Video.owner v)) ->
  let ownsComment := u = Comment.owner c in
  let ownsVideo := exists v, videos w !! Comment.video c = Some v /\ u = Video.owner v in
  let deletion := deleteComment (Some u) commentId in
  (ownsComment \/ ownsVideo ->
     replyStatus (replyTo deletion w) = 200 /\
     comments (after deletion w) = delete cid (comments w)) /\
  (~ (ownsComment \/ ownsVideo) ->
     replyStatus (replyTo deletion w) = 403 /\ after deletion w = w) /\
  (forall content,
     Js.emptyText content = false ->
     let update := updateComment (Some u) commentId content in
     (ownsComment ->
        replyStatus (replyTo update w) = 200 /\
        comments (after update w) = <[cid := withContent (default "" content) c]> (comments w)) /\
     (~ ownsComment ->
        replyStatus (replyTo update w) = 403 /\ after update w = w)).
Proof.
  intros Hc Hl Hu Ho Hv ownsComment ownsVideo deletion.
  assert (Hgate : mayDelete (Some u) c w = true <-> ownsComment \/ ownsVideo).
  { unfold mayDelete, ownsComment, ownsVideo.
    rewrite orb_true_iff, negb_true_iff, (differs_false _ _ Ho Hu).
    split; intros [H | H]; auto.
    - destruct (videos w !! Comment.video c) as [v|] eqn:E; [| discriminate].
      right. exists v. split; [reflexivity |].
      apply negb_true_iff in H. apply (differs_false _ _ (Hv v eq_refl) Hu) in H. exact H.
    - destruct H as (v & E & Hown). rewrite E. right.
      apply negb_true_iff. apply (differs_false _ _ (Hv v E) Hu). exact Hown. }
  unfold replyTo, after, deletion.
  rewrite (deleteComment_run _ _ _ _ _ Hc Hl).
  split; [| split].
  - intros H. apply Hgate in H. rewrite H. simpl. auto.
  - intros H. destruct (mayDelete (Some u) c w) eqn:E; [exfalso; apply H, Hgate; reflexivity |].
    simpl. auto.
  - intros content He.
    rewrite (updateComment_run _ _ _ _ _ _ Hc Hl He).
    split; intros H.
    + apply (differs_false _ _ Ho Hu) in H. rewrite H. simpl. auto.
    + apply (differs_true _ _ Ho Hu) in H. rewrite H. simpl. auto.
Qed.

(** In [demo], Bob deletes and edits his own comment 20. *)
Lemma comment_gate_in_demo :
  replyStatus (replyTo (deleteComment (Some 2) id20) demo) = 200 /\
  replyStatus (replyTo (updateComment (Some 2) id20 (Some "nicer")) demo) = 200.
Proof.
  assert (Hv : forall v, videos demo !! 10 = Some v -> wellFormed (Video.owner v)).
  { intros v H. vm_compute in H. injection H as <-. reflexivity. }
  destruct (comment_mutations_gated 2 20 id20 (Comment.mk "nice" 10 2 3) demo
              eq_refl eq_refl eq_refl eq_refl Hv) as (D & _ & U).
  split.
  - apply D. left. reflexivity.
  - apply (U (Some "nicer") eq_refl). reflexivity.
Defined.

(** C3 as stated fails for [updateComment]: Alice owns video 10, the
    parent of Bob's comment 20; her update is refused with a 403, while
    her deletion of the same comment succeeds. *)
Lemma video_owner_cannot_update_comment :
  Comment.video <$> comments demo !! 20 = Some 10 /\
  Video.owner <$> videos demo !! 10 = Some 1 /\
  replyTo (updateComment (Some 1) id20 (Some "edited")) demo
    = Failed 403 "You are not authorized to update this comment" /\
  replyStatus (replyTo (deleteComment (Some 1) id20) demo) = 200.
Proof. vm_compute. auto. Qed.

(** ** Lookup before the ownership check *)

Ltac run_missing Hc Hn :=
  run_handler; run_with Hc; rewrite Hn; reflexivity.

(** C4 (amended): for every owner-gated mutation (update or delete of a
    video, tweet, comment or playlist) invoked with a well-formed id that
    names no entity, whoever the actor is, the lookup precedes the
    ownership check and the answer is never a 403: a deletion answers 404,
    and an update answers 404 when its body passes the validation that
    precedes the lookup and 400 when it does not. *)
Theorem missing_entity_is_not_found (user : option ObjectId) (id : string) (o : ObjectId)
    (w : World) :
  ObjectId.cast id = Some o ->
  (videos w !! o = None ->
     replyStatus (replyTo (deleteVideo user id) w) = 404 /\
     forall title description thumbnailLocalPath,
       replyStatus (replyTo (updateVideo user id title description thumbnailLocalPath) w)
       = if negb (Js.truthy title) && negb (Js.truthy description)
            && negb (Js.truthy thumbnailLocalPath)
         then 400 else 404) /\
  (tweets w !! o = None ->
     replyStatus (replyTo (deleteTweet user id) w) = 404 /\
     forall content,
       replyStatus (replyTo (updateTweet user id content) w)
       = if Js.emptyText content then 400 else 404) /\
  (comments w !! o = None ->
     replyStatus (replyTo (deleteComment user id) w) = 404 /\
     forall content,
       replyStatus (replyTo (updateComment user id content) w)
       = if Js.emptyText content then 400 else 404) /\
  (playlists w !! o = None ->
     replyStatus (replyTo (deletePlaylist user id) w) = 404 /\
     forall name description,
       replyStatus (replyTo (updatePlaylist user id name description) w)
       = if Js.emptyText name && Js.emptyText description then 400 else 404).
Proof.
  intros Hc. split; [| split; [| split]]; intros Hn.
  - split.
    + unfold deleteVideo. run_missing Hc Hn.
    + intros title description thumbnailLocalPath. unfold updateVideo.
      run_handler. run_with Hc.
      destruct (Js.truthy title), (Js.truthy description), (Js.truthy thumbnailLocalPath);
        run_handler; rewrite ?Hn; reflexivity.
  - split.
    + unfold deleteTweet. run_missing Hc Hn.
    + intros content. unfold updateTweet. run_handler. run_with Hc.
      destruct (Js.emptyText content); run_handler; rewrite ?Hn; reflexivity.
  - split.
    + unfold deleteComment. run_missing Hc Hn.
    + intros content. unfold updateComment. run_handler. run_with Hc.
      destruct (Js.emptyText content); run_handler; rewrite ?Hn; reflexivity.
  - split.
    + unfold deletePlaylist. run_missing Hc Hn.
    + intros name description. unfold updatePlaylist. run_handler. run_with Hc.
      destruct (Js.emptyText name), (Js.emptyText description);
        run_handler; rewrite ?Hn; reflexivity.
Qed.

(** In [demo] no video, tweet, comment or playlist is numbered 99. *)
Lemma missing_entity_in_demo :
  replyStatus (replyTo (deleteVideo (Some 2) id99) demo) = 404 /\
  replyStatus (replyTo (deleteTweet (Some 2) id99) demo) = 404 /\
  replyStatus (replyTo (deleteComment (Some 2) id99) demo) = 404 /\
  replyStatus (replyTo (deletePlaylist (Some 2) id99) demo) = 404.
Proof.
  destruct (missing_entity_is_not_found (Some 2) id99 99 demo eq_refl) as (V & T & C & P).
  split; [apply V; reflexivity |].
  split; [apply T; reflexivity |].
  split; [apply C; reflexivity | apply P; reflexivity].
Defined.

(** C4 as stated fails for the updates: an update of the missing comment
    99 with an empty text is answered 400, not 404. *)
Lemma empty_update_of_missing_comment_is_400 :
  ObjectId.cast id99 = Some 99 /\
  comments demo !! 99 = None /\
  replyTo (updateComment (Some 2) id99 (Some "")) demo
    = Failed 400 "Comment content cannot be empty".
Proof. vm_compute. auto. Qed.

(** ** Pagination *)

Lemma requestedPage_options q t d :
  positiveOr 1 (page (paginateOptions q t d)) = requestedPage q.
Proof.
  unfold paginateOptions, requestedPage, pageText. simpl.
  destruct (queryPage q) as [s|]; reflexivity.
Qed.

Lemma requestedLimit_options q t d :
  positiveOr 10 (limit (paginateOptions q t d)) = requestedLimit q.
Proof.
  unfold paginateOptions, requestedLimit, limitText. simpl.
  destruct (queryLimit q) as [s|]; reflexivity.
Qed.

Lemma items_window {A} (aggregate : list A) q t d :
  items (aggregatePaginate aggregate (paginateOptions q t d))
  = window (requestedPage q) (requestedLimit q) aggregate.
Proof.
  unfold aggregatePaginate, window. cbn [items].
  rewrite requestedPage_options, requestedLimit_options. reflexivity.
Qed.




Lemma paginated_windowed {A} (aggregate : list A) q t d m1 m2 m3 w :
  Windowed (paginated aggregate q t d m1 m2 m3) aggregate q w.
Proof.
  unfold Windowed, after, replyTo, serve, paginated, respond, ret.
  pose proof (items_window aggregate q t d) as E.
  destruct (length (items _) =? 0)%nat eqn:L; simpl.
  - apply Nat.eqb_eq in L. apply nil_length_inv in L. rewrite L in E.
    destruct (Js.gt _ 1); simpl; rewrite <- E; auto.
  - simpl. rewrite <- E. auto.
Qed.


Section ListingRuns.
Variables (q : PageQuery) (w : World).

Lemma getVideoComments_run user videoId vid :
  ObjectId.cast videoId = Some vid ->
  serve (getVideoComments user videoId q) w =
  serve (paginated (commentAggregate user vid w) q "totalComments" "comments"
           "No more comments found for this video"
           "No comments found for this video"
           "Comments fetched successfully") w.
Proof.
  intros Hc. unfold getVideoComments. run_handler. run_with Hc. reflexivity.
Qed.

Lemma cast_truthy s o : ObjectId.cast s = Some o -> Js.truthy (Some s) = true.
Proof. destruct s; [discriminate | reflexivity]. Qed.

Lemma getAllVideos_run regex sortOn query sortBy sortType userId owner :
  ownerFilter userId = Some owner ->
  serve (getAllVideos regex sortOn q query sortBy sortType userId) w =
  serve (paginated (videoAggregate regex sortOn query owner
                      (default "createdAt" sortBy) (default "desc" sortType) w)
           q "totalVideos" "videos"
           "No more videos found"
           "No videos found matching your criteria"
           "Videos fetched successfully") w.
Proof.
  unfold ownerFilter, getAllVideos. intros H.
  destruct (Js.truthy userId) eqn:T.
  - destruct (ObjectId.cast (default "" userId)) as [o|] eqn:Hc; [| discriminate].
    injection H as <-. run_handler. run_with Hc. reflexivity.
  - injection H as <-. run_handler. reflexivity.
Qed.





Lemma getLikedVideos_run user :
  serve (getLikedVideos user q) w =
  serve (paginated (likedVideosAggregate user w) q "totalLikedVideos" "likedVideos"
           "No more liked videos found"
           "No liked videos found"
           "Liked videos fetched successfully") w.
Proof. unfold getLikedVideos. run_handler. reflexivity. Qed.

End ListingRuns.



(** What the controllers alone make of the parameters: a missing one is
    defaulted, an invalid one is passed on to the paginator as it parses. *)
Example options_of_missing_parameters :
  page (paginateOptions (mkPageQuery None None) "totalDocs" "docs") = Some 1%Z /\
  limit (paginateOptions (mkPageQuery None None) "totalDocs" "docs") = Some 10%Z.
Proof. split; reflexivity. Qed.

Example options_of_invalid_parameters :
  page (paginateOptions (mkPageQuery (Some "abc") (Some "-5")) "totalDocs" "docs") = None /\
  limit (paginateOptions (mkPageQuery (Some "abc") (Some "-5")) "totalDocs" "docs")
    = Some (-5)%Z.
Proof. split; reflexivity. Qed.








(** ** The comments of a video that may not exist *)

Lemma elem_of_matching {B} (coll : gmap ObjectId B) p id d :
  (id, d) ∈ matching coll p <-> coll !! id = Some d /\ p id d = true.
Proof.
  unfold matching. rewrite list_elem_of_In, filter_In, <- list_elem_of_In.
  rewrite elem_of_map_to_list. reflexivity.
Qed.


Lemma window_subseteq {A} p l (xs : list A) : window p l xs ⊆ xs.
Proof.
  unfold window. etransitivity; [apply subseteq_take | apply subseteq_drop].
Qed.





(** ** Unpublished videos *)

(** C10 (amended): for every video whose [isPublished] flag is false,
    whoever asks, [toggleVideoLike] rejects the request with a 403 and
    [addComment] rejects it with a client error, a 403 when the content
    passes the validation that precedes the lookup and a 400 when the
    content is empty; neither creates a Like or a Comment, nor changes
    anything else. *)
Theorem unpublished_video_takes_no_like_or_comment (user : option ObjectId)
    (videoId : string) (vid : ObjectId) (v : Video.t) (w : World) :
  ObjectId.cast videoId = Some vid ->
  videos w !! vid = Some v ->
  Video.isPublished v = false ->
  replyStatus (replyTo (toggleVideoLike user videoId) w) = 403 /\
  after (toggleVideoLike user videoId) w = w /\
  (forall content,
     replyStatus (replyTo (addComment user videoId content) w)
     = (if Js.emptyText content then 400 else 403) /\
     after (addComment user videoId content) w = w).
Proof.
  intros Hc Hv Hp. split; [| split].
  - unfold toggleVideoLike. run_handler. run_with Hc. run_with Hv. run_with Hp. reflexivity.
  - unfold toggleVideoLike. run_handler. run_with Hc. run_with Hv. run_with Hp. reflexivity.
  - intros content. unfold addComment. run_handler. run_with Hc.
    destruct (Js.emptyText content); run_handler; [split; reflexivity |].
    run_with Hv. run_with Hp. split; reflexivity.
Qed.

(** In [demo], Alice's video 11 is unpublished: Bob can neither like it
    nor comment on it. *)
Lemma unpublished_video_in_demo :
  replyStatus (replyTo (toggleVideoLike (Some 2) id11) demo) = 403 /\
  replyStatus (replyTo (addComment (Some 2) id11 (Some "first!")) demo) = 403 /\
  after (addComment (Some 2) id11 (Some "first!")) demo = demo.
Proof.
  destruct (unpublished_video_takes_no_like_or_comment (Some 2) id11 11
              (Video.mk "v11.mp4" "t11.png" "Draft" "Not yet out" 30 0 false 1 2 2) demo
              eq_refl eq_refl eq_refl) as (L & _ & C).
  split; [exact L |]. exact (C (Some "first!")).
Defined.

(** C10 as stated fails on the status of [addComment]: a blank comment on
    the unpublished video 11 is answered 400, not 403. *)
Lemma blank_comment_on_unpublished_video_is_400 :
  Video.isPublished <$> videos demo !! 11 = Some false /\
  replyTo (addComment (Some 2) id11 (Some "  ")) demo
    = Failed 400 "Comment content cannot be empty".
Proof. vm_compute. auto. Qed.

(** ** The flags of the relation resolver *)

Lemma elem_of_lookup {B} (from : gmap ObjectId B) on id d :
  (id, d) ∈ lookup from on <-> from !! id = Some d /\ on id d = true.
Proof.
  unfold lookup. rewrite list_elem_of_In, filter_In, <- list_elem_of_In.
  rewrite elem_of_map_to_list. reflexivity.
Qed.

(** [$in] finds the user's identifier among the actor fields of the joined
    documents exactly when there is a user and one of the joined documents
    is theirs. *)
Lemma inArray_joined {B} (actor : B -> ObjectId) (user : option ObjectId)
    (joined : list (ObjectId * B)) :
  inArray (userValue user) ((fun kv => BObjectId (actor kv.2)) <$> joined) = true <->
  exists u, user = Some u /\ exists id d, (id, d) ∈ joined /\ actor d = u.
Proof.
  unfold inArray. rewrite bool_decide_eq_true, list_elem_of_fmap. split.
  - intros ([id d] & E & Hin). destruct user as [u|]; [| discriminate].
    simpl in E. injection E as ->. exists (actor d). split; [reflexivity |].
    exists id, d. auto.
  - intros (u & -> & id & d & Hin & <-). exists (id, d). auto.
Qed.

Lemma if_true_iff (b : bool) : (if b then true else false) = true <-> b = true.
Proof. destruct b; split; congruence. Qed.

Lemma commentView_isLiked user w kv :
  commentViewIsLiked (commentView user w kv) = true <->
  exists u, user = Some u /\ likesComment u kv.1 w.
Proof.
  unfold commentView, likedByOf. cbn [commentViewIsLiked].
  rewrite if_true_iff, inArray_joined. unfold likesComment, present.
  split; intros (u & Hu & id & l & H & Ha); exists u; (split; [exact Hu |]); exists id, l.
  - apply elem_of_lookup in H as [Hl Hc]. apply bool_decide_eq_true in Hc. auto.
  - destruct Ha as [Hc Ha]. split; [| exact Ha].
    apply elem_of_lookup. split; [exact H | apply bool_decide_eq_true, Hc].
Qed.

Lemma tweetView_isLiked user w kv :
  tweetViewIsLiked (tweetView user w kv) = true <->
  exists u, user = Some u /\ likesTweet u kv.1 w.
Proof.
  unfold tweetView, likedByOf. cbn [tweetViewIsLiked].
  rewrite if_true_iff, inArray_joined. unfold likesTweet, present.
  split; intros (u & Hu & id & l & H & Ha); exists u; (split; [exact Hu |]); exists id, l.
  - apply elem_of_lookup in H as [Hl Hc]. apply bool_decide_eq_true in Hc. auto.
  - destruct Ha as [Hc Ha]. split; [| exact Ha].
    apply elem_of_lookup. split; [exact H | apply bool_decide_eq_true, Hc].
Qed.

Lemma videoDetails_isLiked user w kv :
  detailsIsLiked (videoDetailsOf user w kv) = true <->
  exists u, user = Some u /\ likesVideo u kv.1 w.
Proof.
  unfold videoDetailsOf, likedByOf. cbn [detailsIsLiked].
  rewrite if_true_iff, inArray_joined. unfold likesVideo, present.
  split; intros (u & Hu & id & l & H & Ha); exists u; (split; [exact Hu |]); exists id, l.
  - apply elem_of_lookup in H as [Hl Hc]. apply bool_decide_eq_true in Hc. auto.
  - destruct Ha as [Hc Ha]. split; [| exact Ha].
    apply elem_of_lookup. split; [exact H | apply bool_decide_eq_true, Hc].
Qed.

Lemma channelProfile_isSubscribed user w kv :
  channelIsSubscribed (channelProfile user w kv) = true <->
  exists u, user = Some u /\ subscribedTo u kv.1 w.
Proof.
  unfold channelProfile, subscriberOf. cbn [channelIsSubscribed].
  rewrite if_true_iff, inArray_joined. unfold subscribedTo, present.
  split; intros (u & Hu & id & s & H & Ha); exists u; (split; [exact Hu |]); exists id, s.
  - apply elem_of_lookup in H as [Hl Hc]. apply bool_decide_eq_true in Hc. auto.
  - destruct Ha as [Ha Hc]. split; [| exact Ha].
    apply elem_of_lookup. split; [exact H | apply bool_decide_eq_true, Hc].
Qed.

(** C6: in every record the relation-resolver pipelines produce (the
    comments of a video, the tweets of a user, the video fetched by id, the
    channel profile), [isLiked], respectively [isSubscribed], is true
    exactly when there is a current actor and the actor's id is among the
    [likedBy] of the likes joined to the record, respectively among the
    [subscriber] of the subscriptions joined to the channel; without an
    authenticated actor the field is false. *)
Theorem interaction_flags_are_membership (user : option ObjectId) (w : World) :
  (forall vid cv,
     cv ∈ commentAggregate user vid w ->
     (commentViewIsLiked cv = true <->
      exists u, user = Some u /\ likesComment u (commentViewId cv) w) /\
     (user = None -> commentViewIsLiked cv = false)) /\
  (forall uid tv,
     tv ∈ tweetAggregate user uid w ->
     (tweetViewIsLiked tv = true <->
      exists u, user = Some u /\ likesTweet u (tweetViewId tv) w) /\
     (user = None -> tweetViewIsLiked tv = false)) /\
  (forall vid d,
     d ∈ videoDetailsAggregate user vid w ->
     (detailsIsLiked d = true <->
      exists u, user = Some u /\ likesVideo u (videoViewId (detailsView d)) w) /\
     (user = None -> detailsIsLiked d = false)) /\
  (forall username c,
     c ∈ channelAggregate user username w ->
     (channelIsSubscribed c = true <->
      exists u, user = Some u /\ subscribedTo u (channelProfileId c) w) /\
     (user = None -> channelIsSubscribed c = false)).
Proof.
  assert (Hnone : forall (b : bool) (P : ObjectId -> Prop),
            (b = true <-> exists u, user = Some u /\ P u) -> user = None -> b = false).
  { intros b P H ->. destruct b; [| reflexivity].
    destruct (proj1 H eq_refl) as (u & E & _). discriminate. }
  repeat apply conj.
  - intros vid cv H. unfold commentAggregate, sortDescending in H.
    rewrite merge_sort_Permutation in H.
    apply list_elem_of_fmap in H as (kv & -> & _).
    pose proof (commentView_isLiked user w kv) as E.
    split; [exact E | exact (Hnone _ _ E)].
  - intros uid tv H. unfold tweetAggregate, sortDescending in H.
    rewrite merge_sort_Permutation in H.
    apply list_elem_of_fmap in H as (kv & -> & _).
    pose proof (tweetView_isLiked user w kv) as E.
    split; [exact E | exact (Hnone _ _ E)].
  - intros vid d H. unfold videoDetailsAggregate in H.
    apply list_elem_of_fmap in H as (kv & -> & _).
    pose proof (videoDetails_isLiked user w kv) as E.
    split; [exact E | exact (Hnone _ _ E)].
  - intros username c H. unfold channelAggregate in H.
    apply list_elem_of_fmap in H as (kv & -> & _).
    pose proof (channelProfile_isSubscribed user w kv) as E.
    split; [exact E | exact (Hnone _ _ E)].
Qed.

(** After Alice likes Bob's comment 20, the listing she is given marks the
    comment as liked, and so she is among its likers. *)
Lemma liked_comment_in_demo :
  exists u, Some 1 = Some u /\
            likesComment u 20 (after (toggleCommentLike (Some 1) id20) demo).
Proof.
  pose (w := after (toggleCommentLike (Some 1) id20) demo).
  pose (cv := commentView (Some 1) w (20, Comment.mk "nice" 10 2 3)).
  assert (Hin : cv ∈ commentAggregate (Some 1) 10 w) by (vm_compute; left).
  destruct (proj1 (interaction_flags_are_membership (Some 1) w) 10 cv Hin) as [E _].
  apply E. vm_compute. reflexivity.
Defined.

(** ** The upload wrapper *)

Ltac run_upload :=
  cbv beta iota zeta delta
    [uploadOnCloudinary tryCatch bind upload unlinkSync existsSync gets ret negb
     default from_option id fst snd].

Lemma upload_failed_run path w :
  Js.truthy (Some path) = true -> remote w path = None ->
  uploadOnCloudinary (Some path) w =
  if decide (path ∈ files w)
  then (emit (Unlinked path)
          (setFiles (fun f => f ∖ {[path]}) (emit (UploadFailed path) w)), inr None)
  else (emit (UploadFailed path) w, inr None).
Proof.
  intros Ht Hr. run_upload. rewrite Ht, Hr. run_upload.
  change (files (emit (UploadFailed path) w)) with (files w).
  destruct (decide (path ∈ files w)) as [Hin | Hout].
  - rewrite bool_decide_eq_true_2 by exact Hin. run_upload.
    change (files (emit (UploadFailed path) w)) with (files w).
    rewrite decide_True by exact Hin. reflexivity.
  - rewrite bool_decide_eq_false_2 by exact Hout. reflexivity.
Qed.

Lemma upload_succeeded_run path resource w :
  Js.truthy (Some path) = true -> remote w path = Some resource -> path ∈ files w ->
  uploadOnCloudinary (Some path) w =
  (emit (Unlinked path) (setFiles (fun f => f ∖ {[path]}) (emit (Uploaded path) w)),
   inr (Some resource)).
Proof.
  intros Ht Hr Hin. run_upload. rewrite Ht, Hr. run_upload.
  change (files (emit (Uploaded path) w)) with (files w).
  rewrite decide_True by exact Hin. reflexivity.
Qed.

(** C8: for every call of [uploadOnCloudinary] with a local file path
    (one that is not null nor empty): if the remote upload fails, the
    function returns null and the local file is gone; if the upload
    succeeds, the local temporary file is removed after the upload has
    yielded its result, and that result is returned. *)
Theorem upload_removes_the_local_file (path : string) (w : World) :
  Js.truthy (Some path) = true ->
  (remote w path = None ->
     uploadResult (Some path) w = Some None /\
     files (afterUpload (Some path) w) = files w ∖ {[path]} /\
     log (afterUpload (Some path) w)
     = (log w ++ UploadFailed path
                 :: (if decide (path ∈ files w) then [Unlinked path] else []))%list) /\
  (forall resource,
     remote w path = Some resource ->
     path ∈ files w ->
     uploadResult (Some path) w = Some (Some resource) /\
     files (afterUpload (Some path) w) = files w ∖ {[path]} /\
     log (afterUpload (Some path) w) = (log w ++ [Uploaded path; Unlinked path])%list).
Proof.
  intros Ht. split.
  - intros Hr. unfold uploadResult, afterUpload.
    rewrite (upload_failed_run path w Ht Hr).
    destruct (decide (path ∈ files w)) as [Hin | Hout]; cbn.
    + rewrite <- app_assoc. auto.
    + split; [reflexivity |]. split; [| reflexivity].
      symmetry. apply difference_disjoint_L. apply disjoint_singleton_r. exact Hout.
  - intros resource Hr Hin. unfold uploadResult, afterUpload.
    rewrite (upload_succeeded_run path resource w Ht Hr Hin). cbn.
    rewrite <- app_assoc. auto.
Qed.


(** In [demo], the upload of [clip.mp4] succeeds and that of [broken.mp4]
    fails; both files are removed. *)
Lemma uploads_in_demo :
  uploadResult (Some "public/temp/broken.mp4") demo = Some None /\
  uploadResult (Some "public/temp/clip.mp4") demo
    = Some (Some (mkResource "https://media.example.org/clip.mp4" 12)) /\
  log (afterUpload (Some "public/temp/clip.mp4") demo)
    = [Uploaded "public/temp/clip.mp4"; Unlinked "public/temp/clip.mp4"].
Proof.
  destruct (upload_removes_the_local_file "public/temp/broken.mp4" demo eq_refl) as [F _].
  destruct (upload_removes_the_local_file "public/temp/clip.mp4" demo eq_refl) as [_ S].
  split; [apply F; reflexivity |].
  destruct (S (mkResource "https://media.example.org/clip.mp4" 12) eq_refl) as (R & _ & L).
  - vm_compute. set_solver.
  - split; [exact R | exact L].
Defined.

(** ** The invariant of subscriptions *)

(** A request to [toggleSubscription] either is rejected and changes
    nothing, or reaches the body of the toggle. *)
Lemma toggleSubscription_cases user channelId w :
  after (toggleSubscription user channelId) w = w \/
  exists u cid,
    user = Some u /\ ObjectId.cast channelId = Some cid /\
    channelId <> ObjectId.toString u /\
    after (toggleSubscription user channelId) w =
    setSubscriptions (fun _ =>
      (toggled (fun s => refIs (Subscription.subscriber s) (Some u) && channelIs cid s)
               (Subscription.mk u cid) (subscriptions w)).2) w.
Proof.
  destruct (ObjectId.cast channelId) as [cid|] eqn:Hc;
    [| left; unfold toggleSubscription; run_handler; run_with Hc; reflexivity].
  destruct user as [u|];
    [| left; unfold toggleSubscription; run_handler; run_with Hc; reflexivity].
  destruct (String.eqb channelId (ObjectId.toString u)) eqn:Hne;
    [left; unfold toggleSubscription; run_handler; run_with Hc; run_with Hne; reflexivity |].
  destruct (users w !! cid) as [c|] eqn:Hu;
    [| left; unfold toggleSubscription; run_handler; run_with Hc; run_with Hne; run_with Hu;
       reflexivity].
  right. exists u, cid. apply String.eqb_neq in Hne as Hne'.
  repeat split; auto.
  unfold after. rewrite (toggleSubscription_run u channelId cid c w Hc Hne Hu). reflexivity.
Qed.

Lemma atMostOne_delete {A} (P : A -> Prop) (c : gmap ObjectId A) id :
  atMostOne P c -> atMostOne P (delete id c).
Proof.
  intros Hone id1 d1 id2 d2 H1 P1 H2 P2.
  apply lookup_delete_Some in H1 as [_ H1]. apply lookup_delete_Some in H2 as [_ H2].
  eapply Hone; eauto.
Qed.

Lemma atMostOne_insert_other {A} (P : A -> Prop) (c : gmap ObjectId A) d :
  atMostOne P c -> ~ P d -> atMostOne P (<[newId c := d]> c).
Proof.
  intros Hone Hd id1 d1 id2 d2 H1 P1 H2 P2.
  apply lookup_insert_Some in H1 as [[_ <-]|[_ H1]]; [contradiction |].
  apply lookup_insert_Some in H2 as [[_ <-]|[_ H2]]; [contradiction |].
  eapply Hone; eauto.
Qed.

(** Uniqueness is kept by every request. *)
Lemma toggleSubscription_keeps_unique user channelId w :
  subscriptionsUnique w ->
  subscriptionsUnique (after (toggleSubscription user channelId) w).
Proof.
  intros Hinv.
  destruct (toggleSubscription_cases user channelId w)
    as [-> | (u & cid & _ & _ & _ & ->)]; [exact Hinv |].
  intros s channel. unfold oneSubscriptionPerChannel. cbn [subscriptions setSubscriptions].
  destruct (decide (s = u /\ channel = cid)) as [[-> ->] | Hother].
  - apply (toggled_flips _ _ (Subscription.mk u cid) (subscriptions w)
             (subscriptionFilter_decides u cid) (conj eq_refl eq_refl) (Hinv u cid)).
  - unfold toggled. destruct (findOne _ _) as [[id x]|]; cbn [snd fst].
    + apply atMostOne_delete, Hinv.
    + apply atMostOne_insert_other; [apply Hinv |].
      cbn. intros [E1 E2]. apply Hother. auto.
Qed.

(** No self-subscription arises from a parameter in canonical form. *)
Lemma toggleSubscription_keeps_no_self user channelId w :
  canonical channelId ->
  noSelfSubscription w ->
  noSelfSubscription (after (toggleSubscription user channelId) w).
Proof.
  intros Hcan Hinv.
  destruct (toggleSubscription_cases user channelId w)
    as [-> | (u & cid & _ & Hc & Hne & ->)]; [exact Hinv |].
  intros id s. cbn [subscriptions setSubscriptions]. unfold toggled.
  destruct (findOne _ _) as [[id' x]|]; cbn [snd fst]; intros H.
  - apply lookup_delete_Some in H as [_ H]. eapply Hinv, H.
  - apply lookup_insert_Some in H as [[_ <-]|[_ H]]; [| eapply Hinv, H].
    cbn. intros ->. apply Hne. apply Hcan, Hc.
Qed.

(** C7, the code at a failing input: Carol's identifier is 2748, printed
    [000000000000000000000abc].  Naming her own channel in upper case she
    passes the test against self-subscription, which compares the texts,
    and a Subscription of Carol to Carol is created; the same request in
    lower case is rejected. *)
Lemma toggleSubscription_admits_self_subscription :
  let request := toggleSubscription (Some 2748) "000000000000000000000ABC" in
  ObjectId.cast "000000000000000000000ABC" = Some 2748 /\
  replyStatus (replyTo request demo) = 200 /\
  reported subscribed request demo = Some true /\
  map_to_list (subscriptions (after request demo)) = [(0, Subscription.mk 2748 2748)] /\
  replyTo (toggleSubscription (Some 2748) "000000000000000000000abc") demo
    = Failed 400 "Users cannot subscribe to their own channel".
Proof. vm_compute. repeat split; reflexivity. Qed.

(** * Further properties of the controllers *)

(** ** Malformed identifiers *)

(** Splitting the conjunctions that are written in the goal. *)
Ltac split_all := repeat match goal with |- _ /\ _ => split end.

Ltac refuse_with Hc :=
  unfold Refuses; run_handler; rewrite ?Hc; run_handler; split; reflexivity.

(** X1: every handler that takes an identifier from the request answers
    400 to a text that is no identifier, before it reads or writes
    anything: nothing is changed. *)
Theorem malformed_id_is_refused (user : option ObjectId) (id : string) (q : PageQuery)
    (w : World) :
  ObjectId.cast id = None ->
  Refuses 400 (toggleVideoLike user id) w /\
  Refuses 400 (toggleCommentLike user id) w /\
  Refuses 400 (toggleTweetLike user id) w /\
  Refuses 400 (toggleSubscription user id) w /\
  Refuses 400 (getVideoComments user id q) w /\
  (forall content, Refuses 400 (addComment user id content) w) /\
  (forall content, Refuses 400 (updateComment user id content) w) /\
  Refuses 400 (deleteComment user id) w /\
  Refuses 400 (getVideoById user id) w /\
  (forall title description thumbnail,
     Refuses 400 (updateVideo user id title description thumbnail) w) /\
  Refuses 400 (deleteVideo user id) w /\
  Refuses 400 (togglePublishStatus user id) w /\
  Refuses 400 (getUserTweets user id q) w /\
  (forall content, Refuses 400 (updateTweet user id content) w) /\
  Refuses 400 (deleteTweet user id) w /\
  Refuses 400 (getUserChannelSubscribers id q) w /\
  Refuses 400 (getSubscribedChannels id q) w /\
  Refuses 400 (getUserPlaylists id q) w /\
  Refuses 400 (getPlaylistById id) w /\
  (forall other,
     Refuses 400 (addVideoToPlaylist user id other) w /\
     Refuses 400 (addVideoToPlaylist user other id) w /\
     Refuses 400 (removeVideoFromPlaylist user id other) w /\
     Refuses 400 (removeVideoFromPlaylist user other id) w) /\
  Refuses 400 (deletePlaylist user id) w /\
  (forall name description, Refuses 400 (updatePlaylist user id name description) w).
Proof.
  intros Hc. split_all.
  - unfold toggleVideoLike. refuse_with Hc.
  - unfold toggleCommentLike. refuse_with Hc.
  - unfold toggleTweetLike. refuse_with Hc.
  - unfold toggleSubscription. refuse_with Hc.
  - unfold getVideoComments. refuse_with Hc.
  - intros content. unfold addComment. refuse_with Hc.
  - intros content. unfold updateComment. refuse_with Hc.
  - unfold deleteComment. refuse_with Hc.
  - unfold getVideoById. refuse_with Hc.
  - intros title description thumbnail. unfold updateVideo. refuse_with Hc.
  - unfold deleteVideo. refuse_with Hc.
  - unfold togglePublishStatus. refuse_with Hc.
  - unfold getUserTweets. refuse_with Hc.
  - intros content. unfold updateTweet. refuse_with Hc.
  - unfold deleteTweet. refuse_with Hc.
  - unfold getUserChannelSubscribers. refuse_with Hc.
  - unfold getSubscribedChannels. refuse_with Hc.
  - unfold getUserPlaylists. refuse_with Hc.
  - unfold getPlaylistById. refuse_with Hc.
  - intros other. split_all.
    + unfold addVideoToPlaylist. refuse_with Hc.
    + unfold addVideoToPlaylist. unfold Refuses. run_handler. rewrite Hc.
      destruct (ObjectId.cast other); run_handler; split; reflexivity.
    + unfold removeVideoFromPlaylist. refuse_with Hc.
    + unfold removeVideoFromPlaylist. unfold Refuses. run_handler. rewrite Hc.
      destruct (ObjectId.cast other); run_handler; split; reflexivity.
  - unfold deletePlaylist. refuse_with Hc.
  - intros name description. unfold updatePlaylist. refuse_with Hc.
Qed.

(** In [demo], the text ["abc"] is no identifier. *)
Lemma malformed_id_in_demo :
  Refuses 400 (deleteVideo (Some 1) "abc") demo /\
  Refuses 400 (toggleSubscription (Some 1) "abc") demo.
Proof.
  pose proof (malformed_id_is_refused (Some 1) "abc" (mkPageQuery None None) demo eq_refl) as H.
  split; [apply H | apply H].
Defined.

(** ** The owner gate of videos, tweets and playlists *)

Lemma differs_foreign owner user : foreignTo owner user -> differs owner user = true.
Proof.
  intros (Hne & Ho & Hu). destruct user as [u|]; [| reflexivity].
  apply differs_true; [exact Ho | apply Hu; reflexivity |]. congruence.
Qed.

(** X2: the mutations of a video and of a tweet are refused with a 403,
    and change nothing, for every requester who is not the owner,
    unauthenticated requesters included; for the updates this holds once
    the body has passed validation. *)
Theorem foreign_actor_is_forbidden (user : option ObjectId) (id : string) (o : ObjectId)
    (w : World) :
  ObjectId.cast id = Some o ->
  (forall v,
     videos w !! o = Some v -> foreignTo (Video.owner v) user ->
     Refuses 403 (deleteVideo user id) w /\
     Refuses 403 (togglePublishStatus user id) w /\
     (forall title description thumbnailLocalPath,
        Js.truthy title || Js.truthy description || Js.truthy thumbnailLocalPath = true ->
        Refuses 403 (updateVideo user id title description thumbnailLocalPath) w)) /\
  (forall t,
     tweets w !! o = Some t -> foreignTo (Tweet.owner t) user ->
     Refuses 403 (deleteTweet user id) w /\
     (forall content,
        Js.emptyText content = false ->
        Refuses 403 (updateTweet user id content) w)).
Proof.
  intros Hc. split.
  - intros v Hv Hf. apply differs_foreign in Hf. split_all.
    + unfold deleteVideo, Refuses. run_handler. run_with Hc. run_with Hv. run_with Hf.
      split; reflexivity.
    + unfold togglePublishStatus, Refuses. run_handler. run_with Hc. run_with Hv. run_with Hf.
      split; reflexivity.
    + intros title description thumbnailLocalPath Hb.
      unfold updateVideo, Refuses. run_handler. run_with Hc.
      destruct (Js.truthy title), (Js.truthy description), (Js.truthy thumbnailLocalPath);
        try discriminate Hb; run_handler; run_with Hv; run_with Hf; split; reflexivity.
  - intros t Ht Hf. apply differs_foreign in Hf. split_all.
    + unfold deleteTweet, Refuses. run_handler. run_with Hc. run_with Ht. run_with Hf.
      split; reflexivity.
    + intros content Hb. unfold updateTweet, Refuses. run_handler. run_with Hc. run_with Hb.
      run_with Ht. run_with Hf. split; reflexivity.
Qed.

(** In [demo], Bob may not delete Alice's video 10 nor her tweet 30. *)
Lemma foreign_actor_in_demo :
  Refuses 403 (deleteVideo (Some 2) id10) demo /\
  Refuses 403 (deleteTweet (Some 2) id30) demo.
Proof.
  assert (Hf : foreignTo 1 (Some 2)).
  { split; [discriminate |]. split; [reflexivity |]. intros u [= <-]. reflexivity. }
  split.
  - apply (proj1 (foreign_actor_is_forbidden (Some 2) id10 10 demo eq_refl)
             (Video.mk "v10.mp4" "t10.png" "First" "A first video" 60 0 true 1 1 1)
             eq_refl Hf).
  - apply (proj2 (foreign_actor_is_forbidden (Some 2) id30 30 demo eq_refl)
             (Tweet.mk "hello" 1 4) eq_refl Hf).
Defined.

(** X3: the mutations of a playlist are refused with a 403 for an
    authenticated requester who is not the owner, and fail with a 500 for
    a request without a user, whose identifier is read unguarded; in both
    cases nothing is changed. *)
Theorem playlist_gate (id : string) (o : ObjectId) (p : Playlist.t) (w : World) :
  ObjectId.cast id = Some o ->
  playlists w !! o = Some p ->
  (forall u,
     foreignTo (Playlist.owner p) (Some u) ->
     Refuses 403 (deletePlaylist (Some u) id) w /\
     (forall name description,
        Js.emptyText name && Js.emptyText description = false ->
        Refuses 403 (updatePlaylist (Some u) id name description) w) /\
     (forall videoId,
        ObjectId.isValid videoId = true ->
        Refuses 403 (addVideoToPlaylist (Some u) id videoId) w /\
        Refuses 403 (removeVideoFromPlaylist (Some u) id videoId) w)) /\
  (Refuses 500 (deletePlaylist None id) w /\
   (forall name description,
      Js.emptyText name && Js.emptyText description = false ->
      Refuses 500 (updatePlaylist None id name description) w) /\
   (forall videoId,
      ObjectId.isValid videoId = true ->
      Refuses 500 (addVideoToPlaylist None id videoId) w /\
      Refuses 500 (removeVideoFromPlaylist None id videoId) w)).
Proof.
  intros Hc Hp. split.
  - intros u Hf. apply differs_foreign in Hf. unfold differs in Hf.
    apply negb_true_iff in Hf. split_all.
    + unfold deletePlaylist, Refuses. run_handler. run_with Hc. run_with Hp. run_with Hf.
      split; reflexivity.
    + intros name description Hb. unfold updatePlaylist, Refuses. run_handler. run_with Hc.
      destruct (Js.emptyText name), (Js.emptyText description); try discriminate Hb;
        run_handler; run_with Hp; run_with Hf; split; reflexivity.
    + intros videoId Hvalid. unfold ObjectId.isValid in Hvalid.
      destruct (ObjectId.cast videoId) as [vid|] eqn:Ev; [| discriminate].
      split_all.
      * unfold addVideoToPlaylist, Refuses. run_handler. rewrite Hc, Ev. run_handler.
        run_with Hp. run_with Hf. split; reflexivity.
      * unfold removeVideoFromPlaylist, Refuses. run_handler. rewrite Hc, Ev. run_handler.
        run_with Hp. run_with Hf. split; reflexivity.
  - split_all.
    + unfold deletePlaylist, Refuses. run_handler. run_with Hc. run_with Hp.
      split; reflexivity.
    + intros name description Hb. unfold updatePlaylist, Refuses. run_handler. run_with Hc.
      destruct (Js.emptyText name), (Js.emptyText description); try discriminate Hb;
        run_handler; run_with Hp; split; reflexivity.
    + intros videoId Hvalid. unfold ObjectId.isValid in Hvalid.
      destruct (ObjectId.cast videoId) as [vid|] eqn:Ev; [| discriminate].
      split_all.
      * unfold addVideoToPlaylist, Refuses. run_handler. rewrite Hc, Ev. run_handler.
        run_with Hp. split; reflexivity.
      * unfold removeVideoFromPlaylist, Refuses. run_handler. rewrite Hc, Ev. run_handler.
        run_with Hp. split; reflexivity.
Qed.

(** In [demo], Bob may not delete Alice's playlist 40, and a request
    without a user fails. *)
Lemma playlist_gate_in_demo :
  Refuses 403 (deletePlaylist (Some 2) id40) demo /\
  Refuses 500 (deletePlaylist None id40) demo.
Proof.
  destruct (playlist_gate id40 40 (Playlist.mk "favourites" "" 1 [] 5 5) demo eq_refl eq_refl)
    as [F N].
  split; [| apply N].
  apply F. split; [discriminate |]. split; [reflexivity |]. intros u [= <-]. reflexivity.
Defined.

(** ** Publishing, viewing and deleting a video *)

Lemma differs_self a : differs a (Some a) = false.
Proof. unfold differs. rewrite String.eqb_refl. reflexivity. Qed.

(** X4: the owner's publish toggle answers with the negated flag and
    stores it; of the video it changes the flag only (the time of the last
    change apart), it changes no other video, and two toggles in a row
    give the flag back. *)
Theorem publish_toggle_is_an_involution (id : string) (o : ObjectId) (v : Video.t)
    (w : World) :
  ObjectId.cast id = Some o ->
  videos w !! o = Some v ->
  let toggle := togglePublishStatus (Some (Video.owner v)) id in
  replyStatus (replyTo toggle w) = 200 /\
  replyData (replyTo toggle w) = Some (o, negb (Video.isPublished v)) /\
  (exists v', videos (after toggle w) !! o = Some v' /\
     Video.isPublished v' = negb (Video.isPublished v) /\
     Video.views v' = Video.views v /\ sameContent v v') /\
  (forall o', o' <> o -> videos (after toggle w) !! o' = videos w !! o') /\
  Video.isPublished <$> videos (after toggle (after toggle w)) !! o
  = Some (Video.isPublished v).
Proof.
  intros Hc Hv toggle.
  assert (Hrun : forall v0 w0, videos w0 !! o = Some v0 -> Video.owner v0 = Video.owner v ->
            serve toggle w0 =
            (setVideos (insert o (withPublished (negb (Video.isPublished v0)) v0)) w0,
             Sent (mkResponse 200 (apiResponse 200 (o, negb (Video.isPublished v0))
                                     "Video publish status toggled successfully")))).
  { intros v0 w0 H0 Ho.
    assert (Hd : differs (Video.owner v0) (Some (Video.owner v)) = false)
      by (rewrite Ho; apply differs_self).
    unfold toggle, togglePublishStatus. run_handler. run_with Hc.
    run_with H0. rewrite Hd. reflexivity. }
  unfold replyTo, after. rewrite (Hrun v w Hv eq_refl). cbn [fst snd].
  split_all; try reflexivity.
  - exists (withPublished (negb (Video.isPublished v)) v). cbn [videos setVideos].
    rewrite lookup_insert_eq. unfold sameContent. split_all; reflexivity.
  - intros o' Hne. cbn [videos setVideos]. apply lookup_insert_ne. congruence.
  - rewrite (Hrun (withPublished (negb (Video.isPublished v)) v)).
    + cbn [fst videos setVideos]. rewrite lookup_insert_eq. cbn.
      rewrite negb_involutive. reflexivity.
    + cbn [videos setVideos]. apply lookup_insert_eq.
    + reflexivity.
Qed.

(** In [demo], Alice unpublishes and republishes her video 10. *)
Lemma publish_toggle_in_demo :
  Video.isPublished <$>
    videos (after (togglePublishStatus (Some 1) id10)
              (after (togglePublishStatus (Some 1) id10) demo)) !! 10
  = Some true.
Proof.
  apply (publish_toggle_is_an_involution id10 10
           (Video.mk "v10.mp4" "t10.png" "First" "A first video" 60 0 true 1 1 1) demo
           eq_refl eq_refl).
Defined.

(** X5: a deletion by the owner removes the one document and nothing
    else.  Deleting a video leaves its comments, its likes and the
    playlists that list it as they are; deleting a tweet leaves its likes;
    deleting a playlist leaves its videos. *)
Theorem deletion_removes_one_document (id : string) (o : ObjectId) (w : World) :
  ObjectId.cast id = Some o ->
  (forall v, videos w !! o = Some v ->
     replyStatus (replyTo (deleteVideo (Some (Video.owner v)) id) w) = 200 /\
     after (deleteVideo (Some (Video.owner v)) id) w = setVideos (delete o) w) /\
  (forall t, tweets w !! o = Some t ->
     replyStatus (replyTo (deleteTweet (Some (Tweet.owner t)) id) w) = 200 /\
     after (deleteTweet (Some (Tweet.owner t)) id) w = setTweets (delete o) w) /\
  (forall p, playlists w !! o = Some p ->
     replyStatus (replyTo (deletePlaylist (Some (Playlist.owner p)) id) w) = 200 /\
     after (deletePlaylist (Some (Playlist.owner p)) id) w = setPlaylists (delete o) w).
Proof.
  intros Hc. split_all.
  - intros v Hv. unfold deleteVideo. run_handler. run_with Hc. run_with Hv.
    rewrite differs_self. run_handler. rewrite Hv. split; reflexivity.
  - intros t Ht. unfold deleteTweet. run_handler. run_with Hc. run_with Ht.
    rewrite differs_self. run_handler. rewrite Ht. split; reflexivity.
  - intros p Hp. unfold deletePlaylist. run_handler. run_with Hc. run_with Hp.
    rewrite String.eqb_refl. run_handler. rewrite Hp. split; reflexivity.
Qed.

(** In [demo], Alice deletes her video 10: Bob's comment on it stays. *)
Lemma deletion_in_demo :
  after (deleteVideo (Some 1) id10) demo = setVideos (delete 10) demo /\
  comments (after (deleteVideo (Some 1) id10) demo) = comments demo.
Proof.
  destruct (proj1 (deletion_removes_one_document id10 10 demo eq_refl)
              (Video.mk "v10.mp4" "t10.png" "First" "A first video" 60 0 true 1 1 1) eq_refl)
    as [_ E].
  cbn [Video.owner] in E. split; [exact E | rewrite E; reflexivity].
Defined.

(** Selecting by [_id] yields the one document of that identifier. *)
Lemma matching_by_id {B} (coll : gmap ObjectId B) (o : ObjectId) (d : B) :
  coll !! o = Some d ->
  matching coll (fun id _ => bool_decide (id = o)) = [(o, d)].
Proof.
  intros Hl.
  assert (Hin : forall x, x ∈ matching coll (fun id _ => bool_decide (id = o)) <-> x = (o, d)).
  { intros [id x]. rewrite elem_of_matching, bool_decide_eq_true. split.
    - intros [H ->]. congruence.
    - intros [= -> ->]. auto. }
  assert (Hnd : NoDup (matching coll (fun id _ => bool_decide (id = o)))).
  { unfold matching. apply NoDup_ListNoDup, List.NoDup_filter, NoDup_ListNoDup.
    apply NoDup_map_to_list. }
  destruct (matching coll _) as [|a [|b rest]].
  - exfalso. apply (not_elem_of_nil (o, d)). apply Hin. reflexivity.
  - f_equal. apply Hin. left.
  - exfalso. assert (a = (o, d)) by (apply Hin; left).
    assert (b = (o, d)) by (apply Hin; right; left). subst.
    apply NoDup_cons in Hnd as [Hn _]. apply Hn. left.
Qed.

Lemma matching_by_id_none {B} (coll : gmap ObjectId B) (o : ObjectId) :
  coll !! o = None ->
  matching coll (fun id _ => bool_decide (id = o)) = [].
Proof.
  intros Hl. destruct (matching coll _) as [|[id x] rest] eqn:E; [reflexivity |].
  assert (Hin : (id, x) ∈ matching coll (fun id _ => bool_decide (id = o)))
    by (rewrite E; left).
  apply elem_of_matching in Hin as [H Hid]. apply bool_decide_eq_true in Hid. congruence.
Qed.

(** X6: [getVideoById] counts a view of a published video and none of an
    unpublished one, and answers with the count after the view.  Of the
    video nothing else changes (the time of the last change apart), and no
    other video changes.  It asks for no owner: an unpublished video is
    shown to every requester, and the request changes nothing. *)
Theorem getVideoById_counts_a_view (user : option ObjectId) (id : string) (o : ObjectId)
    (v : Video.t) (w : World) :
  ObjectId.cast id = Some o ->
  videos w !! o = Some v ->
  replyStatus (replyTo (getVideoById user id) w) = 200 /\
  (fun d => videoViewViews (detailsView d)) <$> replyData (replyTo (getVideoById user id) w)
  = Some (Video.views v + (if Video.isPublished v then 1 else 0)) /\
  (exists v', videos (after (getVideoById user id) w) !! o = Some v' /\
     Video.views v' = Video.views v + (if Video.isPublished v then 1 else 0) /\
     Video.isPublished v' = Video.isPublished v /\ sameContent v v') /\
  (forall o', o' <> o -> videos (after (getVideoById user id) w) !! o' = videos w !! o') /\
  (Video.isPublished v = false -> after (getVideoById user id) w = w).
Proof.
  intros Hc Hv. unfold getVideoById. run_handler. run_with Hc. run_with Hv.
  change (Video.mk (Video.videoFile v) (Video.thumbnail v) (Video.title v)
            (Video.description v) (Video.duration v) (Video.views v + 1)
            (Video.isPublished v) (Video.owner v) (Video.createdAt v) (Video.updatedAt v))
    with (withViews (Video.views v + 1) v).
  destruct (Video.isPublished v) eqn:Hp; run_handler.
  - unfold videoDetailsAggregate. cbn [videos setVideos].
    rewrite (matching_by_id _ o (withViews (Video.views v + 1) v))
      by apply lookup_insert_eq.
    cbn [fmap list_fmap head]. run_handler. split_all; try reflexivity.
    + exists (withViews (Video.views v + 1) v). cbn [videos setVideos].
      rewrite lookup_insert_eq. unfold sameContent. split_all; try reflexivity.
      cbn. exact Hp.
    + intros o' Hne. cbn [videos setVideos]. apply lookup_insert_ne. congruence.
    + discriminate.
  - unfold videoDetailsAggregate.
    rewrite (matching_by_id _ o v Hv). cbn [fmap list_fmap head]. run_handler.
    split_all; try reflexivity.
    + cbn. rewrite N.add_0_r. reflexivity.
    + exists v. unfold sameContent. rewrite N.add_0_r. split_all; auto.
Qed.

(** In [demo], Bob looks at Alice's unpublished video 11. *)
Lemma unpublished_video_is_shown_in_demo :
  replyStatus (replyTo (getVideoById (Some 2) id11) demo) = 200 /\
  after (getVideoById (Some 2) id11) demo = demo.
Proof.
  destruct (getVideoById_counts_a_view (Some 2) id11 11
              (Video.mk "v11.mp4" "t11.png" "Draft" "Not yet out" 30 0 false 1 2 2) demo
              eq_refl eq_refl) as (S & _ & _ & _ & A).
  split; [exact S | apply A; reflexivity].
Defined.

(** ** Counting likes and subscribers *)

Lemma filter_length_Permutation {B} (f : B -> bool) (l1 l2 : list B) :
  l1 ≡ₚ l2 -> length (List.filter f l1) = length (List.filter f l2).
Proof.
  induction 1 as [| x l1 l2 _ IH | x y l | l1 l2 l3 _ IH1 _ IH2]; simpl.
  - reflexivity.
  - destruct (f x); simpl; congruence.
  - destruct (f x), (f y); reflexivity.
  - congruence.
Qed.

Lemma countDocuments_insert {B} (q : B -> bool) (c : gmap ObjectId B) id d :
  c !! id = None ->
  countDocuments q (<[id := d]> c) = ((if q d then 1 else 0) + countDocuments q c)%nat.
Proof.
  intros Hn. unfold countDocuments.
  rewrite (filter_length_Permutation _ _ _ (map_to_list_insert c id d Hn)).
  simpl. destruct (q d); reflexivity.
Qed.

Lemma countDocuments_delete {B} (q : B -> bool) (c : gmap ObjectId B) id d :
  c !! id = Some d ->
  countDocuments q c = ((if q d then 1 else 0) + countDocuments q (delete id c))%nat.
Proof.
  intros Hl. unfold countDocuments.
  rewrite <- (filter_length_Permutation _ _ _ (map_to_list_delete c id d Hl)).
  simpl. destruct (q d); reflexivity.
Qed.

(** The count of a toggle's target moves by one, the way the toggle
    reports. *)
Lemma toggled_count {B} (p q : B -> bool) (d : B) (c : gmap ObjectId B) :
  (forall x, p x = true -> q x = true) -> q d = true ->
  let t := toggled p d c in
  if t.1
  then countDocuments q t.2 = S (countDocuments q c)
  else S (countDocuments q t.2) = countDocuments q c.
Proof.
  intros Hpq Hd. unfold toggled.
  destruct (findOne p c) as [[id x]|] eqn:E; cbn [fst snd].
  - apply findOne_Some in E as [Hl Hp].
    rewrite (countDocuments_delete q c id x Hl), (Hpq x Hp). reflexivity.
  - rewrite (countDocuments_insert q c _ d (newId_fresh c)), Hd. reflexivity.
Qed.

(** X7: the count a toggle reports is the number of likes of the target
    (of subscribers of the channel) after the toggle, and it is one more
    than before when the toggle reports [true] and one less when it
    reports [false]. *)
Theorem toggle_moves_the_count_by_one (u : ObjectId) (w : World) :
  (forall videoId vid,
     canToggleVideoLike u videoId vid w ->
     exists r, replyData (replyTo (toggleVideoLike (Some u) videoId) w) = Some r /\
       likeCount r = countDocuments (videoIs vid)
                       (likes (after (toggleVideoLike (Some u) videoId) w)) /\
       (if liked r
        then likeCount r = S (countDocuments (videoIs vid) (likes w))
        else S (likeCount r) = countDocuments (videoIs vid) (likes w))) /\
  (forall commentId cid,
     canToggleCommentLike u commentId cid w ->
     exists r, replyData (replyTo (toggleCommentLike (Some u) commentId) w) = Some r /\
       likeCount r = countDocuments (commentIs cid)
                       (likes (after (toggleCommentLike (Some u) commentId) w)) /\
       (if liked r
        then likeCount r = S (countDocuments (commentIs cid) (likes w))
        else S (likeCount r) = countDocuments (commentIs cid) (likes w))) /\
  (forall tweetId tid,
     canToggleTweetLike u tweetId tid w ->
     exists r, replyData (replyTo (toggleTweetLike (Some u) tweetId) w) = Some r /\
       likeCount r = countDocuments (tweetIs tid)
                       (likes (after (toggleTweetLike (Some u) tweetId) w)) /\
       (if liked r
        then likeCount r = S (countDocuments (tweetIs tid) (likes w))
        else S (likeCount r) = countDocuments (tweetIs tid) (likes w))) /\
  (forall channelId cid,
     canToggleSubscription u channelId cid w ->
     exists r, replyData (replyTo (toggleSubscription (Some u) channelId) w) = Some r /\
       subscriberCount r = countDocuments (channelIs cid)
                             (subscriptions (after (toggleSubscription (Some u) channelId) w)) /\
       (if subscribed r
        then subscriberCount r = S (countDocuments (channelIs cid) (subscriptions w))
        else S (subscriberCount r) = countDocuments (channelIs cid) (subscriptions w))).
Proof.
  split_all.
  - intros videoId vid (Hc & (v & Hv & Hp) & _). unfold replyTo, after.
    rewrite (toggleVideoLike_run u videoId vid v w Hc Hv Hp). cbv zeta. cbn [fst snd replyData].
    eexists. split; [reflexivity |]. cbn [likeCount liked data body likes setLikes].
    split; [reflexivity |].
    apply (toggled_count _ (videoIs vid) (Like.mk (Some vid) None None u) (likes w)).
    + intros x Hx. apply andb_true_iff in Hx. tauto.
    + unfold videoIs. apply bool_decide_eq_true. reflexivity.
  - intros commentId cid (Hc & (c & Hv) & _). unfold replyTo, after.
    rewrite (toggleCommentLike_run u commentId cid c w Hc Hv). cbv zeta.
    cbn [fst snd replyData].
    eexists. split; [reflexivity |]. cbn [likeCount liked data body likes setLikes].
    split; [reflexivity |].
    apply (toggled_count _ (commentIs cid) (Like.mk None (Some cid) None u) (likes w)).
    + intros x Hx. apply andb_true_iff in Hx. tauto.
    + unfold commentIs. apply bool_decide_eq_true. reflexivity.
  - intros tweetId tid (Hc & (t & Hv) & _). unfold replyTo, after.
    rewrite (toggleTweetLike_run u tweetId tid t w Hc Hv). cbv zeta.
    cbn [fst snd replyData].
    eexists. split; [reflexivity |]. cbn [likeCount liked data body likes setLikes].
    split; [reflexivity |].
    apply (toggled_count _ (tweetIs tid) (Like.mk None None (Some tid) u) (likes w)).
    + intros x Hx. apply andb_true_iff in Hx. tauto.
    + unfold tweetIs. apply bool_decide_eq_true. reflexivity.
  - intros channelId cid (Hc & Hne & (c & Hv) & _). unfold replyTo, after.
    apply String.eqb_neq in Hne.
    rewrite (toggleSubscription_run u channelId cid c w Hc Hne Hv). cbv zeta.
    cbn [fst snd replyData].
    eexists. split; [reflexivity |].
    cbn [subscriberCount subscribed data body subscriptions setSubscriptions].
    split; [reflexivity |].
    apply (toggled_count _ (channelIs cid) (Subscription.mk u cid) (subscriptions w)).
    + intros x Hx. apply andb_true_iff in Hx. tauto.
    + unfold channelIs. apply bool_decide_eq_true. reflexivity.
Qed.

(** In [demo], Bob's like is the first of video 10. *)
Lemma first_like_in_demo :
  exists r, replyData (replyTo (toggleVideoLike (Some 2) id10) demo) = Some r /\
            liked r = true /\ likeCount r = 1%nat.
Proof.
  destruct (proj1 (toggle_moves_the_count_by_one 2 demo) id10 10) as (r & E & _ & H).
  - split; [reflexivity |]. split; [eexists; split; reflexivity |].
    intros a x b y Hl. unfold demo in Hl. cbn [likes] in Hl.
    rewrite lookup_empty in Hl. discriminate.
  - exists r. split; [exact E |].
    assert (L : liked r = true) by (vm_compute in E; injection E as <-; reflexivity).
    rewrite L in H. split; [exact L | rewrite H; reflexivity].
Defined.

(** ** What a toggle leaves alone *)

Lemma toggled_other {B} (p : B -> bool) (P P' : B -> Prop) (d : B) (c : gmap ObjectId B) :
  decides p P -> (forall x, P x -> ~ P' x) -> P d ->
  present P' (toggled p d c).2 <-> present P' c.
Proof.
  intros Hd Hex Hnew. unfold toggled.
  destruct (findOne p c) as [[id x]|] eqn:E; cbn [fst snd].
  - apply findOne_Some in E as [Hl Hp]. apply Hd in Hp. split.
    + intros (i & y & Hi & Hy). apply lookup_delete_Some in Hi as [_ Hi]. exists i, y. auto.
    + intros (i & y & Hi & Hy). exists i, y. split; [| exact Hy].
      apply lookup_delete_Some. split; [| exact Hi].
      intros <-. assert (x = y) by congruence. subst. exact (Hex _ Hp Hy).
  - split.
    + intros (i & y & Hi & Hy). apply lookup_insert_Some in Hi as [[_ <-]|[_ Hi]].
      * exfalso. exact (Hex _ Hnew Hy).
      * exists i, y. auto.
    + intros (i & y & Hi & Hy). exists i, y. split; [| exact Hy].
      apply lookup_insert_Some. right. split; [| exact Hi].
      intros <-. rewrite newId_fresh in Hi. discriminate.
Qed.

(** X8: a toggle touches one pair only.  After an actor toggles a like on
    a video, every other pair of an actor and a video is liked exactly as
    before, and the users, videos, comments, tweets, subscriptions and
    playlists are unchanged; likewise a subscription toggle leaves every
    other pair of a subscriber and a channel, and every other collection,
    as it was. *)
Theorem toggle_leaves_other_pairs (u : ObjectId) (w : World) :
  (forall videoId vid,
     canToggleVideoLike u videoId vid w ->
     let w' := after (toggleVideoLike (Some u) videoId) w in
     (forall u' vid', (u', vid') <> (u, vid) -> likesVideo u' vid' w' <-> likesVideo u' vid' w) /\
     setLikes (fun _ => likes w) w' = w) /\
  (forall channelId cid,
     canToggleSubscription u channelId cid w ->
     let w' := after (toggleSubscription (Some u) channelId) w in
     (forall u' cid', (u', cid') <> (u, cid) -> subscribedTo u' cid' w' <-> subscribedTo u' cid' w) /\
     setSubscriptions (fun _ => subscriptions w) w' = w).
Proof.
  split.
  - intros videoId vid (Hc & (v & Hv & Hp) & _). unfold after.
    rewrite (toggleVideoLike_run u videoId vid v w Hc Hv Hp). cbv zeta. cbn [fst].
    split.
    + intros u' vid' Hne. unfold likesVideo. cbn [likes setLikes].
      apply (toggled_other _ _ _ _ _ (videoFilter_decides u vid)).
      * intros x [H1 H2] [H3 H4]. apply Hne. congruence.
      * split; reflexivity.
    + destruct w; reflexivity.
  - intros channelId cid (Hc & Hne & (c & Hv) & _). unfold after.
    apply String.eqb_neq in Hne.
    rewrite (toggleSubscription_run u channelId cid c w Hc Hne Hv). cbv zeta. cbn [fst].
    split.
    + intros u' cid' Hne'. unfold subscribedTo. cbn [subscriptions setSubscriptions].
      apply (toggled_other _ _ _ _ _ (subscriptionFilter_decides u cid)).
      * intros x [H1 H2] [H3 H4]. apply Hne'. congruence.
      * split; reflexivity.
    + destruct w; reflexivity.
Qed.

(** In [demo], Bob's like of video 10 does not make Alice like it. *)
Lemma other_pairs_in_demo :
  likesVideo 1 10 (after (toggleVideoLike (Some 2) id10) demo) <-> likesVideo 1 10 demo.
Proof.
  apply (proj1 (toggle_leaves_other_pairs 2 demo) id10 10).
  - split; [reflexivity |]. split; [eexists; split; reflexivity |].
    intros a x b y Hl. unfold demo in Hl. cbn [likes] in Hl.
    rewrite lookup_empty in Hl. discriminate.
  - discriminate.
Defined.

(** ** The listings after a toggle *)

Lemma commentView_likeCount user w kv :
  commentViewLikeCount (commentView user w kv) = countDocuments (commentIs kv.1) (likes w).
Proof. reflexivity. Qed.

(** After a toggle, the aggregates computed for the same actor carry the
    flag and the count of the toggle's answer. *)
Lemma aggregates_agree_with_the_toggle (u : ObjectId) (w : World) :
  (forall commentId cid,
     canToggleCommentLike u commentId cid w ->
     exists r, replyData (replyTo (toggleCommentLike (Some u) commentId) w) = Some r /\
       forall vid cv,
         cv ∈ commentAggregate (Some u) vid (after (toggleCommentLike (Some u) commentId) w) ->
         commentViewId cv = cid ->
         commentViewIsLiked cv = liked r /\ commentViewLikeCount cv = likeCount r) /\
  (forall channelId cid,
     canToggleSubscription u channelId cid w ->
     exists r, replyData (replyTo (toggleSubscription (Some u) channelId) w) = Some r /\
       forall username c,
         c ∈ channelAggregate (Some u) username
               (after (toggleSubscription (Some u) channelId) w) ->
         channelProfileId c = cid ->
         channelIsSubscribed c = subscribed r /\
         channelSubscriberCount c = subscriberCount r).
Proof.
  split.
  - intros commentId cid Hcan.
    destruct (toggleCommentLike_step u commentId cid w Hcan) as [(_ & Y & N) _].
    destruct Hcan as (Hc & (c & Hv) & Hone).
    unfold reported, replyTo, after in *.
    rewrite (toggleCommentLike_run u commentId cid c w Hc Hv) in *. cbv zeta in *.
    cbn [fst snd replyData fmap option_fmap option_map data body liked] in *.
    eexists. split; [reflexivity |]. cbn [liked likeCount].
    intros vid cv Hin Hid. unfold commentAggregate, sortDescending in Hin.
    rewrite merge_sort_Permutation in Hin.
    apply list_elem_of_fmap in Hin as (kv & -> & _). cbn [commentViewId commentView] in Hid.
    split.
    + pose proof (commentView_isLiked (Some u)
                    (setLikes (fun _ => (toggled (fun l => commentIs cid l && refIs (Like.likedBy l) (Some u))
                       (Like.mk None (Some cid) None u) (likes w)).2) w) kv) as E.
      rewrite Hid in E.
      destruct (present_or_not _ _ (likes w) (commentFilter_decides u cid)) as [Hp | Hn].
      * destruct (Y Hp) as [Hr Hno]. injection Hr as Hr. rewrite Hr.
        apply not_true_is_false. intros Ht. apply E in Ht as (u0 & [= <-] & Hl).
        exact (Hno Hl).
      * destruct (N Hn) as [Hr Hyes]. injection Hr as Hr. rewrite Hr.
        apply E. exists u. auto.
    + rewrite commentView_likeCount, Hid. reflexivity.
  - intros channelId cid Hcan.
    destruct (toggleSubscription_step u channelId cid w Hcan) as [(_ & Y & N) _].
    destruct Hcan as (Hc & Hne & (c & Hv) & Hone).
    apply String.eqb_neq in Hne.
    unfold reported, replyTo, after in *.
    rewrite (toggleSubscription_run u channelId cid c w Hc Hne Hv) in *. cbv zeta in *.
    cbn [fst snd replyData fmap option_fmap option_map data body subscribed] in *.
    eexists. split; [reflexivity |]. cbn [subscribed subscriberCount].
    intros username p Hin Hid. unfold channelAggregate in Hin.
    apply list_elem_of_fmap in Hin as (kv & -> & _).
    cbn [channelProfileId channelProfile] in Hid.
    split.
    + pose proof (channelProfile_isSubscribed (Some u)
                    (setSubscriptions (fun _ => (toggled
                       (fun s => refIs (Subscription.subscriber s) (Some u) && channelIs cid s)
                       (Subscription.mk u cid) (subscriptions w)).2) w) kv) as E.
      rewrite Hid in E.
      destruct (present_or_not _ _ (subscriptions w) (subscriptionFilter_decides u cid))
        as [Hp | Hn].
      * destruct (Y Hp) as [Hr Hno]. injection Hr as Hr. rewrite Hr.
        apply not_true_is_false. intros Ht. apply E in Ht as (u0 & [= <-] & Hl).
        exact (Hno Hl).
      * destruct (N Hn) as [Hr Hyes]. injection Hr as Hr. rewrite Hr.
        apply E. exists u. auto.
    + cbn [channelSubscriberCount channelProfile]. rewrite Hid. reflexivity.
Qed.

(** What [getVideoComments] lists is taken from its aggregate. *)
Lemma getVideoComments_lists_its_aggregate user videoId q w d cv :
  replyData (replyTo (getVideoComments user videoId q) w) = Some d ->
  cv ∈ listedItems d ->
  exists vid, ObjectId.cast videoId = Some vid /\ cv ∈ commentAggregate user vid w.
Proof.
  intros Hd Hin. destruct (ObjectId.cast videoId) as [vid|] eqn:Hc.
  - exists vid. split; [reflexivity |].
    destruct (paginated_windowed (commentAggregate user vid w) q
                "totalComments" "comments" "No more comments found for this video"
                "No comments found for this video" "Comments fetched successfully" w)
      as (_ & _ & Hi).
    unfold replyTo in *. rewrite (getVideoComments_run q w user videoId vid Hc) in Hd.
    rewrite Hd in Hi. injection Hi as Hi. rewrite Hi in Hin.
    apply window_subseteq in Hin. exact Hin.
  - exfalso. revert Hd. unfold getVideoComments. run_handler. rewrite Hc. discriminate.
Qed.

(** What [getUserChannelProfile] answers is the first channel of its
    aggregate. *)
Lemma getUserChannelProfile_answers_its_aggregate user username w c :
  replyData (replyTo (getUserChannelProfile user username) w) = Some c ->
  c ∈ channelAggregate user (default "" username) w.
Proof.
  unfold getUserChannelProfile. run_handler.
  destruct (Js.emptyText username); [discriminate |]. run_handler.
  destruct (channelAggregate user (default "" username) w) as [|first rest] eqn:E;
    [discriminate |].
  intros [= <-]. left.
Qed.

(** X9: what a toggle answers is what the next reading shows.  After an
    actor's [toggleCommentLike], every comment of that identifier that
    [getVideoComments] lists for the same actor, whatever the video and
    the page asked for, carries the [liked] flag of the toggle's answer as
    [isLiked] and its [likeCount]; and after [toggleSubscription], the
    profile of that channel that [getUserChannelProfile] answers to the
    subscriber carries the [subscribed] flag of the answer as
    [isSubscribed] and its [subscriberCount]. *)
Theorem readings_agree_with_the_toggle (u : ObjectId) (w : World) :
  (forall commentId cid,
     canToggleCommentLike u commentId cid w ->
     exists r, replyData (replyTo (toggleCommentLike (Some u) commentId) w) = Some r /\
       forall videoId q d cv,
         replyData (replyTo (getVideoComments (Some u) videoId q)
                      (after (toggleCommentLike (Some u) commentId) w)) = Some d ->
         cv ∈ listedItems d ->
         commentViewId cv = cid ->
         commentViewIsLiked cv = liked r /\ commentViewLikeCount cv = likeCount r) /\
  (forall channelId cid,
     canToggleSubscription u channelId cid w ->
     exists r, replyData (replyTo (toggleSubscription (Some u) channelId) w) = Some r /\
       forall username c,
         replyData (replyTo (getUserChannelProfile (Some u) username)
                      (after (toggleSubscription (Some u) channelId) w)) = Some c ->
         channelProfileId c = cid ->
         channelIsSubscribed c = subscribed r /\
         channelSubscriberCount c = subscriberCount r).
Proof.
  destruct (aggregates_agree_with_the_toggle u w) as [L S]. split.
  - intros commentId cid Hcan. destruct (L commentId cid Hcan) as (r & Hr & H).
    exists r. split; [exact Hr |]. intros videoId q d cv Hd Hin Hid.
    destruct (getVideoComments_lists_its_aggregate _ _ _ _ _ _ Hd Hin) as (vid & _ & Hagg).
    exact (H vid cv Hagg Hid).
  - intros channelId cid Hcan. destruct (S channelId cid Hcan) as (r & Hr & H).
    exists r. split; [exact Hr |]. intros username c Hd Hid.
    apply getUserChannelProfile_answers_its_aggregate in Hd.
    exact (H (default "" username) c Hd Hid).
Qed.

(** In [demo], after Bob subscribes to Alice the profile of her channel
    that he reads shows him subscribed, with the count of the answer. *)
Lemma reading_after_toggle_in_demo :
  exists r, replyData (replyTo (toggleSubscription (Some 2) id1) demo) = Some r /\
    forall username c,
      replyData (replyTo (getUserChannelProfile (Some 2) username)
                   (after (toggleSubscription (Some 2) id1) demo)) = Some c ->
      channelProfileId c = 1 ->
      channelIsSubscribed c = subscribed r /\
      channelSubscriberCount c = subscriberCount r.
Proof.
  apply (proj2 (readings_agree_with_the_toggle 2 demo) id1 1).
  split; [reflexivity |]. split; [discriminate |]. split; [eexists; reflexivity |].
  intros a x b y Hl. unfold demo in Hl. cbn [subscriptions] in Hl.
  rewrite lookup_empty in Hl. discriminate.
Defined.

(** The two readings in [demo]: Alice's channel as Bob sees it once he
    has subscribed, and Bob's comment 20 as Alice sees it once she has
    liked it. *)
Example profile_after_subscription_in_demo :
  (fun c => (channelProfileId c, channelIsSubscribed c, channelSubscriberCount c))
  <$> replyData (replyTo (getUserChannelProfile (Some 2) (Some "alice"))
                   (after (toggleSubscription (Some 2) id1) demo))
  = Some (1, true, 1%nat).
Proof. reflexivity. Qed.

Example comments_after_like_in_demo :
  (fun d => (fun cv => (commentViewId cv, commentViewIsLiked cv, commentViewLikeCount cv))
            <$> listedItems d)
  <$> replyData (replyTo (getVideoComments (Some 1) id10 (mkPageQuery None None))
                   (after (toggleCommentLike (Some 1) id20) demo))
  = Some [(20, true, 1%nat)].
Proof. reflexivity. Qed.

(** ** The upload helper *)

Lemma uploadOnCloudinary_falsy p w :
  Js.truthy p = false -> uploadOnCloudinary p w = (w, inr None).
Proof. intros Ht. run_upload. rewrite Ht. reflexivity. Qed.

Lemma uploadOnCloudinary_lost path resource w :
  Js.truthy (Some path) = true -> remote w path = Some resource -> path ∉ files w ->
  uploadOnCloudinary (Some path) w = (emit (Uploaded path) w, inr None).
Proof.
  intros Ht Hr Hout. run_upload. rewrite Ht, Hr. run_upload.
  change (files (emit (Uploaded path) w)) with (files w).
  rewrite decide_False by exact Hout. run_upload.
  change (files (emit (Uploaded path) w)) with (files w).
  rewrite bool_decide_eq_false_2 by exact Hout. reflexivity.
Qed.

(** The four ways a call of [uploadOnCloudinary] goes. *)
Lemma uploadOnCloudinary_cases p w :
  (Js.truthy p = false /\ uploadOnCloudinary p w = (w, inr None)) \/
  (exists path, p = Some path /\ Js.truthy p = true /\ remote w path = None /\
     uploadOnCloudinary p w =
     (if decide (path ∈ files w)
      then (emit (Unlinked path)
              (setFiles (fun f => f ∖ {[path]}) (emit (UploadFailed path) w)), inr None)
      else (emit (UploadFailed path) w, inr None))) \/
  (exists path resource, p = Some path /\ Js.truthy p = true /\
     remote w path = Some resource /\ (path ∈ files w) /\
     uploadOnCloudinary p w =
     (emit (Unlinked path) (setFiles (fun f => f ∖ {[path]}) (emit (Uploaded path) w)),
      inr (Some resource))) \/
  (exists path resource, p = Some path /\ Js.truthy p = true /\
     remote w path = Some resource /\ (path ∉ files w) /\
     uploadOnCloudinary p w = (emit (Uploaded path) w, inr None)).
Proof.
  destruct (Js.truthy p) eqn:Ht.
  - right. destruct p as [path|]; [| discriminate].
    destruct (remote w path) as [resource|] eqn:Hr.
    + destruct (decide (path ∈ files w)) as [Hin | Hout].
      * right. left. exists path, resource.
        split_all; try reflexivity; try assumption.
        apply (upload_succeeded_run path resource); assumption.
      * right. right. exists path, resource.
        split_all; try reflexivity; try assumption.
        apply (uploadOnCloudinary_lost path resource); assumption.
    + left. exists path. split_all; try reflexivity; try assumption.
      apply upload_failed_run; assumption.
  - left. auto using uploadOnCloudinary_falsy.
Qed.

Lemma uploadOnCloudinary_frame p w :
  exists r, uploadOnCloudinary p w = (afterUpload p w, inr r) /\
    sameDocuments w (afterUpload p w) /\ files (afterUpload p w) ⊆ files w.
Proof.
  unfold afterUpload, sameDocuments.
  destruct (uploadOnCloudinary_cases p w)
    as [[_ E] | [(path & _ & _ & _ & E) | [(path & r & _ & _ & _ & _ & E)
       | (path & r & _ & _ & _ & _ & E)]]]; rewrite E.
  - eexists. split; [reflexivity |]. cbn. split_all; try reflexivity.
  - destruct (decide (path ∈ files w)); eexists; (split; [reflexivity |]); cbn;
      split_all; try reflexivity.
    apply subseteq_difference_l. reflexivity.
  - eexists. split; [reflexivity |]. cbn. split_all; try reflexivity.
    apply subseteq_difference_l. reflexivity.
  - eexists. split; [reflexivity |]. cbn. split_all; try reflexivity.
Qed.

(** X10: [uploadOnCloudinary] never throws and never touches a document:
    whatever the path, it returns (a resource or null), the collections
    are as before and no temporary file is added.  Without a path, or with
    the empty path, nothing happens at all.  When the media service took
    the file but the local file is already gone, the removal fails inside
    the [try] and the function returns null although the upload was
    made. *)
Theorem upload_never_throws (p : option string) (w : World) :
  (exists r, uploadResult p w = Some r) /\
  sameDocuments w (afterUpload p w) /\
  files (afterUpload p w) ⊆ files w /\
  (Js.truthy p = false -> uploadResult p w = Some None /\ afterUpload p w = w) /\
  (forall path resource,
     p = Some path -> Js.truthy p = true ->
     remote w path = Some resource -> path ∉ files w ->
     uploadResult p w = Some None /\
     log (afterUpload p w) = (log w ++ [Uploaded path])%list).
Proof.
  destruct (uploadOnCloudinary_frame p w) as (r & E & Hs & Hf).
  split; [| split; [exact Hs | split; [exact Hf | split]]].
  - exists r. unfold uploadResult. rewrite E. reflexivity.
  - intros Ht. unfold uploadResult, afterUpload.
    rewrite (uploadOnCloudinary_falsy p w Ht). auto.
  - intros path resource -> Ht Hr Hout. unfold uploadResult, afterUpload.
    rewrite (uploadOnCloudinary_lost path resource w Ht Hr Hout). auto.
Qed.

(** In [demoLost] the media service takes a file that has no local copy:
    the upload is made and null is returned. *)
Lemma lost_upload_in_demo :
  uploadResult (Some "public/temp/gone.mp4") demoLost = Some None /\
  log (afterUpload (Some "public/temp/gone.mp4") demoLost)
  = [Uploaded "public/temp/gone.mp4"].
Proof.
  destruct (upload_never_throws (Some "public/temp/gone.mp4") demoLost)
    as (_ & _ & _ & _ & H).
  apply (H "public/temp/gone.mp4" (mkResource "https://media.example.org/gone.mp4" 3));
    try reflexivity.
  vm_compute. set_solver.
Defined.

(** ** user.controllers.js *)

Lemma truthy_default (p : option string) :
  Js.truthy p = true -> p = Some (default "" p).
Proof. destruct p; [reflexivity | discriminate]. Qed.

(** X11: [refreshAccessToken] never renews a token.  The user is read
    without [await], so [user?.refreshToken] is undefined and differs from
    every token sent: whatever the cookie, the body, the verifier and the
    token generator, the answer is 401 and the world is unchanged; the
    token generator is not reached, and a token the verifier accepts is
    answered "Refresh token expired or used". *)
Theorem refreshAccessToken_always_answers_401
    (verify : string -> option DecodedToken)
    (generateAccessAndRefreshTokens : option ObjectId -> M Tokens)
    (cookieToken bodyToken : option string) (w : World) :
  Refuses 401 (refreshAccessToken verify generateAccessAndRefreshTokens cookieToken bodyToken) w /\
  (forall token decoded,
     (if Js.truthy cookieToken then cookieToken else bodyToken) = Some token ->
     Js.truthy (Some token) = true ->
     verify token = Some decoded ->
     failure (replyTo (refreshAccessToken verify generateAccessAndRefreshTokens
                         cookieToken bodyToken) w)
     = Some (401, "Refresh token expired or used")).
Proof.
  unfold Refuses, replyTo, after, serve, refreshAccessToken.
  set (incoming := if Js.truthy cookieToken then cookieToken else bodyToken).
  destruct (Js.truthy incoming) eqn:Ht.
  - pose proof (truthy_default incoming Ht) as Hs.
    destruct (verify (default "" incoming)) as [decoded|] eqn:Hv.
    + assert (Hne : bool_decide (incoming = queryRefreshToken (FindById (decodedId decoded))) = false).
      { apply bool_decide_eq_false_2. rewrite Hs. discriminate. }
      cbv beta iota zeta delta [bind throwIf tryCatch orThrow ret throw negb errorMiddleware
                                replyStatus failure fst snd].
      rewrite ?Ht, ?Hv. cbv beta iota zeta delta [bind throwIf tryCatch orThrow ret throw negb].
      rewrite Hne. cbn. split; [split; reflexivity |]. reflexivity.
    + cbv beta iota zeta delta [bind throwIf tryCatch orThrow ret throw negb errorMiddleware
                                replyStatus failure fst snd].
      rewrite ?Ht, ?Hv. cbn. split; [split; reflexivity |].
      intros token decoded Hi _ Hd. rewrite Hi in Hv. cbn in Hv. congruence.
  - cbv beta iota zeta delta [bind throwIf tryCatch orThrow ret throw negb errorMiddleware
                              replyStatus failure fst snd].
    rewrite ?Ht. cbn. split; [split; reflexivity |].
    intros token decoded Hi Hk _. rewrite Hi in Ht. cbn in Ht. congruence.
Qed.

(** A verifier that accepts every token, and a generator that would tick
    the clock: the route still answers 401 and the clock stands. *)
Lemma refresh_in_demo :
  failure (replyTo (refreshAccessToken (fun _ => Some (mkDecodedToken (Some 1)))
                      (fun _ w => (tick w, inr (mkTokens (Some "a") (Some "r"))))
                      (Some "token") None) demo)
  = Some (401, "Refresh token expired or used").
Proof.
  apply (proj2 (refreshAccessToken_always_answers_401 (fun _ => Some (mkDecodedToken (Some 1)))
                  (fun _ w => (tick w, inr (mkTokens (Some "a") (Some "r"))))
                  (Some "token") None demo) "token" (mkDecodedToken (Some 1)));
    reflexivity.
Defined.

Ltac run_user :=
  cbv beta iota zeta delta [bind throwIf ret throw negb urlOf User_findByIdAndUpdate
                            modify gets respond].

(** X12: a profile image whose upload fails is answered 500, not the 400
    the handlers intend: [uploadOnCloudinary] returns null and reading
    [avatar.url] (or [coverImage.url]) throws before the test of the url.
    No user is changed. *)
Theorem failed_image_upload_is_500 (user : option ObjectId) (path : string) (w : World) :
  Js.truthy (Some path) = true ->
  remote w path = None ->
  (replyStatus (replyTo (updateUserAvatar user (Some path)) w) = 500 /\
   users (after (updateUserAvatar user (Some path)) w) = users w) /\
  (replyStatus (replyTo (updateUserCoverImage user (Some path)) w) = 500 /\
   users (after (updateUserCoverImage user (Some path)) w) = users w).
Proof.
  intros Ht Hr. pose proof (upload_failed_run path w Ht Hr) as E.
  unfold replyTo, after, serve, updateUserAvatar, updateUserCoverImage.
  cbv beta iota zeta delta [bind throwIf ret throw negb].
  rewrite Ht, E.
  destruct (decide (path ∈ files w)); cbn; auto.
Qed.

Lemma failed_image_upload_in_demo :
  replyStatus (replyTo (updateUserAvatar (Some 1) (Some "public/temp/broken.mp4")) demo) = 500.
Proof.
  apply (failed_image_upload_is_500 (Some 1) "public/temp/broken.mp4" demo); reflexivity.
Defined.

(** X13: a profile image that is uploaded replaces that image of that
    user and nothing else: the answer is 200 with the updated user, every
    other user is as before, and the user keeps name, e-mail address, full
    name and the other image. *)
Theorem image_update_changes_one_field (u : ObjectId) (path : string) (r : Resource) (w : World) :
  Js.truthy (Some path) = true ->
  remote w path = Some r ->
  path ∈ files w ->
  Js.truthy (Some (url r)) = true ->
  (replyStatus (replyTo (updateUserAvatar (Some u) (Some path)) w) = 200 /\
   replyData (replyTo (updateUserAvatar (Some u) (Some path)) w)
   = Some (withAvatar (url r) <$> users w !! u) /\
   users (after (updateUserAvatar (Some u) (Some path)) w)
   = alter (withAvatar (url r)) u (users w)) /\
  (replyStatus (replyTo (updateUserCoverImage (Some u) (Some path)) w) = 200 /\
   replyData (replyTo (updateUserCoverImage (Some u) (Some path)) w)
   = Some (withCoverImage (url r) <$> users w !! u) /\
   users (after (updateUserCoverImage (Some u) (Some path)) w)
   = alter (withCoverImage (url r)) u (users w)) /\
  (forall x a,
     users (after (updateUserAvatar (Some u) (Some path)) w) !! x = Some a ->
     exists b, users w !! x = Some b /\ (x <> u -> a = b) /\
       User.username a = User.username b /\ User.email a = User.email b /\
       User.fullName a = User.fullName b /\ User.coverImage a = User.coverImage b) /\
  (forall x a,
     users (after (updateUserCoverImage (Some u) (Some path)) w) !! x = Some a ->
     exists b, users w !! x = Some b /\ (x <> u -> a = b) /\
       User.username a = User.username b /\ User.email a = User.email b /\
       User.fullName a = User.fullName b /\ User.avatar a = User.avatar b).
Proof.
  intros Ht Hr Hin Hu. pose proof (upload_succeeded_run path r w Ht Hr Hin) as E.
  assert (A : users (after (updateUserAvatar (Some u) (Some path)) w)
              = alter (withAvatar (url r)) u (users w)).
  { unfold after, serve, updateUserAvatar. run_user. rewrite Ht, E. run_user.
    rewrite Hu. reflexivity. }
  assert (C : users (after (updateUserCoverImage (Some u) (Some path)) w)
              = alter (withCoverImage (url r)) u (users w)).
  { unfold after, serve, updateUserCoverImage. run_user. rewrite Ht, E. run_user.
    rewrite Hu. reflexivity. }
  split; [| split; [| split]].
  - split; [| split; [| exact A]];
      unfold replyTo, serve, updateUserAvatar; run_user; rewrite Ht, E; run_user;
      rewrite Hu; cbn; rewrite ?lookup_alter_eq; reflexivity.
  - split; [| split; [| exact C]];
      unfold replyTo, serve, updateUserCoverImage; run_user; rewrite Ht, E; run_user;
      rewrite Hu; cbn; rewrite ?lookup_alter_eq; reflexivity.
  - intros x a. rewrite A. destruct (decide (x = u)) as [-> | Hne].
    + rewrite lookup_alter_eq. destruct (users w !! u) as [b|]; [| discriminate].
      intros [= <-]. exists b. split_all; try reflexivity. intros; contradiction.
    + rewrite lookup_alter_ne by congruence. intros Hx. exists a. split_all; auto.
  - intros x a. rewrite C. destruct (decide (x = u)) as [-> | Hne].
    + rewrite lookup_alter_eq. destruct (users w !! u) as [b|]; [| discriminate].
      intros [= <-]. exists b. split_all; try reflexivity. intros; contradiction.
    + rewrite lookup_alter_ne by congruence. intros Hx. exists a. split_all; auto.
Qed.

Lemma image_update_in_demo :
  users (after (updateUserAvatar (Some 1) (Some "public/temp/clip.mp4")) demo)
  = alter (withAvatar "https://media.example.org/clip.mp4") 1 (users demo).
Proof.
  apply (image_update_changes_one_field 1 "public/temp/clip.mp4"
           (mkResource "https://media.example.org/clip.mp4" 12) demo); reflexivity.
Defined.

(** ** Publishing a video *)

Lemma upload_gone path w :
  Js.truthy (Some path) = true -> path ∉ files (afterUpload (Some path) w).
Proof.
  intros Ht. unfold afterUpload.
  destruct (uploadOnCloudinary_cases (Some path) w)
    as [[Hf _] | [(p & [= <-] & _ & _ & E) | [(p & r & [= <-] & _ & _ & _ & E)
       | (p & r & [= <-] & _ & _ & Hout & E)]]]; [congruence | | |]; rewrite E.
  - destruct (decide (path ∈ files w)); cbn; [| assumption].
    apply not_elem_of_difference. right. apply elem_of_singleton. reflexivity.
  - cbn. apply not_elem_of_difference. right. apply elem_of_singleton. reflexivity.
  - cbn. exact Hout.
Qed.

Ltac run_publish :=
  cbv beta iota zeta delta [bind throwIf ret throw negb respond Video_create gets modify].

(** The route of [publishAVideo] past its validation: both uploads run,
    then their results are tested. *)
Lemma publishAVideo_run user title description vpath tpath w :
  Js.emptyText title = false -> Js.emptyText description = false ->
  Js.truthy (Some vpath) = true -> Js.truthy (Some tpath) = true ->
  let w1 := afterUpload (Some vpath) w in
  let w2 := afterUpload (Some tpath) w1 in
  exists rv rt,
    uploadResult (Some vpath) w = Some rv /\ uploadResult (Some tpath) w1 = Some rt /\
    serve (publishAVideo user title description (Some vpath) (Some tpath)) w =
    (if noUrl rv then (w2, Failed 500 "Error uploading video file to Cloudinary")
     else if noUrl rt then (w2, Failed 500 "Error uploading thumbnail to Cloudinary")
     else match user with
          | Some u =>
              let video := Video.mk (default "" (url <$> rv)) (default "" (url <$> rt))
                             (default "" title) (default "" description)
                             (default 0 (mediaDuration <$> rv)) 0 true u
                             (clock w2) (clock w2) in
              (tick (setVideos (insert (newId (videos w2)) video) w2),
               Sent (mkResponse 201
                       (apiResponse 201 (newId (videos w2), video)
                          "Video published successfully")))
          | None => (w2, Failed 500 "Internal Server Error")
          end).
Proof.
  intros Het Hed Htv Htt w1 w2.
  destruct (uploadOnCloudinary_frame (Some vpath) w) as (rv & E1 & _).
  destruct (uploadOnCloudinary_frame (Some tpath) w1) as (rt & E2 & _).
  fold w1 in E1. fold w2 in E2.
  exists rv, rt. unfold uploadResult. fold w1. rewrite E1, E2.
  split; [reflexivity |]. split; [reflexivity |].
  unfold serve, publishAVideo. run_publish. rewrite Het, Hed, Htv, Htt, E1. run_publish.
  rewrite E2.
  destruct (noUrl rv); [reflexivity |].
  destruct (noUrl rt); [reflexivity |].
  destruct user; reflexivity.
Qed.

Lemma publishAVideo_files user title description vpath tpath w :
  Js.emptyText title = false -> Js.emptyText description = false ->
  Js.truthy (Some vpath) = true -> Js.truthy (Some tpath) = true ->
  files (after (publishAVideo user title description (Some vpath) (Some tpath)) w)
  = files (afterUpload (Some tpath) (afterUpload (Some vpath) w)) /\
  log (after (publishAVideo user title description (Some vpath) (Some tpath)) w)
  = log (afterUpload (Some tpath) (afterUpload (Some vpath) w)).
Proof.
  intros Het Hed Htv Htt.
  destruct (publishAVideo_run user title description vpath tpath w Het Hed Htv Htt)
    as (rv & rt & _ & _ & E).
  unfold after. rewrite E.
  destruct (noUrl rv); [auto |]. destruct (noUrl rt); [auto |]. destruct user; auto.
Qed.

(** X14: once [publishAVideo] has accepted the request (title,
    description and both files given), neither temporary file is left
    whatever the uploads do and whatever the answer is, and no file is
    added.  The two uploads run before either result is tested: when the
    upload of the video fails the thumbnail is sent to the media service
    all the same, the answer is 500 and no video is created. *)
Theorem publishAVideo_leaves_no_temporary_file
    (user : option ObjectId) (title description : option string)
    (vpath tpath : string) (w : World) :
  Js.emptyText title = false -> Js.emptyText description = false ->
  Js.truthy (Some vpath) = true -> Js.truthy (Some tpath) = true ->
  (vpath ∉ files (after (publishAVideo user title description (Some vpath) (Some tpath)) w)) /\
  (tpath ∉ files (after (publishAVideo user title description (Some vpath) (Some tpath)) w)) /\
  (files (after (publishAVideo user title description (Some vpath) (Some tpath)) w) ⊆ files w) /\
  (remote w vpath = None ->
     replyStatus (replyTo (publishAVideo user title description (Some vpath) (Some tpath)) w)
     = 500 /\
     videos (after (publishAVideo user title description (Some vpath) (Some tpath)) w)
     = videos w /\
     (forall r, remote w tpath = Some r ->
        Uploaded tpath ∈
          log (after (publishAVideo user title description (Some vpath) (Some tpath)) w))).
Proof.
  intros Het Hed Htv Htt.
  destruct (publishAVideo_files user title description vpath tpath w Het Hed Htv Htt)
    as [Hf Hl].
  set (w1 := afterUpload (Some vpath) w) in *.
  destruct (uploadOnCloudinary_frame (Some vpath) w) as (rv & E1 & S1 & F1).
  destruct (uploadOnCloudinary_frame (Some tpath) w1) as (rt & E2 & S2 & F2).
  fold w1 in E1, S1, F1.
  pose proof (upload_gone vpath w Htv) as G1. fold w1 in G1.
  pose proof (upload_gone tpath w1 Htt) as G2.
  rewrite Hf. split_all.
  - intros Hin. apply G1. apply F2. exact Hin.
  - exact G2.
  - etrans; eassumption.
  - intros Hr.
    destruct (publishAVideo_run user title description vpath tpath w Het Hed Htv Htt)
      as (rv' & rt' & R1 & _ & E).
    fold w1 in E.
    assert (rv' = None) as ->.
    { unfold uploadResult in R1. rewrite (upload_failed_run vpath w Htv Hr) in R1.
      destruct (decide (vpath ∈ files w)); cbn in R1; congruence. }
    cbn [noUrl] in E. unfold replyTo, after. rewrite E. cbn [fst snd replyStatus].
    split; [reflexivity |]. split.
    + destruct S2 as (_ & -> & _). destruct S1 as (_ & -> & _). reflexivity.
    + intros r Hrt.
      assert (Hr1 : remote w1 tpath = Some r).
      { destruct S1 as (_ & _ & _ & _ & _ & _ & _ & _ & ->). exact Hrt. }
      destruct (decide (tpath ∈ files w1)) as [Hin | Hout].
      * unfold afterUpload. rewrite (upload_succeeded_run tpath r w1 Htt Hr1 Hin).
        cbn. rewrite !elem_of_app. left. right. apply list_elem_of_singleton. reflexivity.
      * unfold afterUpload. rewrite (uploadOnCloudinary_lost tpath r w1 Htt Hr1 Hout).
        cbn. rewrite !elem_of_app. right. apply list_elem_of_singleton. reflexivity.
Qed.

(** In [demo], publishing [broken.mp4] with the thumbnail [clip.mp4] is
    answered 500 and leaves neither file. *)
Lemma failed_publication_in_demo :
  ("public/temp/broken.mp4" ∉
     files (after (publishAVideo (Some 1) (Some "Title") (Some "Text")
                     (Some "public/temp/broken.mp4") (Some "public/temp/clip.mp4")) demo)) /\
  ("public/temp/clip.mp4" ∉
     files (after (publishAVideo (Some 1) (Some "Title") (Some "Text")
                     (Some "public/temp/broken.mp4") (Some "public/temp/clip.mp4")) demo)).
Proof.
  destruct (publishAVideo_leaves_no_temporary_file (Some 1) (Some "Title") (Some "Text")
              "public/temp/broken.mp4" "public/temp/clip.mp4" demo
              eq_refl eq_refl eq_refl eq_refl) as (A & B & _).
  split; [exact A | exact B].
Defined.

(** X15: when both uploads succeed and give a url, [publishAVideo]
    answers 201 and adds exactly one video under a new identifier: it is
    owned by the actor, published, has no view, carries the two urls and
    the duration of the uploaded video, and every video there was is
    kept. *)
Theorem publishAVideo_creates_one_video
    (u : ObjectId) (title description : option string)
    (vpath tpath : string) (rv rt : Resource) (w : World) :
  Js.emptyText title = false -> Js.emptyText description = false ->
  Js.truthy (Some vpath) = true -> Js.truthy (Some tpath) = true ->
  vpath <> tpath -> vpath ∈ files w -> tpath ∈ files w ->
  remote w vpath = Some rv -> remote w tpath = Some rt ->
  Js.truthy (Some (url rv)) = true -> Js.truthy (Some (url rt)) = true ->
  let h := publishAVideo (Some u) title description (Some vpath) (Some tpath) in
  let video := Video.mk (url rv) (url rt) (default "" title) (default "" description)
                 (mediaDuration rv) 0 true u (clock w) (clock w) in
  replyStatus (replyTo h w) = 201 /\
  replyData (replyTo h w) = Some (newId (videos w), video) /\
  videos w !! newId (videos w) = None /\
  videos (after h w) = <[newId (videos w) := video]> (videos w) /\
  countDocuments (fun _ => true) (videos (after h w))
  = S (countDocuments (fun _ => true) (videos w)).
Proof.
  intros Het Hed Htv Htt Hne Hvin Htin Hrv Hrt Huv Hut h video.
  destruct (publishAVideo_run (Some u) title description vpath tpath w Het Hed Htv Htt)
    as (rv' & rt' & R1 & R2 & E).
  pose proof (upload_succeeded_run vpath rv w Htv Hrv Hvin) as E1.
  unfold uploadResult, afterUpload in *. rewrite E1 in *. cbn [fst snd] in *.
  injection R1 as <-.
  set (w1 := emit (Unlinked vpath) (setFiles (fun f => f ∖ {[vpath]}) (emit (Uploaded vpath) w))) in *.
  assert (Hin1 : tpath ∈ files w1).
  { cbn. apply elem_of_difference. split; [exact Htin |].
    rewrite elem_of_singleton. congruence. }
  pose proof (upload_succeeded_run tpath rt w1 Htt Hrt Hin1) as E2.
  rewrite E2 in *. cbn [fst snd] in *. injection R2 as <-.
  cbn [noUrl] in E. rewrite Huv, Hut in E. cbn [negb] in E.
  unfold replyTo, after, h. rewrite E. cbn.
  split_all; try reflexivity.
  - apply newId_fresh.
  - rewrite countDocuments_insert by apply newId_fresh. reflexivity.
Qed.

(** In [demoThumbnail], Alice publishes [clip.mp4] with a thumbnail. *)
Lemma publication_in_demo :
  replyStatus (replyTo (publishAVideo (Some 1) (Some "Title") (Some "Text")
                          (Some "public/temp/clip.mp4") (Some "public/temp/thumb.png"))
                 demoThumbnail)
  = 201.
Proof.
  apply (publishAVideo_creates_one_video 1 (Some "Title") (Some "Text")
           "public/temp/clip.mp4" "public/temp/thumb.png"
           (mkResource "https://media.example.org/clip.mp4" 12)
           (mkResource "https://media.example.org/thumb.png" 0) demoThumbnail);
    try reflexivity; try discriminate.
Defined.

(** ** Identifiers and their text *)

Lemma toHex_length k : forall n acc,
  String.length (ObjectId.toHex k n acc) = (k + String.length acc)%nat.
Proof.
  induction k as [|k IH]; intros n acc; simpl; [reflexivity |].
  rewrite IH. simpl. lia.
Qed.

(** The text of an identifier casts back to the identifier. *)
Lemma cast_toString o : wellFormed o -> ObjectId.cast (ObjectId.toString o) = Some o.
Proof.
  unfold wellFormed, ObjectId.cast, ObjectId.toString. intros Ho.
  rewrite toHex_length. cbn [String.length Nat.add Nat.eqb].
  rewrite fromHex_toHex. cbn [ObjectId.fromHex]. f_equal.
  change (N.of_nat 24) with 24. rewrite N.mul_0_l, N.add_0_l. apply N.mod_small. exact Ho.
Qed.

Lemma includesText_spec videoId vid l :
  ObjectId.cast videoId = Some vid -> Forall wellFormed l ->
  includesText videoId l = true <-> videoId = ObjectId.toString vid /\ vid ∈ l.
Proof.
  intros Hc Hl. unfold includesText. rewrite existsb_exists. split.
  - intros (o & Hin & E). apply String.eqb_eq in E. subst videoId.
    apply list_elem_of_In in Hin.
    rewrite cast_toString in Hc by (rewrite Forall_forall in Hl; auto).
    injection Hc as ->. auto.
  - intros [-> Hin]. exists vid. split; [apply list_elem_of_In; exact Hin |].
    apply String.eqb_refl.
Qed.

(** ** Videos of a playlist *)

Lemma addVideoToPlaylist_run u playlistId pid p videoId vid v w :
  ObjectId.cast playlistId = Some pid -> ObjectId.cast videoId = Some vid ->
  playlists w !! pid = Some p -> Playlist.owner p = u ->
  videos w !! vid = Some v -> Video.isPublished v = true ->
  serve (addVideoToPlaylist (Some u) playlistId videoId) w =
  (if includesText videoId (Playlist.videos p)
   then (w, Failed 400 "Video already exists in this playlist")
   else
     let updated := withVideos (Playlist.videos p ++ [vid]) (clock w) p in
     (tick (setPlaylists (insert pid updated) w),
      Sent (mkResponse 200
              (apiResponse 200 (pid, updated) "Video added to playlist successfully")))).
Proof.
  intros Hp Hv Hl <- Hvl Hpub. unfold addVideoToPlaylist. run_handler.
  rewrite Hp, Hv. run_handler. run_with Hl. rewrite String.eqb_refl. run_handler.
  run_with Hvl. run_with Hpub.
  destruct (includesText videoId (Playlist.videos p)); reflexivity.
Qed.

Lemma removeVideoFromPlaylist_run u playlistId pid p videoId vid w :
  ObjectId.cast playlistId = Some pid -> ObjectId.cast videoId = Some vid ->
  playlists w !! pid = Some p -> Playlist.owner p = u ->
  serve (removeVideoFromPlaylist (Some u) playlistId videoId) w =
  (if includesText videoId (Playlist.videos p)
   then
     let updated :=
       withVideos (List.filter (fun x => negb (bool_decide (x = vid))) (Playlist.videos p))
                  (clock w) p in
     (tick (setPlaylists (insert pid updated) w),
      Sent (mkResponse 200
              (apiResponse 200 (pid, updated) "Video removed from playlist successfully")))
   else (w, Failed 404 "Video not found in this playlist")).
Proof.
  intros Hp Hv Hl <-. unfold removeVideoFromPlaylist. run_handler.
  rewrite Hp, Hv. run_handler. run_with Hl. rewrite String.eqb_refl. run_handler.
  destruct (includesText videoId (Playlist.videos p)); reflexivity.
Qed.

Lemma filter_out_absent (vid : ObjectId) (l : list ObjectId) :
  vid ∉ l -> List.filter (fun x => negb (bool_decide (x = vid))) l = l.
Proof.
  induction l as [|x l IH]; intros Hn; [reflexivity |].
  apply not_elem_of_cons in Hn as [Hne Hn]. simpl.
  rewrite bool_decide_eq_false_2 by congruence. simpl. f_equal. auto.
Qed.

Lemma filter_out_gone (vid : ObjectId) (l : list ObjectId) :
  vid ∉ List.filter (fun x => negb (bool_decide (x = vid))) l.
Proof.
  intros Hin. apply list_elem_of_In, filter_In in Hin as [_ H].
  rewrite bool_decide_eq_true_2 in H by reflexivity. discriminate.
Qed.

(** X16: the owner's [addVideoToPlaylist] with the lower-case text of a
    published video's identifier appends the video when the playlist does
    not list it, and is refused with a 400 when it does: a playlist
    without a repeated video stays so.  [removeVideoFromPlaylist] takes
    every occurrence of the video out, and is refused with a 404 when the
    playlist does not list it. *)
Theorem playlist_lists_a_video_once (u pid vid : ObjectId) (playlistId : string)
    (p : Playlist.t) (v : Video.t) (w : World) :
  ObjectId.cast playlistId = Some pid ->
  wellFormed vid ->
  playlists w !! pid = Some p -> Playlist.owner p = u ->
  Forall wellFormed (Playlist.videos p) ->
  let videoId := ObjectId.toString vid in
  let add := addVideoToPlaylist (Some u) playlistId videoId in
  let remove := removeVideoFromPlaylist (Some u) playlistId videoId in
  (videos w !! vid = Some v -> Video.isPublished v = true ->
   (vid ∈ Playlist.videos p -> Refuses 400 add w) /\
   (vid ∉ Playlist.videos p ->
      replyStatus (replyTo add w) = 200 /\
      Playlist.videos <$> playlists (after add w) !! pid
      = Some (Playlist.videos p ++ [vid])%list /\
      (NoDup (Playlist.videos p) -> NoDup (Playlist.videos p ++ [vid])%list))) /\
  (vid ∉ Playlist.videos p -> Refuses 404 remove w) /\
  (vid ∈ Playlist.videos p ->
     replyStatus (replyTo remove w) = 200 /\
     exists l, Playlist.videos <$> playlists (after remove w) !! pid = Some l /\
       (vid ∉ l) /\ forall x, x <> vid -> x ∈ l <-> x ∈ Playlist.videos p).
Proof.
  intros Hp Hwf Hl Ho Hall videoId add remove.
  pose proof (cast_toString vid Hwf) as Hv.
  pose proof (includesText_spec videoId vid (Playlist.videos p) Hv Hall) as Hinc.
  split; [intros Hvl Hpub; split | split].
  - intros Hin. unfold Refuses, replyTo, after, add.
    rewrite (addVideoToPlaylist_run u playlistId pid p videoId vid v w Hp Hv Hl Ho Hvl Hpub).
    rewrite (proj2 Hinc) by auto. auto.
  - intros Hout. unfold replyTo, after, add.
    rewrite (addVideoToPlaylist_run u playlistId pid p videoId vid v w Hp Hv Hl Ho Hvl Hpub).
    destruct (includesText videoId (Playlist.videos p)) eqn:E.
    + exfalso. apply Hout. apply Hinc. reflexivity.
    + cbn. rewrite lookup_insert_eq. split_all; try reflexivity.
      intros Hnd. apply NoDup_app. split_all; [exact Hnd | | apply NoDup_singleton].
      intros x Hx Hx'. apply list_elem_of_singleton in Hx'. subst. auto.
  - intros Hout. unfold Refuses, replyTo, after, remove.
    rewrite (removeVideoFromPlaylist_run u playlistId pid p videoId vid w Hp Hv Hl Ho).
    destruct (includesText videoId (Playlist.videos p)) eqn:E.
    + exfalso. apply Hout. apply Hinc. reflexivity.
    + auto.
  - intros Hin. unfold replyTo, after, remove.
    rewrite (removeVideoFromPlaylist_run u playlistId pid p videoId vid w Hp Hv Hl Ho).
    rewrite (proj2 Hinc) by auto. cbn -[List.filter]. rewrite lookup_insert_eq.
    split; [reflexivity |]. eexists. split; [reflexivity |]. split.
    + cbn [Playlist.videos withVideos]. apply filter_out_gone.
    + intros x Hne. cbn [Playlist.videos withVideos].
      rewrite !list_elem_of_In, filter_In, negb_true_iff, bool_decide_eq_false.
      tauto.
Qed.

(** In [demo], Alice adds her video 10 to her empty playlist 40. *)
Lemma playlist_addition_in_demo :
  Playlist.videos <$>
    playlists (after (addVideoToPlaylist (Some 1) id40 (ObjectId.toString 10)) demo) !! 40
  = Some [10].
Proof.
  destruct (playlist_lists_a_video_once 1 40 10 id40 (Playlist.mk "favourites" "" 1 [] 5 5)
              (Video.mk "v10.mp4" "t10.png" "First" "A first video" 60 0 true 1 1 1) demo
              eq_refl eq_refl eq_refl eq_refl (Forall_nil_2 _)) as [A _].
  destruct (A eq_refl eq_refl) as [_ B]. apply B. apply not_elem_of_nil.
Defined.

(** X17: the test of membership compares texts.  With a spelling of the
    video's identifier that is not its lower-case text (an upper-case
    digit), [addVideoToPlaylist] never finds the video in the playlist:
    it appends it again even when the playlist lists it, and
    [removeVideoFromPlaylist] answers 404 even then. *)
Theorem other_spelling_bypasses_membership (u pid vid : ObjectId) (playlistId videoId : string)
    (p : Playlist.t) (v : Video.t) (w : World) :
  ObjectId.cast playlistId = Some pid ->
  ObjectId.cast videoId = Some vid ->
  videoId <> ObjectId.toString vid ->
  playlists w !! pid = Some p -> Playlist.owner p = u ->
  Forall wellFormed (Playlist.videos p) ->
  videos w !! vid = Some v -> Video.isPublished v = true ->
  replyStatus (replyTo (addVideoToPlaylist (Some u) playlistId videoId) w) = 200 /\
  Playlist.videos <$>
    playlists (after (addVideoToPlaylist (Some u) playlistId videoId) w) !! pid
  = Some (Playlist.videos p ++ [vid])%list /\
  Refuses 404 (removeVideoFromPlaylist (Some u) playlistId videoId) w.
Proof.
  intros Hp Hv Hne Hl Ho Hall Hvl Hpub.
  assert (E : includesText videoId (Playlist.videos p) = false).
  { apply not_true_is_false. intros H.
    apply (includesText_spec videoId vid _ Hv Hall) in H as [H _]. contradiction. }
  unfold Refuses, replyTo, after.
  rewrite (addVideoToPlaylist_run u playlistId pid p videoId vid v w Hp Hv Hl Ho Hvl Hpub).
  rewrite (removeVideoFromPlaylist_run u playlistId pid p videoId vid w Hp Hv Hl Ho).
  rewrite E. cbn. rewrite lookup_insert_eq. auto.
Qed.

(** In [demoListed], where playlist 40 lists video 10, the identifier of
    video 10 written with an upper-case digit adds the video a second
    time. *)
Lemma repeated_video_in_demo :
  Playlist.videos <$>
    playlists (after (addVideoToPlaylist (Some 1) id40 "00000000000000000000000A")
                 demoListed) !! 40
  = Some [10; 10].
Proof.
  apply (other_spelling_bypasses_membership 1 40 10 id40 "00000000000000000000000A"
           (Playlist.mk "favourites" "" 1 [10] 5 5)
           (Video.mk "v10.mp4" "t10.png" "First" "A first video" 60 0 true 1 1 1)
           demoListed);
    try reflexivity.
  - discriminate.
  - repeat constructor.
Defined.

(** ** New comments and tweets in the listings *)

Lemma matching_insert_length {B} (coll : gmap ObjectId B) (q : B -> bool) id d :
  coll !! id = None ->
  length (matching (<[id := d]> coll) (fun _ x => q x))
  = ((if q d then 1 else 0) + length (matching coll (fun _ x => q x)))%nat.
Proof.
  intros Hn. unfold matching.
  rewrite (filter_length_Permutation _ _ _ (map_to_list_insert coll id d Hn)).
  simpl. destruct (q d); reflexivity.
Qed.

Lemma sortDescending_length {B} (key : B -> N) (l : list B) :
  length (sortDescending key l) = length l.
Proof. unfold sortDescending. apply Permutation_length, merge_sort_Permutation. Qed.

Lemma addComment_run u videoId vid v content w :
  ObjectId.cast videoId = Some vid -> videos w !! vid = Some v ->
  Video.isPublished v = true -> Js.emptyText (Some content) = false ->
  after (addComment (Some u) videoId (Some content)) w
  = tick (setComments (insert (newId (comments w)) (Comment.mk content vid u (clock w))) w) /\
  replyStatus (replyTo (addComment (Some u) videoId (Some content)) w) = 201.
Proof.
  intros Hc Hv Hp He. unfold addComment, Comment_create. run_handler. run_with Hc.
  rewrite He. run_handler. run_with Hv. run_with Hp. split; reflexivity.
Qed.

Lemma createTweet_run u content w :
  Js.emptyText (Some content) = false ->
  after (createTweet (Some u) (Some content)) w
  = tick (setTweets (insert (newId (tweets w)) (Tweet.mk content u (clock w))) w) /\
  replyStatus (replyTo (createTweet (Some u) (Some content)) w) = 201.
Proof.
  intros He. unfold createTweet, Tweet_create. run_handler. rewrite He. run_handler.
  split; reflexivity.
Qed.

(** X18: a comment that is added, and a tweet that is created, is in the
    listing read next, by whichever reader: [addComment] on a published
    video answers 201, the comments listed for the video are one more than
    before and one of them is the new comment with its content;
    likewise [createTweet] and the tweets listed for its author. *)
Theorem created_documents_are_listed (u : ObjectId) (content : string) (w : World) :
  Js.emptyText (Some content) = false ->
  (forall videoId vid v,
     ObjectId.cast videoId = Some vid -> videos w !! vid = Some v ->
     Video.isPublished v = true ->
     replyStatus (replyTo (addComment (Some u) videoId (Some content)) w) = 201 /\
     forall reader,
       length (commentAggregate reader vid
                 (after (addComment (Some u) videoId (Some content)) w))
       = S (length (commentAggregate reader vid w)) /\
       exists cv,
         cv ∈ commentAggregate reader vid
                (after (addComment (Some u) videoId (Some content)) w) /\
         commentViewId cv = newId (comments w) /\ commentViewContent cv = content) /\
  (replyStatus (replyTo (createTweet (Some u) (Some content)) w) = 201 /\
   forall reader,
     length (tweetAggregate reader u (after (createTweet (Some u) (Some content)) w))
     = S (length (tweetAggregate reader u w)) /\
     exists tv,
       tv ∈ tweetAggregate reader u (after (createTweet (Some u) (Some content)) w) /\
       tweetViewId tv = newId (tweets w) /\ tweetViewContent tv = content).
Proof.
  intros He. split.
  - intros videoId vid v Hc Hv Hp.
    destruct (addComment_run u videoId vid v content w Hc Hv Hp He) as [-> ->].
    split; [reflexivity |]. intros reader. split.
    + unfold commentAggregate. rewrite !sortDescending_length, !length_fmap.
      cbn [comments tick setComments].
      rewrite (matching_insert_length (comments w)
                 (fun c => bool_decide (Comment.video c = vid))) by apply newId_fresh.
      cbn [Comment.video]. rewrite bool_decide_eq_true_2 by reflexivity. reflexivity.
    + eexists. split.
      * unfold commentAggregate, sortDescending. rewrite merge_sort_Permutation.
        apply list_elem_of_fmap. eexists. split; [reflexivity |].
        apply elem_of_matching. cbn [comments tick setComments]. split.
        -- apply lookup_insert_eq.
        -- cbn. apply bool_decide_eq_true_2. reflexivity.
      * split; reflexivity.
  - destruct (createTweet_run u content w He) as [-> ->].
    split; [reflexivity |]. intros reader. split.
    + unfold tweetAggregate. rewrite !sortDescending_length, !length_fmap.
      cbn [tweets tick setTweets].
      rewrite (matching_insert_length (tweets w)
                 (fun t => bool_decide (Tweet.owner t = u))) by apply newId_fresh.
      cbn [Tweet.owner]. rewrite bool_decide_eq_true_2 by reflexivity. reflexivity.
    + eexists. split.
      * unfold tweetAggregate, sortDescending. rewrite merge_sort_Permutation.
        apply list_elem_of_fmap. eexists. split; [reflexivity |].
        apply elem_of_matching. cbn [tweets tick setTweets]. split.
        -- apply lookup_insert_eq.
        -- cbn. apply bool_decide_eq_true_2. reflexivity.
      * split; reflexivity.
Qed.

(** In [demo], Carol's comment on video 10 is the second of its listing. *)
Lemma new_comment_in_demo :
  length (commentAggregate None 10 (after (addComment (Some 2748) id10 (Some "Nice")) demo))
  = S (length (commentAggregate None 10 demo)).
Proof.
  destruct (created_documents_are_listed 2748 "Nice" demo eq_refl) as [A _].
  destruct (A id10 10 (Video.mk "v10.mp4" "t10.png" "First" "A first video" 60 0 true 1 1 1)
              eq_refl eq_refl eq_refl) as [_ B].
  apply B.
Defined.

(** ** Reading what is not there *)

(** X19: the readings that look a document up answer 404 when there is
    none, and change nothing: the tweets, playlists, subscribers and
    subscribed channels of an unknown user, a video and a playlist of an
    unknown identifier, and the channel of an unknown user name.  (The
    comments of an unknown video are listed all the same.) *)
Theorem reading_what_is_missing_is_404 (user : option ObjectId) (id : string) (o : ObjectId)
    (q : PageQuery) (w : World) :
  ObjectId.cast id = Some o ->
  (users w !! o = None ->
     Refuses 404 (getUserTweets user id q) w /\
     Refuses 404 (getUserPlaylists id q) w /\
     Refuses 404 (getUserChannelSubscribers id q) w /\
     Refuses 404 (getSubscribedChannels id q) w) /\
  (videos w !! o = None -> Refuses 404 (getVideoById user id) w) /\
  (playlists w !! o = None -> Refuses 404 (getPlaylistById id) w) /\
  (forall username,
     Js.emptyText (Some username) = false ->
     (forall i u, users w !! i = Some u -> User.username u <> Js.toLowerCase username) ->
     Refuses 404 (getUserChannelProfile user (Some username)) w).
Proof.
  intros Hc. split_all.
  - intros Hn. split_all.
    + unfold getUserTweets, Refuses. run_handler. run_with Hc. run_with Hn.
      split; reflexivity.
    + unfold getUserPlaylists, Refuses. run_handler. run_with Hc. run_with Hn.
      split; reflexivity.
    + unfold getUserChannelSubscribers, Refuses. run_handler. run_with Hc. run_with Hn.
      split; reflexivity.
    + unfold getSubscribedChannels, Refuses. run_handler. run_with Hc. run_with Hn.
      split; reflexivity.
  - intros Hn. unfold getVideoById, Refuses. run_handler. run_with Hc. run_with Hn.
    split; reflexivity.
  - intros Hn. unfold getPlaylistById, Refuses. run_handler. run_with Hc.
    unfold playlistDetailsAggregate. rewrite (matching_by_id_none _ o Hn).
    split; reflexivity.
  - intros username He Hno. unfold getUserChannelProfile, Refuses. run_handler.
    rewrite He. run_handler.
    assert (E : channelAggregate user username w = []).
    { unfold channelAggregate.
      destruct (matching (users w) _) as [|[i u] rest] eqn:Em; [reflexivity |].
      assert (Hin : (i, u) ∈ matching (users w)
                (fun _ u => String.eqb (User.username u) (Js.toLowerCase username)))
        by (rewrite Em; left).
      apply elem_of_matching in Hin as [Hl Hu]. apply String.eqb_eq in Hu.
      exfalso. exact (Hno i u Hl Hu). }
    cbn [default from_option]. unfold Datatypes.id. rewrite E. split; reflexivity.
Qed.

(** In [demo] there is no user 99 and no channel [dave]. *)
Lemma missing_readings_in_demo :
  Refuses 404 (getUserTweets (Some 1) id99 (mkPageQuery None None)) demo /\
  Refuses 404 (getPlaylistById id99) demo.
Proof.
  destruct (reading_what_is_missing_is_404 (Some 1) id99 99 (mkPageQuery None None) demo
              eq_refl) as (U & _ & P & _).
  split; [apply U; reflexivity | apply P; reflexivity].
Defined.

(** ** The two counts of a playlist's videos *)

Lemma filter_shorter (vid : ObjectId) (l : list ObjectId) :
  vid ∈ l -> (length (List.filter (fun x => negb (bool_decide (x = vid))) l) < length l)%nat.
Proof.
  induction l as [|x l IH]; intros Hin; [inversion Hin |].
  simpl. destruct (decide (x = vid)) as [-> | Hne].
  - rewrite bool_decide_eq_true_2 by reflexivity. simpl.
    pose proof (List.filter_length_le (fun x => negb (bool_decide (x = vid))) l). lia.
  - rewrite bool_decide_eq_false_2 by exact Hne. simpl.
    apply elem_of_cons in Hin as [-> | Hin]; [contradiction |].
    specialize (IH Hin). lia.
Qed.

Lemma lookup_keys_NoDup {B} (from : gmap ObjectId B) on :
  List.NoDup (fst <$> lookup from on).
Proof.
  unfold lookup. apply NoDup_ListNoDup.
  apply (NoDup_fmap_fst (List.filter _ _)).
  - intros i x y Hx Hy. apply list_elem_of_In, filter_In in Hx as [Hx _].
    apply list_elem_of_In, filter_In in Hy as [Hy _].
    apply list_elem_of_In, elem_of_map_to_list in Hx, Hy. congruence.
  - apply NoDup_ListNoDup, List.NoDup_filter, NoDup_ListNoDup, NoDup_map_to_list.
Qed.

(** X20: [getPlaylistById] and [getUserPlaylists] count the videos of a
    playlist differently.  The first counts the videos found for the
    listed identifiers, the second the listed identifiers: the first
    count is at most the second, and it is smaller as soon as the
    playlist lists a video that is not (or no longer) there. *)
Theorem playlist_totals_count_differently (id : string) (pid : ObjectId) (p : Playlist.t)
    (w : World) :
  ObjectId.cast id = Some pid ->
  playlists w !! pid = Some p ->
  exists d,
    replyData (replyTo (getPlaylistById id) w) = Some d /\
    replyStatus (replyTo (getPlaylistById id) w) = 200 /\
    playlistDetailsTotalVideos d = length (playlistDetailsVideos d) /\
    (forall pv, pv ∈ playlistAggregate (Playlist.owner p) w -> playlistViewId pv = pid ->
       playlistViewTotalVideos pv = length (Playlist.videos p)) /\
    (playlistDetailsTotalVideos d <= length (Playlist.videos p))%nat /\
    (forall vid, vid ∈ Playlist.videos p -> videos w !! vid = None ->
       (playlistDetailsTotalVideos d < length (Playlist.videos p))%nat).
Proof.
  intros Hc Hp. exists (playlistDetails w (pid, p)).
  assert (Hincl : forall vid', List.In vid'
            (fst <$> lookup (videos w) (fun i _ => bool_decide (i ∈ Playlist.videos p))) ->
            vid' ∈ Playlist.videos p /\ is_Some (videos w !! vid')).
  { intros vid' Hin. apply list_elem_of_In, list_elem_of_fmap in Hin as ([i x] & -> & Hin).
    unfold lookup in Hin. apply list_elem_of_In, filter_In in Hin as [Hin Hb].
    apply list_elem_of_In, elem_of_map_to_list in Hin.
    apply bool_decide_eq_true in Hb. split; [exact Hb | eauto]. }
  split_all.
  - unfold getPlaylistById. run_handler. run_with Hc.
    unfold playlistDetailsAggregate. rewrite (matching_by_id _ pid p Hp). reflexivity.
  - unfold getPlaylistById. run_handler. run_with Hc.
    unfold playlistDetailsAggregate. rewrite (matching_by_id _ pid p Hp). reflexivity.
  - reflexivity.
  - intros pv Hin Hid. unfold playlistAggregate, sortDescending in Hin.
    rewrite merge_sort_Permutation in Hin.
    apply list_elem_of_fmap in Hin as ([i x] & -> & Hin).
    apply elem_of_matching in Hin as [Hl _]. cbn in Hid. subst i.
    cbn. congruence.
  - cbn [playlistDetailsTotalVideos playlistDetails snd]. rewrite length_fmap.
    rewrite <- (length_fmap fst).
    apply NoDup_incl_length; [apply lookup_keys_NoDup |].
    intros vid' Hin. apply list_elem_of_In. apply Hincl. exact Hin.
  - intros vid Hin Hn. cbn [playlistDetailsTotalVideos playlistDetails snd].
    rewrite length_fmap. rewrite <- (length_fmap fst).
    eapply Nat.le_lt_trans; [| apply (filter_shorter vid _ Hin)].
    apply NoDup_incl_length; [apply lookup_keys_NoDup |].
    intros vid' Hin'. apply filter_In. destruct (Hincl vid' Hin') as [H1 [x H2]].
    split; [apply list_elem_of_In; exact H1 |].
    apply negb_true_iff, bool_decide_eq_false. congruence.
Qed.

(** In [demoStale], where playlist 40 lists the missing video 99, the
    playlist is shown with no video and listed with one. *)
Lemma playlist_totals_in_demo :
  exists d,
    replyData (replyTo (getPlaylistById id40) demoStale) = Some d /\
    (playlistDetailsTotalVideos d < 1)%nat.
Proof.
  assert (Hc : ObjectId.cast id40 = Some 40) by reflexivity.
  assert (Hp : playlists demoStale !! 40 = Some (Playlist.mk "favourites" "" 1 [99] 5 5))
    by reflexivity.
  destruct (playlist_totals_count_differently id40 40 _ demoStale Hc Hp)
    as (d & R & _ & _ & _ & _ & L).
  exists d. split; [exact R |]. apply (L 99); [left | reflexivity].
Defined.

(** ** Partial updates *)

Lemma updateVideo_run (id : string) (o : ObjectId) (v : Video.t) title description w :
  ObjectId.cast id = Some o -> videos w !! o = Some v ->
  Js.truthy title || Js.truthy description = true ->
  serve (updateVideo (Some (Video.owner v)) id title description None) w =
  (tick (setVideos (alter (setVideoFields (textToSet title) (textToSet description) None
                             (clock w)) o) w),
   Sent (mkResponse 200
           (apiResponse 200
              (Some (selectSansOwner o
                       (setVideoFields (textToSet title) (textToSet description) None
                          (clock w) v)))
              "Video details updated successfully"))).
Proof.
  intros Hc Hv Ht. unfold updateVideo. run_handler. run_with Hc.
  change (Js.truthy None) with false.
  destruct (Js.truthy title), (Js.truthy description); try discriminate Ht;
    run_handler; run_with Hv; rewrite differs_self; run_handler;
    cbn [videos tick setVideos]; rewrite lookup_alter_eq, Hv; reflexivity.
Qed.

Lemma updatePlaylist_run (id : string) (o : ObjectId) (p : Playlist.t) name description w :
  ObjectId.cast id = Some o -> playlists w !! o = Some p ->
  Js.emptyText name && Js.emptyText description = false ->
  serve (updatePlaylist (Some (Playlist.owner p)) id name description) w =
  (tick (setPlaylists (alter (setPlaylistFields (textToSet name) description (clock w)) o) w),
   Sent (mkResponse 200
           (apiResponse 200
              (Some (o, setPlaylistFields (textToSet name) description (clock w) p))
              "Playlist updated successfully"))).
Proof.
  intros Hc Hp Ht. unfold updatePlaylist. run_handler. run_with Hc.
  destruct (Js.emptyText name), (Js.emptyText description); try discriminate Ht;
    run_handler; run_with Hp; rewrite String.eqb_refl; run_handler;
    cbn [playlists tick setPlaylists]; rewrite lookup_alter_eq, Hp; reflexivity.
Qed.

(** X21: an owner's update sets what the request gives and keeps the
    rest.  [updateVideo] without a new thumbnail sets a title and a
    description that are not blank and keeps the others, the thumbnail,
    the file, the views and the publish flag; a request whose only text is
    blank passes the validation and changes no field.  [updatePlaylist]
    sets a name that is not blank and any description that is given, the
    empty one included, and keeps the videos. *)
Theorem updates_set_what_is_given (id : string) (o : ObjectId) (w : World) :
  ObjectId.cast id = Some o ->
  (forall v title description,
     videos w !! o = Some v ->
     Js.truthy title || Js.truthy description = true ->
     replyStatus (replyTo (updateVideo (Some (Video.owner v)) id title description None) w)
     = 200 /\
     exists v',
       videos (after (updateVideo (Some (Video.owner v)) id title description None) w) !! o
       = Some v' /\
       Video.title v' = (if Js.emptyText title then Video.title v else default "" title) /\
       Video.description v'
       = (if Js.emptyText description then Video.description v else default "" description) /\
       Video.views v' = Video.views v /\ Video.isPublished v' = Video.isPublished v /\
       Video.videoFile v' = Video.videoFile v /\ Video.thumbnail v' = Video.thumbnail v /\
       Video.duration v' = Video.duration v /\ Video.owner v' = Video.owner v /\
       Video.createdAt v' = Video.createdAt v) /\
  (forall p name description,
     playlists w !! o = Some p ->
     Js.emptyText name && Js.emptyText description = false ->
     replyStatus (replyTo (updatePlaylist (Some (Playlist.owner p)) id name description) w)
     = 200 /\
     exists p',
       playlists (after (updatePlaylist (Some (Playlist.owner p)) id name description) w) !! o
       = Some p' /\
       Playlist.name p' = (if Js.emptyText name then Playlist.name p else default "" name) /\
       Playlist.description p' = default (Playlist.description p) description /\
       Playlist.videos p' = Playlist.videos p /\ Playlist.owner p' = Playlist.owner p /\
       Playlist.createdAt p' = Playlist.createdAt p).
Proof.
  intros Hc. split.
  - intros v title description Hv Ht. unfold replyTo, after.
    rewrite (updateVideo_run id o v title description w Hc Hv Ht). cbn [fst snd replyStatus status].
    split; [reflexivity |]. eexists. cbn [videos tick setVideos].
    rewrite lookup_alter_eq, Hv. split; [reflexivity |].
    unfold textToSet. cbn.
    destruct (Js.emptyText title) eqn:E1, (Js.emptyText description) eqn:E2;
      destruct title, description; try discriminate; cbn; split_all; reflexivity.
  - intros p name description Hp Ht. unfold replyTo, after.
    rewrite (updatePlaylist_run id o p name description w Hc Hp Ht).
    cbn [fst snd replyStatus status].
    split; [reflexivity |]. eexists. cbn [playlists tick setPlaylists].
    rewrite lookup_alter_eq, Hp. split; [reflexivity |].
    unfold textToSet. cbn.
    destruct (Js.emptyText name) eqn:E1; destruct name; try discriminate; cbn;
      split_all; reflexivity.
Qed.

(** In [demo], an update of video 10 whose title is blank changes no
    title. *)
Lemma blank_title_in_demo :
  exists v',
    videos (after (updateVideo (Some 1) id10 (Some "  ") None None) demo) !! 10 = Some v' /\
    Video.title v' = "First".
Proof.
  destruct (updates_set_what_is_given id10 10 demo eq_refl) as [V _].
  destruct (V (Video.mk "v10.mp4" "t10.png" "First" "A first video" 60 0 true 1 1 1)
              (Some "  ") None eq_refl eq_refl) as (_ & v' & L & T & _).
  exists v'. split; [exact L | exact T].
Defined.

(** ** Requests that fail the validation *)

(** X22: a request that fails the validation of its body is refused with
    a 400 before anything is done: no document is written and no upload
    is tried, so the temporary files of a refused [publishAVideo] or
    profile image stay where they are. *)
Theorem blank_input_is_refused (user : option ObjectId) (w : World) :
  (forall content, Js.emptyText content = true ->
     Refuses 400 (createTweet user content) w /\
     forall id, ObjectId.isValid id = true ->
       Refuses 400 (addComment user id content) w /\
       Refuses 400 (updateComment user id content) w /\
       Refuses 400 (updateTweet user id content) w) /\
  (forall name description, Js.emptyText name = true ->
     Refuses 400 (createPlaylist user name description) w) /\
  (forall fullName email, Js.truthy fullName && Js.truthy email = false ->
     Refuses 400 (updateAccountDetails user fullName email) w) /\
  (forall path, Js.truthy path = false ->
     Refuses 400 (updateUserAvatar user path) w /\
     Refuses 400 (updateUserCoverImage user path) w) /\
  (forall title description videoFileLocalPath thumbnailLocalPath,
     Js.emptyText title || Js.emptyText description
     || negb (Js.truthy videoFileLocalPath) || negb (Js.truthy thumbnailLocalPath) = true ->
     Refuses 400
       (publishAVideo user title description videoFileLocalPath thumbnailLocalPath) w).
Proof.
  split_all.
  - intros content He. split.
    + unfold createTweet, Refuses. run_handler. rewrite He. split; reflexivity.
    + intros id Hv. unfold ObjectId.isValid in Hv.
      destruct (ObjectId.cast id) as [o|] eqn:Hc; [| discriminate]. split_all.
      * unfold addComment, Refuses. run_handler. run_with Hc. rewrite He.
        split; reflexivity.
      * unfold updateComment, Refuses. run_handler. run_with Hc. rewrite He.
        split; reflexivity.
      * unfold updateTweet, Refuses. run_handler. run_with Hc. rewrite He.
        split; reflexivity.
  - intros name description He. unfold createPlaylist, Refuses. run_handler. rewrite He.
    split; reflexivity.
  - intros fullName email He. unfold updateAccountDetails, Refuses. run_handler.
    destruct (Js.truthy fullName), (Js.truthy email); try discriminate He;
      split; reflexivity.
  - intros path He. split.
    + unfold updateUserAvatar, Refuses. run_handler. rewrite He. split; reflexivity.
    + unfold updateUserCoverImage, Refuses. run_handler. rewrite He. split; reflexivity.
  - intros title description vpath tpath He. unfold publishAVideo, Refuses. run_handler.
    destruct (Js.emptyText title); [split; reflexivity |].
    destruct (Js.emptyText description); [split; reflexivity |].
    destruct (Js.truthy vpath); [| split; reflexivity].
    destruct (Js.truthy tpath); [discriminate He | split; reflexivity].
Qed.

(** In [demo], a publication without a title leaves the uploaded files
    in the temporary directory. *)
Lemma refused_publication_in_demo :
  files (after (publishAVideo (Some 1) (Some " ") (Some "Text")
                  (Some "public/temp/clip.mp4") None) demo)
  = files demo.
Proof.
  destruct (blank_input_is_refused (Some 1) demo) as (_ & _ & _ & _ & P).
  destruct (P (Some " ") (Some "Text") (Some "public/temp/clip.mp4") None eq_refl)
    as [_ E].
  rewrite E. reflexivity.
Defined.

(** ** The videos a user likes *)

(** X23: [getLikedVideos] lists the videos the requester likes: a video
    is in the aggregate exactly when a like of the requester refers to it
    and it is there; whether it is published is not asked, and the like of
    a deleted video is skipped.  Without a requester the listing is
    empty, and the answer is 200. *)
Theorem liked_videos_are_the_videos_liked (w : World) :
  (forall u lv,
     lv ∈ likedVideosAggregate (Some u) w <->
     exists vid v, likesVideo u vid w /\ videos w !! vid = Some v /\
                   lv = likedVideo w (vid, v)) /\
  (forall q,
     replyStatus (replyTo (getLikedVideos None q) w) = 200 /\
     listedItems <$> replyData (replyTo (getLikedVideos None q) w) = Some []).
Proof.
  split.
  - intros u lv. unfold likedVideosAggregate, sortDescending.
    rewrite merge_sort_Permutation, list_elem_of_bind. split.
    + intros ([i l] & Hlv & Hl). apply list_elem_of_fmap in Hlv as ([vid v] & -> & Hv).
      apply elem_of_lookup in Hv as [Hv Hb]. cbn in Hb. apply bool_decide_eq_true in Hb.
      apply elem_of_matching in Hl as [Hl Hm]. apply andb_true_iff in Hm as [Hr _].
      unfold refIs in Hr. apply bool_decide_eq_true in Hr.
      exists vid, v. split_all; auto. exists i, l. split; [exact Hl |]. split; congruence.
    + intros (vid & v & (i & l & Hl & Hv & Hu) & Hvid & ->).
      exists (i, l). split.
      * apply list_elem_of_fmap. exists (vid, v). split; [reflexivity |].
        apply elem_of_lookup. split; [exact Hvid |]. cbn. apply bool_decide_eq_true_2.
        exact Hv.
      * apply elem_of_matching. split; [exact Hl |]. apply andb_true_iff. split.
        -- unfold refIs. apply bool_decide_eq_true_2. congruence.
        -- apply bool_decide_eq_true_2. rewrite Hv. eauto.
  - intros q.
    assert (E : likedVideosAggregate None w = []).
    { unfold likedVideosAggregate.
      assert (M : matching (likes w)
                (fun _ l => refIs (Like.likedBy l) None && bool_decide (is_Some (Like.video l)))
              = []).
      { destruct (matching _ _) as [|[i l] rest] eqn:Em; [reflexivity |].
        assert (Hin : (i, l) ∈ matching (likes w)
                  (fun _ l => refIs (Like.likedBy l) None
                              && bool_decide (is_Some (Like.video l))))
          by (rewrite Em; left).
        apply elem_of_matching in Hin as [_ Hb]. apply andb_true_iff in Hb as [Hb _].
        unfold refIs in Hb. apply bool_decide_eq_true in Hb. discriminate. }
      rewrite M. reflexivity. }
    unfold replyTo. rewrite getLikedVideos_run, E.
    unfold serve, paginated, respond, ret. cbn [aggregatePaginate items length Nat.eqb].
    rewrite drop_nil, take_nil. cbn [length Nat.eqb andb].
    destruct (Js.gt _ 1); split; reflexivity.
Qed.

(** ** Subscribers and subscribed channels *)

Lemma elem_of_ownerDetails w owner pr :
  pr ∈ ownerDetails w owner <-> exists x, users w !! owner = Some x /\ pr = projectProfile (owner, x).
Proof.
  unfold ownerDetails. rewrite list_elem_of_fmap. split.
  - intros ([i x] & -> & Hin). apply elem_of_lookup in Hin as [Hl Hb].
    apply bool_decide_eq_true in Hb. cbn in Hb. subst i. eauto.
  - intros (x & Hl & ->). exists (owner, x). split; [reflexivity |].
    apply elem_of_lookup. split; [exact Hl |]. apply bool_decide_eq_true_2. reflexivity.
Qed.

Lemma elem_of_subscribersAggregate c w pr :
  pr ∈ subscribersAggregate c w <->
  exists u x, subscribedTo u c w /\ users w !! u = Some x /\ pr = projectProfile (u, x).
Proof.
  unfold subscribersAggregate, unwoundProfiles. rewrite list_elem_of_bind. split.
  - intros (u & Hpr & Hu). apply elem_of_ownerDetails in Hpr as (x & Hx & ->).
    apply list_elem_of_fmap in Hu as ([i s] & -> & Hs).
    apply elem_of_matching in Hs as [Hl Hb]. unfold channelIs in Hb.
    apply bool_decide_eq_true in Hb. cbn in *.
    exists (Subscription.subscriber s), x. split_all; auto. exists i, s. auto.
  - intros (u & x & (i & s & Hl & Hu & Hc) & Hx & ->). exists u. split.
    + apply elem_of_ownerDetails. eauto.
    + apply list_elem_of_fmap. exists (i, s). split; [symmetry; exact Hu |].
      apply elem_of_matching. split; [exact Hl |]. unfold channelIs.
      apply bool_decide_eq_true_2. exact Hc.
Qed.

Lemma elem_of_subscribedChannelsAggregate u w pr :
  pr ∈ subscribedChannelsAggregate u w <->
  exists c y, subscribedTo u c w /\ users w !! c = Some y /\ pr = projectProfile (c, y).
Proof.
  unfold subscribedChannelsAggregate, sortAscendingText, unwoundProfiles.
  rewrite merge_sort_Permutation, list_elem_of_bind. split.
  - intros (c & Hpr & Hc). apply elem_of_ownerDetails in Hpr as (y & Hy & ->).
    apply list_elem_of_fmap in Hc as ([i s] & -> & Hs).
    apply elem_of_matching in Hs as [Hl Hb]. apply bool_decide_eq_true in Hb. cbn in *.
    exists (Subscription.channel s), y. split_all; auto. exists i, s. auto.
  - intros (c & y & (i & s & Hl & Hu & Hc) & Hy & ->). exists c. split.
    + apply elem_of_ownerDetails. eauto.
    + apply list_elem_of_fmap. exists (i, s). split; [symmetry; exact Hc |].
      apply elem_of_matching. split; [exact Hl |]. apply bool_decide_eq_true_2. exact Hu.
Qed.

(** X24: the two listings of subscriptions mirror each other.  The
    subscribers listed for a channel are the users that subscribe to it,
    the channels listed for a user are the users it subscribes to (a
    subscription whose user is gone is skipped); so, for two users that
    are there, the first is listed among the subscribers of the second
    exactly when the second is listed among the channels of the first. *)
Theorem subscription_listings_mirror (u c : ObjectId) (x y : User.t) (w : World) :
  users w !! u = Some x ->
  users w !! c = Some y ->
  (projectProfile (u, x) ∈ subscribersAggregate c w <-> subscribedTo u c w) /\
  (projectProfile (c, y) ∈ subscribedChannelsAggregate u w <-> subscribedTo u c w) /\
  (projectProfile (u, x) ∈ subscribersAggregate c w <->
   projectProfile (c, y) ∈ subscribedChannelsAggregate u w).
Proof.
  intros Hx Hy.
  assert (A : projectProfile (u, x) ∈ subscribersAggregate c w <-> subscribedTo u c w).
  { rewrite elem_of_subscribersAggregate. split.
    - intros (u' & x' & Hs & _ & E). injection E as <- _ _ _. exact Hs.
    - intros Hs. exists u, x. auto. }
  assert (B : projectProfile (c, y) ∈ subscribedChannelsAggregate u w <-> subscribedTo u c w).
  { rewrite elem_of_subscribedChannelsAggregate. split.
    - intros (c' & y' & Hs & _ & E). injection E as <- _ _ _. exact Hs.
    - intros Hs. exists c, y. auto. }
  split; [exact A |]. split; [exact B |]. rewrite A, B. reflexivity.
Qed.

(** In [demo], where nobody subscribes to anybody, Bob is not listed
    among Alice's subscribers. *)
Lemma no_subscriber_in_demo :
  projectProfile (2, bob) ∈ subscribersAggregate 1 demo <-> subscribedTo 2 1 demo.
Proof.
  apply (subscription_listings_mirror 2 1 bob alice demo); reflexivity.
Defined.

(** ** The videos of the public listing *)

(** X25: the listing of [getAllVideos] holds published videos only.
    Whenever the handler answers with a listing, every video of it is
    published and, when the request names an owner, that owner's.  The
    aggregation is the database's: [regex] and [sortOn] stand for its
    evaluation of a pattern and of a sort key that it accepts, the sort
    reordering and nothing else; a pattern or a key that the database
    rejects makes the route fail, which is not part of this statement. *)
Theorem getAllVideos_lists_published_only
    (regex : string -> string -> bool)
    (sortOn : string -> bool -> list VideoView -> list VideoView)
    (q : PageQuery) (query sortBy sortType userId : option string) (w : World) :
  (forall key ascending l, sortOn key ascending l ≡ₚ l) ->
  forall d vv,
    replyData (replyTo (getAllVideos regex sortOn q query sortBy sortType userId) w) = Some d ->
    vv ∈ listedItems d ->
    videoViewIsPublished vv = true /\
    exists v, videos w !! videoViewId vv = Some v /\ Video.isPublished v = true /\
              forall o, ObjectId.cast (default "" userId) = Some o ->
                        Js.truthy userId = true -> Video.owner v = o.
Proof.
  intros Hsort d vv Hd Hin.
  destruct (ownerFilter userId) as [owner|] eqn:Ho.
  2:{ exfalso. revert Hd. unfold ownerFilter in Ho. unfold getAllVideos. run_handler.
      destruct (Js.truthy userId); [| discriminate Ho]. run_handler.
      destruct (ObjectId.cast (default "" userId)); [discriminate Ho |]. discriminate. }
  pose proof (getAllVideos_run q w regex sortOn query sortBy sortType userId owner Ho) as R.
  destruct (paginated_windowed
              (videoAggregate regex sortOn query owner (default "createdAt" sortBy)
                 (default "desc" sortType) w)
              q "totalVideos" "videos" "No more videos found"
              "No videos found matching your criteria" "Videos fetched successfully" w)
    as (_ & _ & Hi).
  unfold replyTo in *. rewrite R in Hd. rewrite Hd in Hi.
  injection Hi as Hi. rewrite Hi in Hin. apply window_subseteq in Hin.
  assert (Hp : vv ∈ videoView w <$>
            (match owner with
             | Some o => List.filter (fun kv => bool_decide (Video.owner kv.2 = o))
             | None => fun l => l
             end
               (if Js.truthy query
                then List.filter (fun kv => regex (default "" query) (Video.title kv.2)
                                            || regex (default "" query) (Video.description kv.2))
                       (matching (videos w) (fun _ v => Video.isPublished v))
                else matching (videos w) (fun _ v => Video.isPublished v)))).
  { unfold videoAggregate in Hin.
    destruct (_ && _) in Hin.
    - rewrite Hsort in Hin. destruct owner; exact Hin.
    - unfold sortDescending in Hin. rewrite merge_sort_Permutation in Hin.
      destruct owner; exact Hin. }
  apply list_elem_of_fmap in Hp as ([i v] & -> & Hp).
  assert (Hm : (i, v) ∈ matching (videos w) (fun _ v => Video.isPublished v) /\
               forall o, owner = Some o -> Video.owner v = o).
  { destruct owner as [o|].
    - apply list_elem_of_In, filter_In in Hp as [Hp Hb]. apply bool_decide_eq_true in Hb.
      split; [| intros o' [= <-]; exact Hb].
      destruct (Js.truthy query).
      + apply filter_In in Hp as [Hp _]. apply list_elem_of_In. exact Hp.
      + apply list_elem_of_In. exact Hp.
    - split; [| discriminate].
      destruct (Js.truthy query); [| exact Hp].
      apply list_elem_of_In, filter_In in Hp as [Hp _]. apply list_elem_of_In. exact Hp. }
  destruct Hm as [Hm Hown]. apply elem_of_matching in Hm as [Hl Hpub].
  split; [exact Hpub |]. exists v. split; [exact Hl |]. split; [exact Hpub |].
  intros o Hc Ht. apply Hown. unfold ownerFilter in Ho. rewrite Ht, Hc in Ho.
  cbn in Ho. congruence.
Qed.

(** In [demo], with a search that matches every text and a sort that
    keeps the order, the listing holds Alice's published video 10. *)
Lemma public_listing_in_demo :
  videoViewIsPublished
    (videoView demo (10, Video.mk "v10.mp4" "t10.png" "First" "A first video" 60 0 true 1 1 1))
  = true.
Proof.
  apply (getAllVideos_lists_published_only (fun _ _ => true) (fun _ _ l => l)
           (mkPageQuery None None) None None None None demo (fun _ _ l => reflexivity l)
           (Listed (aggregatePaginate
                      [videoView demo
                         (10, Video.mk "v10.mp4" "t10.png" "First" "A first video"
                                60 0 true 1 1 1)]
                      (paginateOptions (mkPageQuery None None) "totalVideos" "videos")))
           (videoView demo
              (10, Video.mk "v10.mp4" "t10.png" "First" "A first video" 60 0 true 1 1 1))).
  - reflexivity.
  - vm_compute. left.
Defined.

Example public_listing_of_demo :
  (fun d => videoViewId <$> listedItems d)
  <$> replyData (replyTo (getAllVideos (fun _ _ => true) (fun _ _ l => l)
                            (mkPageQuery None None) None None None None) demo)
  = Some [10].
Proof. reflexivity. Qed.

(** ** Other mutations of what is not there *)

(** X26: the publish toggle and the two edits of a playlist's videos
    answer 404, and change nothing, for a video, respectively a playlist,
    that is not there, whoever asks.  For a playlist that is there the
    ownership is checked before the video is looked up: a requester who
    is not the owner gets 403 for a video that is not there, and the owner
    who adds it gets 404. *)
Theorem other_mutations_of_what_is_missing (user : option ObjectId) (id : string)
    (o : ObjectId) (w : World) :
  ObjectId.cast id = Some o ->
  (videos w !! o = None -> Refuses 404 (togglePublishStatus user id) w) /\
  (playlists w !! o = None ->
     forall videoId, ObjectId.isValid videoId = true ->
       Refuses 404 (addVideoToPlaylist user id videoId) w /\
       Refuses 404 (removeVideoFromPlaylist user id videoId) w) /\
  (videos w !! o = None ->
     forall playlistId pid p,
       ObjectId.cast playlistId = Some pid -> playlists w !! pid = Some p ->
       Refuses 404 (addVideoToPlaylist (Some (Playlist.owner p)) playlistId id) w /\
       forall u, foreignTo (Playlist.owner p) (Some u) ->
         Refuses 403 (addVideoToPlaylist (Some u) playlistId id) w /\
         Refuses 403 (removeVideoFromPlaylist (Some u) playlistId id) w).
Proof.
  intros Hc. split_all.
  - intros Hn. unfold togglePublishStatus, Refuses. run_handler. run_with Hc. run_with Hn.
    split; reflexivity.
  - intros Hn videoId Hvalid. unfold ObjectId.isValid in Hvalid.
    destruct (ObjectId.cast videoId) as [vid|] eqn:Ev; [| discriminate]. split.
    + unfold addVideoToPlaylist, Refuses. run_handler. rewrite Hc, Ev. run_handler.
      rewrite Hn. split; reflexivity.
    + unfold removeVideoFromPlaylist, Refuses. run_handler. rewrite Hc, Ev. run_handler.
      rewrite Hn. split; reflexivity.
  - intros Hn playlistId pid p Hp Hl. split.
    + unfold addVideoToPlaylist, Refuses. run_handler. rewrite Hp, Hc. run_handler.
      run_with Hl. rewrite String.eqb_refl. run_handler. rewrite Hn. split; reflexivity.
    + intros u Hf. apply differs_foreign in Hf. unfold differs in Hf.
      apply negb_true_iff in Hf. split.
      * unfold addVideoToPlaylist, Refuses. run_handler. rewrite Hp, Hc. run_handler.
        run_with Hl. run_with Hf. split; reflexivity.
      * unfold removeVideoFromPlaylist, Refuses. run_handler. rewrite Hp, Hc. run_handler.
        run_with Hl. run_with Hf. split; reflexivity.
Qed.

(** In [demo], Bob may not add the missing video 99 to Alice's playlist
    40, and Alice is told that it is not there. *)
Lemma missing_video_in_demo :
  Refuses 404 (addVideoToPlaylist (Some 1) id40 id99) demo /\
  Refuses 403 (addVideoToPlaylist (Some 2) id40 id99) demo.
Proof.
  destruct (other_mutations_of_what_is_missing None id99 99 demo eq_refl) as (_ & _ & V).
  destruct (V eq_refl id40 40 (Playlist.mk "favourites" "" 1 [] 5 5) eq_refl eq_refl)
    as [O F].
  split; [exact O |]. apply F.
  split; [discriminate |]. split; [reflexivity |]. intros u [= <-]. reflexivity.
Defined.
